(** * Claude usage analyzer: log-to-metrics pipeline

    A shallow embedding of the two analyzers of the repository,
    [analyze_claude_usage.py] (the plain report) and
    [claude-analyzer-v2.py] (the dashboard generator, class
    [ClaudeAnalyzer]), together with the properties of their record
    parser, conversation reconstructor, token accountant, status
    classifier and aggregator.

    Conventions of the embedding.
    - A decoded JSON document is a value of [json]; Python's [None] is
      [JNull], a [dict] is an association list read with [dict_get]
      (first binding of a key), numbers are integers.
    - A Python [str] is a [string] whose characters are code points
      below 256.
    - A Python exception is a [Raise] result; the clock read by
      [datetime.now] and the library functions [json.loads] and
      [datetime.fromisoformat] are explicit parameters. *)

From Stdlib Require Import List String Ascii ZArith Lia Bool Arith.
From Stdlib Require Import DecimalString DecimalNat Permutation Sorted.
Import ListNotations.

Set Implicit Arguments.

Open Scope string_scope.
Open Scope Z_scope.

(** ** Decoded JSON values *)

#[warnings="-register-all"]
Inductive json : Type :=
| JNull
| JBool (b : bool)
| JNum (n : Z)
| JStr (s : string)
| JArr (xs : list json)
| JObj (kvs : list (string * json)).

Definition dict : Type := list (string * json).

(** ** Python exceptions *)

Inductive exn : Type :=
| AttributeError | TypeError | ValueError | OverflowError | ZeroDivisionError.

Inductive result (A : Type) : Type :=
| Ok (a : A)
| Raise (e : exn).

Arguments Ok {A} a.
Arguments Raise {A} e.

Definition bind {A B : Type} (m : result A) (k : A -> result B) : result B :=
  match m with
  | Ok a => k a
  | Raise e => Raise e
  end.

Notation "x <- m ;; k" := (bind m (fun x => k))
  (at level 61, m at next level, right associativity).

Fixpoint mapM {A B : Type} (f : A -> result B) (l : list A) : result (list B) :=
  match l with
  | [] => Ok []
  | a :: l' => b <- f a ;; bs <- mapM f l' ;; Ok (b :: bs)
  end.

Fixpoint foldM {A S : Type} (f : S -> A -> result S) (l : list A) (s : S)
  : result S :=
  match l with
  | [] => Ok s
  | a :: l' => s' <- f s a ;; foldM f l' s'
  end.

(** ** Python primitives on decoded values *)

Module Py.

(** [d.get(k)]: [None] when the key is absent. *)
Fixpoint lookup (d : dict) (k : string) : option json :=
  match d with
  | [] => None
  | (k', v) :: d' => if String.eqb k k' then Some v else lookup d' k
  end.

(** [d.get(k, default)]. *)
Definition dict_get (d : dict) (k : string) (default : json) : json :=
  match lookup d k with
  | Some v => v
  | None => default
  end.

(** [k in d]. *)
Definition has_key (d : dict) (k : string) : bool :=
  match lookup d k with
  | Some _ => true
  | None => false
  end.

(** [x.get(...)] on a value that need not be a dict. *)
Definition as_dict (v : json) : result dict :=
  match v with
  | JObj kvs => Ok kvs
  | _ => Raise AttributeError
  end.

(** Truth value of [if v:]. *)
Definition truthy (v : json) : bool :=
  match v with
  | JNull => false
  | JBool b => b
  | JNum n => negb (n =? 0)
  | JStr s => negb (String.eqb s "")
  | JArr xs => match xs with [] => false | _ => true end
  | JObj kvs => match kvs with [] => false | _ => true end
  end.

(** [v == s] for a string literal [s]. *)
Definition eq_str (v : json) (s : string) : bool :=
  match v with
  | JStr s' => String.eqb s' s
  | _ => false
  end.

(** The integer value of an [int] or [bool]. *)
Definition as_int (v : json) : option Z :=
  match v with
  | JNum n => Some n
  | JBool b => Some (if b then 1 else 0)
  | _ => None
  end.

Definition nl : string := String "010"%char "".
Definition cr : string := String "013"%char "".
Definition tab : string := String "009"%char "".
Definition backslash : string := String "092"%char "".

Fixpoint join (sep : string) (l : list string) : string :=
  match l with
  | [] => ""
  | [s] => s
  | s :: l' => s ++ sep ++ join sep l'
  end.

(** [sep.join(items)]: every item has to be a [str]. *)
Fixpoint strs (l : list json) : result (list string) :=
  match l with
  | [] => Ok []
  | JStr s :: l' => ss <- strs l' ;; Ok (s :: ss)
  | _ :: _ => Raise TypeError
  end.

Definition join_values (sep : string) (l : list json) : result string :=
  ss <- strs l ;; Ok (join sep ss).

(** [str(n)] for an integer. *)
Definition str_of_Z (n : Z) : string := NilZero.string_of_int (Z.to_int n).
Definition str_of_nat (n : nat) : string := NilEmpty.string_of_uint (Nat.to_uint n).

Fixpoint mem_char (c : ascii) (s : string) : bool :=
  match s with
  | "" => false
  | String c' s' => Ascii.eqb c c' || mem_char c s'
  end.

Definition hex_digit (n : nat) : ascii :=
  ascii_of_nat (if (n <? 10)%nat then 48 + n else 87 + n).

(** [str.isprintable] on one code point below 256. *)
Definition printable (c : ascii) : bool :=
  let n := nat_of_ascii c in
  ((32 <=? n) && (n <? 127) || (161 <=? n) && negb (n =? 173))%nat.

Definition repr_char (quote c : ascii) : string :=
  if Ascii.eqb c quote || Ascii.eqb c "092"%char then String "092"%char (String c "")
  else if Ascii.eqb c "009"%char then backslash ++ "t"
  else if Ascii.eqb c "010"%char then backslash ++ "n"
  else if Ascii.eqb c "013"%char then backslash ++ "r"
  else if printable c then String c ""
  else let n := nat_of_ascii c in
       backslash ++ "x" ++ String (hex_digit (n / 16)) (String (hex_digit (n mod 16)) "").

Fixpoint repr_chars (quote : ascii) (s : string) : string :=
  match s with
  | "" => ""
  | String c s' => repr_char quote c ++ repr_chars quote s'
  end.

(** [repr(s)] of a [str]: single quotes unless the text has a single
    quote and no double quote. *)
Definition repr_str (s : string) : string :=
  let quote := if mem_char "039"%char s && negb (mem_char "034"%char s)
               then "034"%char else "039"%char in
  String quote (repr_chars quote s ++ String quote "").

Fixpoint repr (v : json) : string :=
  match v with
  | JNull => "None"
  | JBool b => if b then "True" else "False"
  | JNum n => str_of_Z n
  | JStr s => repr_str s
  | JArr xs => "[" ++ join ", " (map repr xs) ++ "]"
  | JObj kvs =>
      "{" ++ join ", " (map (fun kv => repr_str (fst kv) ++ ": " ++ repr (snd kv)) kvs)
          ++ "}"
  end.

(** [str(v)]. *)
Definition str (v : json) : string :=
  match v with
  | JStr s => s
  | _ => repr v
  end.

(** [len(s)] *)
Definition len (s : string) : Z := Z.of_nat (String.length s).

(** [s[:n]] *)
Definition take (n : nat) (s : string) : string := substring 0 n s.

(** [s.replace(old, new)] for a one-character [old]. *)
Fixpoint replace_char (old : ascii) (new : string) (s : string) : string :=
  match s with
  | "" => ""
  | String c s' =>
      (if Ascii.eqb c old then new else String c "") ++ replace_char old new s'
  end.

(** [str.isspace] on one code point below 256. *)
Definition is_space (c : ascii) : bool :=
  let n := nat_of_ascii c in
  ((9 <=? n) && (n <=? 13) || (28 <=? n) && (n <=? 32) || (n =? 133) || (n =? 160))%nat.

Fixpoint lstrip (s : string) : string :=
  match s with
  | "" => ""
  | String c s' => if is_space c then lstrip s' else s
  end.

Definition rev_string (s : string) : string :=
  string_of_list_ascii (rev (list_ascii_of_string s)).

(** [s.strip()] *)
Definition strip (s : string) : string :=
  rev_string (lstrip (rev_string (lstrip s))).

(** [str.lower] on one code point below 256. *)
Definition lower_char (c : ascii) : ascii :=
  let n := nat_of_ascii c in
  if ((65 <=? n) && (n <=? 90) || (192 <=? n) && (n <=? 222) && negb (n =? 215))%nat
  then ascii_of_nat (n + 32) else c.

Fixpoint lower (s : string) : string :=
  match s with
  | "" => ""
  | String c s' => String (lower_char c) (lower s')
  end.

(** [pat in s] *)
Fixpoint contains (pat s : string) : bool :=
  prefix pat s ||
  match s with
  | "" => false
  | String _ s' => contains pat s'
  end.

(** Python's [a == b] on decoded values: [True == 1], and dicts compare
    as mappings. *)
Fixpoint eqb (a b : json) {struct a} : bool :=
  match a, b with
  | JNull, JNull => true
  | JStr s, JStr t => String.eqb s t
  | JArr xs, JArr ys =>
      (fix eqb_list (xs ys : list json) {struct xs} : bool :=
         match xs, ys with
         | [], [] => true
         | x :: xs', y :: ys' => eqb x y && eqb_list xs' ys'
         | _, _ => false
         end) xs ys
  | JObj kvs, JObj kvs' =>
      (List.length kvs =? List.length kvs')%nat &&
      (fix eqb_items (kvs : dict) {struct kvs} : bool :=
         match kvs with
         | [] => true
         | (k, v) :: rest =>
             match lookup kvs' k with
             | Some v' => eqb v v'
             | None => false
             end && eqb_items rest
         end) kvs
  | _, _ =>
      match as_int a, as_int b with
      | Some m, Some n => m =? n
      | _, _ => false
      end
  end.

(** [hash(v)] succeeds: the value can key a dict or a [Counter]. *)
Definition hashable (v : json) : bool :=
  match v with
  | JArr _ | JObj _ => false
  | _ => true
  end.

Definition string_ltb (s t : string) : bool := String.ltb s t.

(** Python's [a < b]: numbers with numbers, strings with strings by code
    point, lists lexicographically; anything else raises [TypeError]. *)
Fixpoint lt (a b : json) {struct a} : result bool :=
  match a, b with
  | JStr s, JStr t => Ok (string_ltb s t)
  | JArr xs, JArr ys =>
      (fix lt_list (xs ys : list json) {struct xs} : result bool :=
         match xs, ys with
         | [], [] => Ok false
         | [], _ :: _ => Ok true
         | _ :: _, [] => Ok false
         | x :: xs', y :: ys' => if eqb x y then lt_list xs' ys' else lt x y
         end) xs ys
  | _, _ =>
      match as_int a, as_int b with
      | Some m, Some n => Ok (m <? n)
      | _, _ => Raise TypeError
      end
  end.

End Py.

(** ** Dates and times ([datetime]) *)

(** A [datetime] value; [dt_offset] is the UTC offset in microseconds
    of an aware value and [None] for a naive one. *)
Record datetime : Type := {
  dt_year : Z; dt_month : Z; dt_day : Z;
  dt_hour : Z; dt_minute : Z; dt_second : Z; dt_micro : Z;
  dt_offset : option Z
}.

Module Time.

(** Days from 1970-01-01 to the given proleptic Gregorian date. *)
Definition days_from_civil (y m d : Z) : Z :=
  let y' := if m <=? 2 then y - 1 else y in
  let era := y' / 400 in
  let yoe := y' - era * 400 in
  let doy := (153 * (m + (if 2 <? m then -3 else 9)) + 2) / 5 + d - 1 in
  let doe := yoe * 365 + yoe / 4 - yoe / 100 + doy in
  era * 146097 + doe - 719468.

Definition micros_per_second : Z := 1000000.

(** Microseconds from the epoch to the wall-clock reading. *)
Definition wall_micros (t : datetime) : Z :=
  ((days_from_civil (dt_year t) (dt_month t) (dt_day t) * 86400
    + dt_hour t * 3600 + dt_minute t * 60 + dt_second t) * micros_per_second)
  + dt_micro t.

(** The instant of an aware value, in microseconds from the epoch. *)
Definition instant (t : datetime) : option Z :=
  match dt_offset t with
  | Some off => Some (wall_micros t - off)
  | None => None
  end.

(** [timedelta.seconds]: the seconds field of the normalised
    (days, seconds, microseconds) triple, always in [0, 86400). *)
Definition td_seconds (delta : Z) : Z := (delta / micros_per_second) mod 86400.

(** [timedelta.total_seconds()], rounded down to whole seconds. *)
Definition td_total_seconds (delta : Z) : Z := delta / micros_per_second.

Definition pad2 (n : Z) : string :=
  if n <? 10 then "0" ++ Py.str_of_Z n else Py.str_of_Z n.

Definition pad4 (n : Z) : string :=
  if n <? 10 then "000" ++ Py.str_of_Z n
  else if n <? 100 then "00" ++ Py.str_of_Z n
  else if n <? 1000 then "0" ++ Py.str_of_Z n
  else Py.str_of_Z n.

(** [t.date().strftime('%Y-%m-%d')], which is also
    [t.date().isoformat()]. *)
Definition date_str (t : datetime) : string :=
  pad4 (dt_year t) ++ "-" ++ pad2 (dt_month t) ++ "-" ++ pad2 (dt_day t).

End Time.

(** A model of [datetime.fromisoformat] on the layout
    [YYYY-MM-DD?HH:MM:SS], optionally followed by a fraction of three or
    six digits and by an offset [+HH:MM] or [-HH:MM]; every other text is
    reported as unparseable.  The general results below take the library
    function as a parameter; this model instantiates it in examples. *)
Module Iso.

Definition digit (c : ascii) : option Z :=
  let n := nat_of_ascii c in
  if ((48 <=? n) && (n <=? 57))%nat then Some (Z.of_nat (n - 48)) else None.

Fixpoint digits (n : nat) (l : list ascii) (acc : Z) : option (Z * list ascii) :=
  match n with
  | O => Some (acc, l)
  | S n' =>
      match l with
      | c :: l' =>
          match digit c with
          | Some d => digits n' l' (acc * 10 + d)
          | None => None
          end
      | [] => None
      end
  end.

Definition expect (c : ascii) (l : list ascii) : option (list ascii) :=
  match l with
  | c' :: l' => if Ascii.eqb c c' then Some l' else None
  | [] => None
  end.

Definition obind {A B : Type} (m : option A) (k : A -> option B) : option B :=
  match m with
  | Some a => k a
  | None => None
  end.

Notation "x <-? m ;; k" := (obind m (fun x => k))
  (at level 61, m at next level, right associativity).

Definition is_leap (y : Z) : bool :=
  (y mod 4 =? 0) && (negb (y mod 100 =? 0) || (y mod 400 =? 0)).

Definition days_in_month (y m : Z) : Z :=
  if m =? 2 then (if is_leap y then 29 else 28)
  else if (m =? 4) || (m =? 6) || (m =? 9) || (m =? 11) then 30 else 31.

Definition parse_fraction (l : list ascii) : option (Z * list ascii) :=
  match l with
  | "."%char :: l' =>
      match digits 6 l' 0 with
      | Some r => Some r
      | None =>
          match digits 3 l' 0 with
          | Some (ms, rest) => Some (ms * 1000, rest)
          | None => None
          end
      end
  | _ => Some (0, l)
  end.

Definition parse_offset (l : list ascii) : option (option Z) :=
  match l with
  | [] => Some None
  | sign :: l' =>
      sgn <-? (if Ascii.eqb sign "+"%char then Some 1
               else if Ascii.eqb sign "-"%char then Some (-1) else None) ;;
      hm <-? digits 2 l' 0 ;;
      l2 <-? expect ":"%char (snd hm) ;;
      mm <-? digits 2 l2 0 ;;
      match snd mm with
      | [] =>
          if (fst hm <? 24) && (fst mm <? 60)
          then Some (Some (sgn * (fst hm * 3600 + fst mm * 60) * Time.micros_per_second))
          else None
      | _ :: _ => None
      end
  end.

Definition fromisoformat (s : string) : option datetime :=
  let l := list_ascii_of_string s in
  y <-? digits 4 l 0 ;;
  l1 <-? expect "-"%char (snd y) ;;
  m <-? digits 2 l1 0 ;;
  l2 <-? expect "-"%char (snd m) ;;
  d <-? digits 2 l2 0 ;;
  match snd d with
  | _sep :: l3 =>
      hh <-? digits 2 l3 0 ;;
      l4 <-? expect ":"%char (snd hh) ;;
      mi <-? digits 2 l4 0 ;;
      l5 <-? expect ":"%char (snd mi) ;;
      ss <-? digits 2 l5 0 ;;
      fr <-? parse_fraction (snd ss) ;;
      off <-? parse_offset (snd fr) ;;
      if (1 <=? fst y) && (1 <=? fst m) && (fst m <=? 12) && (1 <=? fst d)
         && (fst d <=? days_in_month (fst y) (fst m))
         && (fst hh <? 24) && (fst mi <? 60) && (fst ss <? 60)
      then Some {| dt_year := fst y; dt_month := fst m; dt_day := fst d;
                   dt_hour := fst hh; dt_minute := fst mi; dt_second := fst ss;
                   dt_micro := fst fr; dt_offset := off |}
      else None
  | [] => None
  end.

End Iso.

(** ** Data model of the dashboard analyzer *)

(** The normalised message, [message_info] in the source. *)
Record message_info : Type := {
  role : json;
  content : json;
  timestamp : json;
  tokens : Z
}.

(** The reconstructed conversation. *)
Record Conversation : Type := {
  id : json;
  file_path : string;
  messages : list message_info;
  total_tokens : Z;
  model : json;
  created_at : json;
  last_activity : json;
  status : string;
  project_context : string
}.

(** [total / max(count, 1)], kept as the exact fraction. *)
Record ratio : Type := { numerator : Z; denominator : Z }.

(** The least magnitude that no longer rounds to a float: halfway
    between the largest float, [2 ** 1024 - 2 ** 971], and [2 ** 1024]. *)
Definition float_overflow : Z := 2 ^ 1024 - 2 ^ 970.

(** [a / b] on two [int]s.  The result is the exact quotient rounded to
    the nearest float, kept here as the exact fraction;
    [OverflowError] when the rounded quotient is out of range,
    [ZeroDivisionError] for a zero divisor. *)
Definition true_div (a b : Z) : result ratio :=
  if b =? 0 then Raise ZeroDivisionError
  else if float_overflow * Z.abs b <=? Z.abs a then Raise OverflowError
  else Ok {| numerator := a; denominator := b |}.

(** One bucket of [daily_usage]. *)
Record day_bucket : Type := { day_conversations : Z; day_tokens : Z }.

Module Stats.
(** [self.usage_stats] once it has been computed. *)
Record t : Type := {
  total_conversations : Z;
  total_messages : Z;
  total_tokens : Z;
  models : list (json * Z);
  projects : list (json * Z);
  daily_usage : list (string * day_bucket);
  statuses : list (json * Z);
  avg_tokens_per_conversation : ratio;
  avg_messages_per_conversation : ratio
}.
End Stats.

(** The state of a [ClaudeAnalyzer]; [usage_stats] is [None] while it is
    still the empty dict of [__init__]. *)
Record analyzer : Type := {
  conversations : list Conversation;
  usage_stats : option Stats.t
}.

Definition init : analyzer := {| conversations := []; usage_stats := None |}.

(** A file on disk: [str(file_path)] and [file_path.stem]. *)
Record file_id : Type := { path : string; stem : string }.

(** ** Data model of the plain report *)

Module Report.

(** The dict of [analyze_basic_stats]. *)
Record basic_stats : Type := {
  total_messages : Z;
  unique_sessions : Z;
  user_types : list (json * Z);
  message_types : list (json * Z)
}.

(** The dict of [analyze_tokens]; the last three keys are present when
    the distribution is not empty. *)
Record token_stats : Type := {
  total_input_tokens : Z;
  total_output_tokens : Z;
  total_cache_tokens : Z;
  messages_with_usage : Z;
  token_distribution : list Z;
  avg_tokens_per_message : option ratio;
  max_tokens_per_message : option Z;
  min_tokens_per_message : option Z
}.

(** The dict of [analyze_timeline]. *)
Record timeline : Type := {
  daily_usage : list (string * Z);
  hourly_distribution : list (Z * Z)
}.

(** The dict of [analyze_sessions]; a duration of [d] minutes is the
    fraction of its microseconds over 60000000, and each average is
    present when its list is not empty. *)
Record session_stats : Type := {
  total_sessions : Z;
  messages_per_session : list Z;
  session_durations : list ratio;
  avg_messages_per_session : option ratio;
  avg_session_duration_minutes : option ratio
}.


End Report.

(** ** Sorting with Python's comparison *)

Section Sorting.

Variable A : Type.

(** Puts [x] in front of the first element that is not smaller than it.
    [x] comes from the left of the elements of [l], so equal keys keep
    their order. *)
Fixpoint insert_keyed (x : json * A) (l : list (json * A))
  : result (list (json * A)) :=
  match l with
  | [] => Ok [x]
  | y :: l' =>
      smaller <- Py.lt (fst y) (fst x) ;;
      if smaller then r <- insert_keyed x l' ;; Ok (y :: r)
      else Ok (x :: y :: l')
  end.

Fixpoint sort_keyed (l : list (json * A)) : result (list (json * A)) :=
  match l with
  | [] => Ok []
  | x :: l' => s <- sort_keyed l' ;; insert_keyed x s
  end.

(** [l.sort(key=key)] and [sorted(l, key=key)]: the keys are computed
    first, the sort is stable and uses [<] only; a comparison that raises
    aborts it.  On keys that are all strings or all numbers every stable
    comparison sort gives this list, and on two or more keys of kinds
    that do not compare every comparison sort raises. *)
Definition sort_by (key : A -> result json) (l : list A) : result (list A) :=
  keyed <- mapM (fun x => k <- key x ;; Ok (k, x)) l ;;
  s <- sort_keyed keyed ;;
  Ok (map snd s).

(** [sorted(l, key=key, reverse=True)]: equal keys keep their order. *)
Definition sort_by_reverse (key : A -> result json) (l : list A) : result (list A) :=
  s <- sort_by key (rev l) ;; Ok (rev s).

End Sorting.

(** ** Counters and grouping dicts keyed by decoded values *)

Section KeyedDicts.

Variable V : Type.

(** [d[k] = f(d[k])] on a [defaultdict] whose missing entries read
    [default]; keys are compared with [==], a new key goes last. *)
Fixpoint upsert (default : V) (f : V -> V) (k : json) (d : list (json * V))
  : list (json * V) :=
  match d with
  | [] => [(k, f default)]
  | (k', v) :: d' =>
      if Py.eqb k' k then (k', f v) :: d'
      else (k', v) :: upsert default f k d'
  end.

Definition update (default : V) (f : V -> V) (k : json) (d : list (json * V))
  : result (list (json * V)) :=
  if Py.hashable k then Ok (upsert default f k d) else Raise TypeError.

End KeyedDicts.

(** [Counter(keys)] followed by [dict(...)]. *)
Definition counter (keys : list json) : result (list (json * Z)) :=
  foldM (fun d k => update 0 (fun n => n + 1) k d) keys [].

Fixpoint upsert_str {V : Type} (default : V) (f : V -> V) (k : string)
  (d : list (string * V)) : list (string * V) :=
  match d with
  | [] => [(k, f default)]
  | (k', v) :: d' =>
      if String.eqb k' k then (k', f v) :: d'
      else (k', v) :: upsert_str default f k d'
  end.

(** ** Sample logs *)

Module Samples.

Definition quoted (s : string) : string :=
  String "034"%char s ++ String "034"%char "".

Definition member (k v : string) : string := quoted k ++ ":" ++ v.

Definition object (members : list string) : string :=
  "{" ++ Py.join "," members ++ "}".

(** The two entries of the example session of the specification. *)
Definition user_hi : json :=
  JObj [("sessionId", JStr "a"); ("type", JStr "user");
        ("message", JObj [("content", JStr "hi")]);
        ("timestamp", JStr "2024-01-01T00:00:00Z")].

Definition assistant_hello : json :=
  JObj [("sessionId", JStr "a"); ("type", JStr "assistant");
        ("message",
         JObj [("content", JArr [JObj [("type", JStr "text"); ("text", JStr "hello")]]);
               ("model", JStr "m1");
               ("usage", JObj [("input_tokens", JNum 3); ("output_tokens", JNum 2)])]);
        ("timestamp", JStr "2024-01-01T00:01:00Z")].

Definition user_hi_text : string :=
  object [member "sessionId" (quoted "a"); member "type" (quoted "user");
          member "message" (object [member "content" (quoted "hi")]);
          member "timestamp" (quoted "2024-01-01T00:00:00Z")].

Definition assistant_hello_text : string :=
  object [member "sessionId" (quoted "a"); member "type" (quoted "assistant");
          member "message"
            (object [member "content"
                       ("[" ++ object [member "type" (quoted "text");
                                       member "text" (quoted "hello")] ++ "]");
                     member "model" (quoted "m1");
                     member "usage" (object [member "input_tokens" "3";
                                             member "output_tokens" "2"])]);
          member "timestamp" (quoted "2024-01-01T00:01:00Z")].


(** An assistant entry whose content is one tool use. *)
Definition assistant_bash : json :=
  JObj [("sessionId", JStr "a"); ("type", JStr "assistant");
        ("message",
         JObj [("content", JArr [JObj [("type", JStr "tool_use"); ("name", JStr "Bash")]])])].

(** Two entries whose timestamps carry different UTC offsets. *)
Definition user_offset : json :=
  JObj [("sessionId", JStr "a"); ("type", JStr "user");
        ("message", JObj [("content", JStr "first")]);
        ("timestamp", JStr "2024-01-01T12:00:00+05:00")].

Definition user_utc : json :=
  JObj [("sessionId", JStr "a"); ("type", JStr "user");
        ("message", JObj [("content", JStr "second")]);
        ("timestamp", JStr "2024-01-01T08:00:00Z")].

(** Entries without a [sessionId], and one that names a synthetic key. *)
Definition anonymous : json :=
  JObj [("type", JStr "user"); ("message", JObj [("content", JStr "hi")])].

Definition named_session_1 : json :=
  JObj [("sessionId", JStr "session_1"); ("type", JStr "user");
        ("message", JObj [("content", JStr "again")])].

Definition anonymous_text : string :=
  object [member "type" (quoted "user");
          member "message" (object [member "content" (quoted "hi")])].

Definition named_session_1_text : string :=
  object [member "sessionId" (quoted "session_1"); member "type" (quoted "user");
          member "message" (object [member "content" (quoted "again")])].

(** [json.loads] on the sample lines; every other text, the empty one
    included, is rejected. *)
Definition table : list (string * json) :=
  [(user_hi_text, user_hi); (assistant_hello_text, assistant_hello);
   (anonymous_text, anonymous); (named_session_1_text, named_session_1)].

Fixpoint assoc (t : list (string * json)) (s : string) : option json :=
  match t with
  | [] => None
  | (k, v) :: t' => if String.eqb k s then Some v else assoc t' s
  end.

Definition loads (s : string) : option json := assoc table s.

(** The example file: two valid lines around a blank and a broken one. *)
Definition example_lines : list string :=
  [user_hi_text ++ Py.nl; Py.nl; "not-json" ++ Py.nl; assistant_hello_text ++ Py.nl].

Definition anonymous_lines : list string :=
  [anonymous_text ++ Py.nl; named_session_1_text ++ Py.nl; anonymous_text ++ Py.nl].

Definition log_file : file_id := {| path := "logs/a.jsonl"; stem := "a" |}.
Definition other_file : file_id := {| path := "logs/b.jsonl"; stem := "b" |}.
Definition json_file : file_id := {| path := "logs/c.json"; stem := "c" |}.

(** The content of a [.json] file: one user message with an empty
    model. *)
Definition flat_messages : json :=
  JArr [JObj [("role", JStr "user"); ("content", JStr "hello"); ("model", JStr "")]].

(** A conversation whose only message spans two lines. *)
Definition two_line_message : message_info :=
  {| role := JStr "user"; content := JStr ("a" ++ Py.nl ++ "b");
     timestamp := JStr "2024-01-01T00:00:00Z"; tokens := 0 |}.

Definition two_line_conversation : Conversation :=
  {| id := JStr "a"; file_path := "logs/a.jsonl"; messages := [two_line_message];
     total_tokens := 0; model := JStr "unknown";
     created_at := JStr "2024-01-01T00:00:00Z";
     last_activity := JStr "2024-01-01T00:00:00Z";
     status := "inactive"; project_context := "general" |}.

(** A conversation last active at midnight, and the clock one day and
    two minutes later, in microseconds from the epoch. *)
Definition midnight_conversation : Conversation :=
  {| id := JStr "a"; file_path := "logs/a.jsonl"; messages := [];
     total_tokens := 0; model := JStr "unknown";
     created_at := JStr "2024-01-01T00:00:00Z";
     last_activity := JStr "2024-01-01T00:00:00Z";
     status := "completed"; project_context := "unknown" |}.

(** The entry that the two-line conversation is reconstructed from. *)
Definition two_line_entry : json :=
  JObj [("sessionId", JStr "a"); ("type", JStr "user");
        ("message", JObj [("content", JStr ("a" ++ Py.nl ++ "b"))]);
        ("timestamp", JStr "2024-01-01T00:00:00Z")].

Definition two_line_analyzer : analyzer :=
  {| conversations := [two_line_conversation]; usage_stats := None |}.

Definition midnight : Z := 1704067200 * 1000000.
Definition two_hours_later : Z := (1704067200 + 7200) * 1000000.
Definition next_day_0002 : Z := (1704067200 + 86400 + 120) * 1000000.

(** A [.json] document whose messages cannot be iterated. *)
Definition null_messages : json := JObj [("messages", JNull)].

(** A [.json] document of three elements: the second is not an object
    and the timestamps run backwards. *)
Definition unordered_messages : json :=
  JArr [JObj [("role", JStr "user"); ("content", JStr "import os");
              ("timestamp", JStr "2024-01-02T00:00:00Z")];
        JNum 7;
        JObj [("role", JStr "assistant"); ("content", JStr "done");
              ("model", JStr "m2"); ("timestamp", JStr "2024-01-01T00:00:00Z")]].

(** An entry that is neither a user nor an assistant entry and whose
    message is not a mapping. *)
Definition summary_entry : json :=
  JObj [("sessionId", JStr "a"); ("type", JStr "summary");
        ("message", JStr "not a mapping")].



(** A conversation whose model is a list. *)
Definition list_model_conversation : Conversation :=
  {| id := JStr "a"; file_path := "logs/a.jsonl"; messages := [];
     total_tokens := 0; model := JArr [JStr "m1"];
     created_at := JNull; last_activity := JNull;
     status := "unknown"; project_context := "general" |}.

Definition list_model_analyzer : analyzer :=
  {| conversations := [list_model_conversation]; usage_stats := None |}.

(** A conversation whose only message is short and has one line. *)
Definition plain_conversation : Conversation :=
  {| id := JStr "a"; file_path := "logs/a.jsonl";
     messages := [{| role := JStr "user"; content := JStr "How do I IMPORT os?";
                     timestamp := JStr "2024-01-01T00:00:00Z"; tokens := 4 |}];
     total_tokens := 4; model := JStr "unknown";
     created_at := JStr "2024-01-01T00:00:00Z";
     last_activity := JStr "2024-01-01T00:00:00Z";
     status := "inactive"; project_context := "python" |}.

Definition plain_analyzer : analyzer :=
  {| conversations := [plain_conversation]; usage_stats := None |}.

(** A conversation whose last activity carries no UTC offset. *)
Definition naive_conversation : Conversation :=
  {| id := JStr "a"; file_path := "logs/a.jsonl"; messages := [];
     total_tokens := 0; model := JStr "unknown";
     created_at := JStr "2024-01-01T00:00:00";
     last_activity := JStr "2024-01-01T00:00:00";
     status := "completed"; project_context := "unknown" |}.

(** The entries of a plain report: three of session [a], whose
    timestamps span seven hours, and one without a [sessionId]. *)
Definition report_entries : list json :=
  [user_hi; assistant_hello; anonymous; user_offset].

Definition anonymous_entries : list json := [anonymous; anonymous].

(** An entry of session [a] whose timestamp carries no UTC offset. *)
Definition user_naive : json :=
  JObj [("sessionId", JStr "a"); ("type", JStr "user");
        ("message", JObj [("content", JStr "later")]);
        ("timestamp", JStr "2024-01-01T09:00:00")].

Definition mixed_entries : list json := [user_hi; user_naive].

(** An analyzer that holds an older conversation before a newer one and
    one without any activity. *)
Definition newer_conversation : Conversation :=
  {| id := JStr "b"; file_path := "logs/b.jsonl"; messages := [];
     total_tokens := 0; model := JStr "unknown";
     created_at := JStr "2024-01-02T00:00:00Z";
     last_activity := JStr "2024-01-02T00:00:00Z";
     status := "inactive"; project_context := "general" |}.

Definition idle_conversation : Conversation :=
  {| id := JStr "c"; file_path := "logs/c.json"; messages := [];
     total_tokens := 0; model := JStr "unknown";
     created_at := JNull; last_activity := JNull;
     status := "unknown"; project_context := "general" |}.

Definition three_day_analyzer : analyzer :=
  {| conversations := [idle_conversation; midnight_conversation; newer_conversation];
     usage_stats := None |}.

(** An assistant entry that reports a count of 311 digits, and the
    conversation that is reconstructed from it. *)
Definition huge_entry : json :=
  JObj [("sessionId", JStr "a"); ("type", JStr "assistant");
        ("message",
         JObj [("content", JStr "ok");
               ("usage", JObj [("input_tokens", JNum (10 ^ 310));
                               ("output_tokens", JNum 0)])])].

Definition huge_conversation : Conversation :=
  {| id := JStr "a"; file_path := "logs/a.jsonl";
     messages := [{| role := JStr "assistant"; content := JStr "ok";
                     timestamp := JNull; tokens := 10 ^ 310 |}];
     total_tokens := 10 ^ 310; model := JStr "unknown";
     created_at := JNull; last_activity := JNull;
     status := "unknown"; project_context := "general" |}.

Definition huge_analyzer : analyzer :=
  {| conversations := [huge_conversation]; usage_stats := None |}.

(** An assistant entry whose content has a text part, a tool use named
    Bash and a tool use without a name. *)
Definition assistant_three_parts : json :=
  JObj [("sessionId", JStr "a"); ("type", JStr "assistant");
        ("message",
         JObj [("content",
                JArr [JObj [("type", JStr "text"); ("text", JStr "hello")];
                      JObj [("type", JStr "tool_use"); ("name", JStr "Bash")];
                      JObj [("type", JStr "tool_use")]])])].

(** Two user entries with one timestamp, told apart by their content. *)
Definition tie_one : json :=
  JObj [("sessionId", JStr "a"); ("type", JStr "user");
        ("message", JObj [("content", JStr "one")]);
        ("timestamp", JStr "2024-01-01T00:00:00Z")].

Definition tie_two : json :=
  JObj [("sessionId", JStr "a"); ("type", JStr "user");
        ("message", JObj [("content", JStr "two")]);
        ("timestamp", JStr "2024-01-01T00:00:00Z")].

Definition tied_entries : list json := [assistant_hello; tie_one; tie_two].



End Samples.

(** ** The dashboard analyzer, [claude-analyzer-v2.py] *)

Section Dashboard.

(** [json.loads]; [None] stands for [json.JSONDecodeError]. *)
Variable loads : string -> option json.

(** [datetime.fromisoformat]; [None] stands for [ValueError]. *)
Variable fromisoformat : string -> option datetime.

(** [estimate_tokens] *)
Definition estimate_tokens (text : json) : Z :=
  if negb (Py.truthy text) then 0
  else Py.len (Py.str text) / 4.

(** [determine_conversation_status]; [now] is the reading of
    [datetime.now(timezone.utc)] in microseconds from the epoch.  Inside
    the [try], [.replace] raises on a value that is not a string,
    [fromisoformat] on a text it cannot parse and the subtraction on a
    naive value; the bare [except] turns each into ['unknown']. *)
Definition determine_conversation_status (now : Z) (conversation : Conversation)
  : string :=
  if negb (Py.truthy (last_activity conversation)) then "unknown"
  else
    match last_activity conversation with
    | JStr s =>
        match fromisoformat (Py.replace_char "Z"%char "+00:00" s) with
        | Some last_time =>
            match Time.instant last_time with
            | Some at_ =>
                let time_diff := now - at_ in
                if Time.td_seconds time_diff <? 300 then "active"
                else if Time.td_seconds time_diff <? 3600 then "recent"
                else "inactive"
            | None => "unknown"
            end
        | None => "unknown"
        end
    | _ => "unknown"
    end.

Definition any_in (terms : list string) (text : string) : bool :=
  existsb (fun term => Py.contains term text) terms.

(** [extract_project_context] *)
Definition extract_project_context (conversation : Conversation) : string :=
  let content_sample :=
    fold_left (fun acc msg => acc ++ Py.take 500 (Py.str (content msg)))
              (firstn 3 (messages conversation)) "" in
  let content_lower := Py.lower content_sample in
  if any_in ["python"; ".py"; "import "; "def "] content_lower then "python"
  else if any_in ["javascript"; ".js"; "npm"; "node"] content_lower then "javascript"
  else if any_in ["react"; "jsx"; "component"] content_lower then "react"
  else if any_in ["html"; "css"; "web"; "website"] content_lower then "web"
  else if any_in ["debug"; "error"; "bug"; "fix"] content_lower then "debugging"
  else if any_in ["data"; "analysis"; "csv"; "pandas"] content_lower then "data"
  else "general".

(** The dict literal that opens [process_session_entries] and
    [process_conversation_file]. *)
Definition new_conversation (conversation_id : json) (file_path : string)
  : Conversation :=
  {| id := conversation_id; file_path := file_path; messages := [];
     total_tokens := 0; model := JStr "unknown"; created_at := JNull;
     last_activity := JNull; status := "completed";
     project_context := "unknown" |}.

(** The inner loop over [content_parts]: what one part appends to
    [text_content]. *)
Definition append_part (text_content : list json) (part : json) : list json :=
  match part with
  | JObj p =>
      if Py.eq_str (Py.dict_get p "type" JNull) "text"
      then text_content ++ [Py.dict_get p "text" (JStr "")]
      else if Py.eq_str (Py.dict_get p "type" JNull) "tool_use"
      then let tool_name := Py.dict_get p "name" (JStr "unknown_tool") in
           text_content ++ [JStr ("[Tool: " ++ Py.str tool_name ++ "]")]
      else text_content
  | _ => text_content
  end.

(** The content of an assistant message. *)
Definition assistant_content (content_parts : json) : result json :=
  match content_parts with
  | JArr parts =>
      s <- Py.join_values Py.nl (fold_left append_part parts []) ;; Ok (JStr s)
  | JStr s => Ok (JStr s)
  | _ => Ok (JStr "")
  end.

(** [input_tokens + output_tokens] as it reaches [total_tokens +=]: a
    sum of two [int] or [bool] values; any other operand raises
    [TypeError], at the sum or at the accumulation that follows it. *)
Definition add_tokens (input_tokens output_tokens : json) : result Z :=
  match Py.as_int input_tokens, Py.as_int output_tokens with
  | Some a, Some b => Ok (a + b)
  | _, _ => Raise TypeError
  end.

(** The token count read from [message.usage] of an assistant entry;
    0 when the usage is missing or empty. *)
Definition usage_tokens (message_data : dict) : result Z :=
  let usage := Py.dict_get message_data "usage" (JObj []) in
  if Py.truthy usage then
    u <- Py.as_dict usage ;;
    add_tokens (Py.dict_get u "input_tokens" (JNum 0))
               (Py.dict_get u "output_tokens" (JNum 0))
  else Ok 0.

(** What the branches on [entry.get('type')] leave behind: the running
    model of the conversation and the role, content and tokens of the
    message. *)
Definition extract_message (conversation : Conversation) (e : dict)
  : result (json * json * json * Z) :=
  let type := Py.dict_get e "type" JNull in
  if Py.eq_str type "user" then
    message_content <- Py.as_dict (Py.dict_get e "message" (JObj [])) ;;
    Ok (model conversation, JStr "user",
        Py.dict_get message_content "content" (JStr ""), 0)
  else if Py.eq_str type "assistant" then
    message_data <- Py.as_dict (Py.dict_get e "message" (JObj [])) ;;
    let model' :=
      if Py.truthy (Py.dict_get message_data "model" JNull)
      then Py.dict_get message_data "model" JNull
      else model conversation in
    text <- assistant_content (Py.dict_get message_data "content" (JArr [])) ;;
    n <- usage_tokens message_data ;;
    Ok (model', JStr "assistant", text, n)
  else
    Ok (model conversation, Py.dict_get e "type" (JStr "unknown"), JStr "", 0).

(** The body of the loop [for entry in entries]. *)
Definition process_entry (conversation : Conversation) (entry : json)
  : result Conversation :=
  e <- Py.as_dict entry ;;
  x <- extract_message conversation e ;;
  let '(model', role', content', tokens0) := x in
  let tokens' := if tokens0 =? 0 then estimate_tokens content' else tokens0 in
  let message := {| role := role'; content := content';
                    timestamp := Py.dict_get e "timestamp" JNull;
                    tokens := tokens' |} in
  let stamped := Py.truthy (timestamp message) in
  Ok {| id := id conversation;
        file_path := file_path conversation;
        messages := messages conversation ++ [message];
        total_tokens := total_tokens conversation + tokens';
        model := model';
        created_at :=
          if stamped && negb (Py.truthy (created_at conversation))
          then timestamp message else created_at conversation;
        last_activity :=
          if stamped then timestamp message else last_activity conversation;
        status := status conversation;
        project_context := project_context conversation |}.

(** The two assignments that close the reconstruction. *)
Definition classify (now : Z) (conversation : Conversation) : Conversation :=
  let with_status :=
    {| id := id conversation;
       file_path := file_path conversation;
       messages := messages conversation;
       total_tokens := total_tokens conversation;
       model := model conversation;
       created_at := created_at conversation;
       last_activity := last_activity conversation;
       status := determine_conversation_status now conversation;
       project_context := project_context conversation |} in
  {| id := id with_status;
     file_path := file_path with_status;
     messages := messages with_status;
     total_tokens := total_tokens with_status;
     model := model with_status;
     created_at := created_at with_status;
     last_activity := last_activity with_status;
     status := status with_status;
     project_context := extract_project_context with_status |}.

(** The sort key [lambda x: x.get('timestamp', '')]. *)
Definition timestamp_key (x : json) : result json :=
  d <- Py.as_dict x ;; Ok (Py.dict_get d "timestamp" (JStr "")).

(** [process_session_entries], up to its last statement: the
    conversation that the method appends to [self.conversations]. *)
Definition process_session_entries (now : Z) (entries : list json)
  (session_id : json) (file_path : string) : result Conversation :=
  sorted <- sort_by timestamp_key entries ;;
  conversation <- foldM process_entry sorted (new_conversation session_id file_path) ;;
  Ok (classify now conversation).

(** The grouping dict [conversations_by_session]: session keys in the
    order of their first line, each with its entries in line order. *)
Definition sessions : Type := list (json * list json).

(** [entry.get('sessionId', f'session_{line_num}')] *)
Definition session_id_of (line_num : nat) (entry : json) : result json :=
  e <- Py.as_dict entry ;;
  Ok (Py.dict_get e "sessionId" (JStr ("session_" ++ Py.str_of_nat line_num))).

(** [conversations_by_session[session_id].append(entry)] *)
Definition group_entry (line_num : nat) (entry : json) (groups : sessions)
  : result sessions :=
  session_id <- session_id_of line_num entry ;;
  update [] (fun entries => (entries ++ [entry])%list) session_id groups.

(** The reading loop of [process_jsonl_file] from line [line_num] on.  A
    line that [json.loads] rejects is reported (its number joins
    [warnings]) and skipped; any other exception leaves the loop. *)
Fixpoint read_lines (line_num : nat) (lines : list string) (groups : sessions)
  (warnings : list nat) : sessions * list nat * result unit :=
  match lines with
  | [] => (groups, warnings, Ok tt)
  | line :: rest =>
      match loads (Py.strip line) with
      | None => read_lines (S line_num) rest groups (warnings ++ [line_num])
      | Some entry =>
          match group_entry line_num entry groups with
          | Ok groups' => read_lines (S line_num) rest groups' warnings
          | Raise e => (groups, warnings, Raise e)
          end
      end
  end.

Definition append_conversation (self : analyzer) (conv : Conversation) : analyzer :=
  {| conversations := conversations self ++ [conv];
     usage_stats := usage_stats self |}.

(** The loop over [conversations_by_session.items()].  [clock k] is the
    reading of the clock when [k] conversations have been stored. *)
Fixpoint process_sessions (clock : nat -> Z) (groups : sessions)
  (file_path : string) (self : analyzer) : analyzer * result unit :=
  match groups with
  | [] => (self, Ok tt)
  | (session_id, entries) :: rest =>
      match process_session_entries (clock (List.length (conversations self)))
                                    entries session_id file_path with
      | Ok conv => process_sessions clock rest file_path (append_conversation self conv)
      | Raise e => (self, Raise e)
      end
  end.

(** [process_jsonl_file]: the analyzer afterwards, the numbers of the
    lines reported as unparseable, and the outcome. *)
Definition process_jsonl_file (clock : nat -> Z) (self : analyzer)
  (file : file_id) (lines : list string) : analyzer * list nat * result unit :=
  let '(groups, warnings, outcome) := read_lines 1 lines [] [] in
  match outcome with
  | Ok _ =>
      let (self', outcome') := process_sessions clock groups (path file) self in
      (self', warnings, outcome')
  | Raise e => (self, warnings, Raise e)
  end.

(** The values that [for msg in messages] visits in
    [process_conversation_file]. *)
Definition file_messages (data : json) : result (list json) :=
  let messages :=
    match data with
    | JArr _ => data
    | JObj d => if Py.has_key d "messages" then Py.dict_get d "messages" JNull
                else JArr [data]
    | _ => JArr [data]
    end in
  match messages with
  | JArr l => Ok l
  | JStr s => Ok (map (fun c => JStr (String c "")) (list_ascii_of_string s))
  | JObj d => Ok (map (fun kv => JStr (fst kv)) d)
  | _ => Raise TypeError
  end.

(** The body of the loop of [process_conversation_file]. *)
Definition process_message (conv : Conversation) (msg : json) : Conversation :=
  match msg with
  | JObj m =>
      let message := {| role := Py.dict_get m "role" (JStr "unknown");
                        content := Py.dict_get m "content" (JStr "");
                        timestamp := Py.dict_get m "timestamp" JNull;
                        tokens := estimate_tokens (Py.dict_get m "content" (JStr "")) |} in
      let stamped := Py.truthy (timestamp message) in
      {| id := id conv;
         file_path := file_path conv;
         messages := messages conv ++ [message];
         total_tokens := total_tokens conv + tokens message;
         model := if Py.has_key m "model" then Py.dict_get m "model" JNull
                  else model conv;
         created_at :=
           if stamped && negb (Py.truthy (created_at conv))
           then timestamp message else created_at conv;
         last_activity :=
           if stamped then timestamp message else last_activity conv;
         status := status conv;
         project_context := project_context conv |}
  | _ => conv
  end.

(** [process_conversation_file], up to its final append. *)
Definition process_conversation_file (now : Z) (data : json) (file : file_id)
  : result Conversation :=
  msgs <- file_messages data ;;
  Ok (classify now
        (fold_left process_message msgs
                   (new_conversation (JStr (stem file)) (path file)))).

(** The first loop of [load_conversation_data], over the [.json] files;
    every exception skips the file. *)
Fixpoint load_json_files (clock : nat -> Z) (files : list (file_id * string))
  (self : analyzer) : analyzer :=
  match files with
  | [] => self
  | (file, text) :: rest =>
      let self' :=
        match loads text with
        | Some data =>
            match process_conversation_file
                    (clock (List.length (conversations self))) data file with
            | Ok conv => append_conversation self conv
            | Raise _ => self
            end
        | None => self
        end in
      load_json_files clock rest self'
  end.

(** The second loop, over the [.jsonl] files. *)
Fixpoint load_jsonl_files (clock : nat -> Z) (files : list (file_id * list string))
  (self : analyzer) : analyzer :=
  match files with
  | [] => self
  | (file, lines) :: rest =>
      load_jsonl_files clock rest (fst (fst (process_jsonl_file clock self file lines)))
  end.

(** [load_conversation_data] on the files that the directory scan (or
    the single-file mode) found. *)
Definition load_conversation_data (clock : nat -> Z)
  (json_files : list (file_id * string))
  (jsonl_files : list (file_id * list string)) (self : analyzer) : analyzer :=
  load_jsonl_files clock jsonl_files (load_json_files clock json_files self).

(** The date under which [analyze_usage_patterns] files a conversation;
    [None] when [created_at] is empty or the [try] block raises. *)
Definition daily_key (conv : Conversation) : option string :=
  if Py.truthy (created_at conv) then
    match created_at conv with
    | JStr s =>
        match fromisoformat (Py.replace_char "Z"%char "+00:00" s) with
        | Some t => Some (Time.date_str t)
        | None => None
        end
    | _ => None
    end
  else None.

Definition daily_step (daily_usage : list (string * day_bucket)) (conv : Conversation)
  : list (string * day_bucket) :=
  match daily_key conv with
  | Some date_str =>
      upsert_str {| day_conversations := 0; day_tokens := 0 |}
                 (fun b => {| day_conversations := day_conversations b + 1;
                              day_tokens := day_tokens b + total_tokens conv |})
                 date_str daily_usage
  | None => daily_usage
  end.

Definition sum (l : list Z) : Z := fold_left Z.add l 0.

(** The dict that [analyze_usage_patterns] assigns to
    [self.usage_stats]; a model that cannot be hashed makes [Counter]
    raise, and an average that is out of the range of floats makes the
    division raise. *)
Definition usage_statistics (convs : list Conversation) : result Stats.t :=
  let total_conversations := Z.of_nat (List.length convs) in
  let total_messages :=
    sum (map (fun conv => Z.of_nat (List.length (messages conv))) convs) in
  let total_tokens := sum (map total_tokens convs) in
  models <- counter (map model convs) ;;
  projects <- counter (map (fun conv => JStr (project_context conv)) convs) ;;
  let daily_usage := fold_left daily_step convs [] in
  statuses <- counter (map (fun conv => JStr (status conv)) convs) ;;
  avg_tokens <- true_div total_tokens (Z.max total_conversations 1) ;;
  avg_messages <- true_div total_messages (Z.max total_conversations 1) ;;
  Ok {| Stats.total_conversations := total_conversations;
        Stats.total_messages := total_messages;
        Stats.total_tokens := total_tokens;
        Stats.models := models;
        Stats.projects := projects;
        Stats.daily_usage := daily_usage;
        Stats.statuses := statuses;
        Stats.avg_tokens_per_conversation := avg_tokens;
        Stats.avg_messages_per_conversation := avg_messages |}.

(** [analyze_usage_patterns]: nothing happens without conversations. *)
Definition analyze_usage_patterns (self : analyzer) : result analyzer :=
  match conversations self with
  | [] => Ok self
  | _ :: _ =>
      stats <- usage_statistics (conversations self) ;;
      Ok {| conversations := conversations self; usage_stats := Some stats |}
  end.

(** The text that the clean-up loop of [generate_enhanced_html] stores
    back into [msg['content']]. *)
Definition clean_content (c : json) : json :=
  let content := Py.str c in
  let content := if 500 <? Py.len content then Py.take 497 content ++ "..."
                 else content in
  JStr (Py.replace_char "009"%char (Py.backslash ++ "t")
         (Py.replace_char "013"%char (Py.backslash ++ "r")
           (Py.replace_char "010"%char (Py.backslash ++ "n") content))).

Definition clean_message (msg : message_info) : message_info :=
  {| role := role msg; content := clean_content (content msg);
     timestamp := timestamp msg; tokens := tokens msg |}.

Definition clean_conversation (conv : Conversation) : Conversation :=
  {| id := id conv;
     file_path := file_path conv;
     messages := map clean_message (messages conv);
     total_tokens := total_tokens conv;
     model := model conv;
     created_at := created_at conv;
     last_activity := last_activity conv;
     status := status conv;
     project_context := project_context conv |}.

(** The sort key of the display list. *)
Definition display_key (conv : Conversation) : json :=
  if Py.truthy (last_activity conv) then last_activity conv
  else JStr "1900-01-01T00:00:00Z".

Fixpoint update_nth {A : Type} (n : nat) (f : A -> A) (l : list A) : list A :=
  match l, n with
  | [], _ => []
  | x :: l', O => f x :: l'
  | x :: l', S n' => x :: update_nth n' f l'
  end.

(** [display_conversations] holds references into [self.conversations]:
    the positions of the fifty most recently active conversations. *)
Definition display_positions (store : list Conversation) : result (list nat) :=
  order <- sort_by_reverse (fun ic : nat * Conversation => Ok (display_key (snd ic)))
                           (combine (seq 0 (List.length store)) store) ;;
  Ok (map fst (firstn 50 order)).

(** [generate_enhanced_html] up to the two [json.dumps] calls: the
    analyzer afterwards, whose displayed conversations were cleaned in
    place, and the conversations handed to the page. *)
Definition generate_enhanced_html (self : analyzer)
  : result (analyzer * list Conversation) :=
  positions <- display_positions (conversations self) ;;
  let store :=
    fold_left (fun st i => update_nth i clean_conversation st) positions
              (conversations self) in
  Ok ({| conversations := store; usage_stats := usage_stats self |},
      flat_map (fun i => match nth_error store i with
                         | Some conv => [conv]
                         | None => []
                         end) positions).

(** ** The plain report, [analyze_claude_usage.py] *)



(** ** Reference definitions, following the specification *)



(** The lines of a line-delimited file that [json.loads] accepts, with
    their numbers, from line [line_num] on. *)
Fixpoint parsed_from (line_num : nat) (lines : list string) : list (nat * json) :=
  match lines with
  | [] => []
  | line :: rest =>
      match loads (Py.strip line) with
      | Some entry => (line_num, entry) :: parsed_from (S line_num) rest
      | None => parsed_from (S line_num) rest
      end
  end.

(** The lines that [json.loads] rejects, by number. *)
Fixpoint rejected_from (line_num : nat) (lines : list string) : list nat :=
  match lines with
  | [] => []
  | line :: rest =>
      match loads (Py.strip line) with
      | Some _ => rejected_from (S line_num) rest
      | None => line_num :: rejected_from (S line_num) rest
      end
  end.

(** The grouping key of a numbered entry: its [sessionId], or the
    synthetic key of its line. *)
Definition session_key (ne : nat * json) : json :=
  match snd ne with
  | JObj e => Py.dict_get e "sessionId" (JStr ("session_" ++ Py.str_of_nat (fst ne)))
  | _ => JNull
  end.

(** The numbered entries that belong under key [k]. *)
Definition members (parsed : list (nat * json)) (k : json) : list (nat * json) :=
  filter (fun ne => Py.eqb (session_key ne) k) parsed.

(** The token count that an entry reports: the sum of the two usage
    fields of an assistant entry, 0 for every other entry. *)
Definition reported_tokens (entry : json) : Z :=
  match entry with
  | JObj e =>
      if Py.eq_str (Py.dict_get e "type" JNull) "assistant" then
        match Py.dict_get e "message" (JObj []) with
        | JObj md =>
            match Py.dict_get md "usage" (JObj []) with
            | JObj u =>
                match Py.as_int (Py.dict_get u "input_tokens" (JNum 0)),
                      Py.as_int (Py.dict_get u "output_tokens" (JNum 0)) with
                | Some a, Some b => a + b
                | _, _ => 0
                end
            | _ => 0
            end
        | _ => 0
        end
      else 0
  | _ => 0
  end.

(** The line that one content part contributes: its text for a text
    part, the tool marker for a tool use, nothing otherwise. *)
Definition part_lines (part : json) : list json :=
  match part with
  | JObj p =>
      if Py.eq_str (Py.dict_get p "type" JNull) "text"
      then [Py.dict_get p "text" (JStr "")]
      else if Py.eq_str (Py.dict_get p "type" JNull) "tool_use"
      then [JStr ("[Tool: " ++ Py.str (Py.dict_get p "name" (JStr "unknown_tool")) ++ "]")]
      else []
  | _ => []
  end.

(** The normalised content of an assistant message, as specified: the
    lines of the parts, in part order, with one newline between each
    two consecutive lines.  The lines are put together by the Standard
    Library's [String.concat], not by the model of [str.join]. *)
Definition rendered_content (content_parts : json) : result json :=
  match content_parts with
  | JArr parts =>
      lines <- Py.strs (flat_map part_lines parts) ;;
      Ok (JStr (String.concat (String "010"%char "") lines))
  | JStr s => Ok (JStr s)
  | _ => Ok (JStr "")
  end.

(** The model that an entry announces: the non-empty model of an
    assistant entry. *)
Definition announced_model (entry : json) : list json :=
  match entry with
  | JObj e =>
      if Py.eq_str (Py.dict_get e "type" JNull) "assistant" then
        match Py.dict_get e "message" (JObj []) with
        | JObj md =>
            if Py.truthy (Py.dict_get md "model" JNull)
            then [Py.dict_get md "model" JNull] else []
        | _ => []
        end
      else []
  | _ => []
  end.

(** The timestamp that an entry carries, if any. *)
Definition entry_timestamp (entry : json) : json :=
  match entry with
  | JObj e => Py.dict_get e "timestamp" JNull
  | _ => JNull
  end.

(** The timestamps that count: the non-empty ones, in message order. *)
Definition stamps (timestamps : list json) : list json :=
  filter Py.truthy timestamps.

(** An entry whose timestamp is a string or is missing. *)
Definition string_stamped (entry : json) : Prop :=
  exists e, entry = JObj e /\
    (Py.lookup e "timestamp" = None \/ exists s, Py.lookup e "timestamp" = Some (JStr s)).

(** Two conversations that differ in their status at most. *)
Definition same_but_status (c1 c2 : Conversation) : Prop :=
  id c1 = id c2 /\ file_path c1 = file_path c2 /\ messages c1 = messages c2 /\
  total_tokens c1 = total_tokens c2 /\ model c1 = model c2 /\
  created_at c1 = created_at c2 /\ last_activity c1 = last_activity c2 /\
  project_context c1 = project_context c2.

(** Two statistics that differ in their status breakdown at most. *)
Definition same_but_statuses (s1 s2 : Stats.t) : Prop :=
  Stats.total_conversations s1 = Stats.total_conversations s2 /\
  Stats.total_messages s1 = Stats.total_messages s2 /\
  Stats.total_tokens s1 = Stats.total_tokens s2 /\
  Stats.models s1 = Stats.models s2 /\
  Stats.projects s1 = Stats.projects s2 /\
  Stats.daily_usage s1 = Stats.daily_usage s2 /\
  Stats.avg_tokens_per_conversation s1 = Stats.avg_tokens_per_conversation s2 /\
  Stats.avg_messages_per_conversation s1 = Stats.avg_messages_per_conversation s2.





(** The instant that a timestamp denotes once parsed. *)
Definition timestamp_instant (ts : json) : option Z :=
  match ts with
  | JStr s =>
      match fromisoformat (Py.replace_char "Z"%char "+00:00" s) with
      | Some t => Time.instant t
      | None => None
      end
  | _ => None
  end.

(** How the message of an entry relates to the entry. *)
Definition message_of (entry : json) (msg : message_info) : Prop :=
  timestamp msg = entry_timestamp entry /\
  tokens msg = (if reported_tokens entry =? 0 then estimate_tokens (content msg)
                else reported_tokens entry) /\
  (forall e, entry = JObj e ->
     Py.eq_str (Py.dict_get e "type" JNull) "assistant" = true ->
     role msg = JStr "assistant" /\
     exists md, Py.dict_get e "message" (JObj []) = JObj md /\
       rendered_content (Py.dict_get md "content" (JArr [])) = Ok (content msg)).

(** No two keys of the list are equal in Python's sense. *)
Fixpoint distinct (keys : list json) : Prop :=
  match keys with
  | [] => True
  | k :: keys' => Forall (fun k' => Py.eqb k k' = false) keys' /\ distinct keys'
  end.

(** The grouping dict after the numbered entries [seen] were filed: its
    keys are distinct, every group holds exactly the entries filed under
    its key, in line order, and every entry has its group. *)
Definition grouped (seen : list (nat * json)) (g : sessions) : Prop :=
  distinct (map fst g) /\
  Forall (fun kv => Py.hashable (fst kv) = true /\
                    snd kv = map snd (members seen (fst kv)) /\ snd kv <> []) g /\
  Forall (fun ne => Py.hashable (session_key ne) = true /\
                    (exists e, snd ne = JObj e) /\
                    exists kv, In kv g /\ Py.eqb (session_key ne) (fst kv) = true)
         seen.


(** The conversation [c] is the reconstruction of the group [g] of a
    file whose path is [fp]. *)
Definition built_from (fp : string) (g : json * list json) (c : Conversation) : Prop :=
  id c = fst g /\ file_path c = fp /\
  exists now, process_session_entries now (snd g) (fst g) fp = Ok c.

(** The text of a timestamp key. *)
Definition key_text (k : json) : string :=
  match k with
  | JStr s => s
  | _ => ""
  end.

(** A key that is a string. *)
Definition is_text (k : json) : Prop := exists s, k = JStr s.

(** The order of the sort on keyed pairs whose keys are texts. *)
Definition key_le {A : Type} (x y : json * A) : Prop :=
  String.leb (key_text (fst x)) (key_text (fst y)) = true.

(** The code-point order of two timestamp texts. *)
Definition text_le (a b : json) : Prop :=
  String.leb (key_text a) (key_text b) = true.

(** A sorting key paired with its entry, as the sort pairs them. *)
Definition key_matches (kx : json * json) : Prop :=
  is_text (fst kx) /\
  (entry_timestamp (snd kx) = fst kx \/
   (entry_timestamp (snd kx) = JNull /\ fst kx = JStr "")).

(** A content part that the join accepts: the text of a text part is a
    string. *)
Definition well_formed_part (part : json) : Prop :=
  match part with
  | JObj p =>
      Py.eq_str (Py.dict_get p "type" JNull) "text" = true ->
      is_text (Py.dict_get p "text" (JStr ""))
  | _ => True
  end.

(** A usage value that the token sum accepts: missing or empty, or a
    mapping whose two counts are integers. *)
Definition well_formed_usage (usage : json) : Prop :=
  Py.truthy usage = false \/
  exists u a b,
    usage = JObj u /\
    Py.as_int (Py.dict_get u "input_tokens" (JNum 0)) = Some a /\
    Py.as_int (Py.dict_get u "output_tokens" (JNum 0)) = Some b.

(** An entry of the shape the log writer produces: an object whose
    timestamp is a string or missing and whose message, for a user or an
    assistant entry, is a mapping with usable content and usage. *)
Definition well_formed_entry (entry : json) : Prop :=
  string_stamped entry /\
  forall e, entry = JObj e ->
    (Py.eq_str (Py.dict_get e "type" JNull) "user" = true ->
     exists md, Py.dict_get e "message" (JObj []) = JObj md) /\
    (Py.eq_str (Py.dict_get e "type" JNull) "assistant" = true ->
     exists md, Py.dict_get e "message" (JObj []) = JObj md /\
       (forall parts, Py.dict_get md "content" (JArr []) = JArr parts ->
                      Forall well_formed_part parts) /\
       well_formed_usage (Py.dict_get md "usage" (JObj []))).

(** ** Reference definitions for the remaining code *)

(** The role and content of the message of a user entry and of an entry
    that is neither a user nor an assistant entry. *)
Definition role_and_content_of (entry : json) (msg : message_info) : Prop :=
  forall e, entry = JObj e ->
    (Py.eq_str (Py.dict_get e "type" JNull) "user" = true ->
     role msg = JStr "user" /\
     exists md, Py.dict_get e "message" (JObj []) = JObj md /\
                content msg = Py.dict_get md "content" (JStr "")) /\
    (Py.eq_str (Py.dict_get e "type" JNull) "user" = false ->
     Py.eq_str (Py.dict_get e "type" JNull) "assistant" = false ->
     role msg = Py.dict_get e "type" (JStr "unknown") /\
     content msg = JStr "" /\ tokens msg = 0).

(** The message that one element of a [.json] file contributes. *)
Definition flat_message (msg : json) : list message_info :=
  match msg with
  | JObj m =>
      [{| role := Py.dict_get m "role" (JStr "unknown");
          content := Py.dict_get m "content" (JStr "");
          timestamp := Py.dict_get m "timestamp" JNull;
          tokens := estimate_tokens (Py.dict_get m "content" (JStr "")) |}]
  | _ => []
  end.

(** The model that one element of a [.json] file sets. *)
Definition keyed_model (msg : json) : list json :=
  match msg with
  | JObj m => if Py.has_key m "model" then [Py.dict_get m "model" JNull] else []
  | _ => []
  end.

(** The labels of the two classifiers. *)
Definition status_labels : list string := ["unknown"; "active"; "recent"; "inactive"].

Definition project_labels : list string :=
  ["python"; "javascript"; "react"; "web"; "debugging"; "data"; "general"].

(** The text on which an entry is sorted: its timestamp, or the empty
    text without one. *)
Definition entry_key_text (entry : json) : string :=
  key_text (entry_timestamp entry).

(** The keyed pair [x] is sorted on the text [k]. *)
Definition has_text {A : Type} (k : string) (x : json * A) : bool :=
  String.eqb (key_text (fst x)) k.

(** The whole seconds between a clock reading and the instant of a
    timestamp, when the timestamp denotes one. *)
Definition seconds_since (now : Z) (ts : json) : option Z :=
  match timestamp_instant ts with
  | Some t => Some (Time.td_total_seconds (now - t))
  | None => None
  end.

(** The status that the age of a conversation calls for. *)
Definition status_of_age (age : Z) : string :=
  if age <? 300 then "active" else if age <? 3600 then "recent" else "inactive".

(** The keywords of the first rule of [extract_project_context]. *)
Definition python_terms : list string := ["python"; ".py"; "import "; "def "].

(** The part of a message that [extract_project_context] samples. *)
Definition sampled (msg : message_info) : string :=
  Py.lower (Py.take 500 (Py.str (content msg))).

(** The number of entries filed in the grouping dict. *)
Definition entry_count (groups : sessions) : nat :=
  list_sum (map (fun g => List.length (snd g)) groups).

(** The number of messages of a list of conversations. *)
Definition message_count (convs : list Conversation) : nat :=
  list_sum (map (fun conv => List.length (messages conv)) convs).

(** The conversation has a date under which it is filed. *)
Definition dated (conv : Conversation) : bool :=
  match daily_key conv with
  | Some _ => true
  | None => false
  end.

(** No newline, carriage return or tab occurs in the text. *)
Definition one_line (s : string) : Prop :=
  Py.mem_char "010"%char s = false /\ Py.mem_char "013"%char s = false /\
  Py.mem_char "009"%char s = false.

(** ** The analyses of the plain report, [analyze_claude_usage.py] *)

(** [entry.get(field, 'unknown')] *)
Definition get_or_unknown (field : string) (entry : json) : result json :=
  e <- Py.as_dict entry ;; Ok (Py.dict_get e field (JStr "unknown")).

(** [s.add(k)] on a set, kept as the list of its distinct members. *)
Definition set_add (k : json) (s : list json) : result (list json) :=
  if Py.hashable k
  then Ok (if existsb (fun k' => Py.eqb k' k) s then s else (s ++ [k])%list)
  else Raise TypeError.

(** [set(entry.get(field, 'unknown') for entry in data)] *)
Definition key_set (field : string) (data : list json) : result (list json) :=
  foldM (fun s entry => k <- get_or_unknown field entry ;; set_add k s) data [].

(** [Counter(entry.get(field, 'unknown') for entry in data)] *)
Definition count_field (field : string) (data : list json)
  : result (list (json * Z)) :=
  foldM (fun d entry =>
           k <- get_or_unknown field entry ;; update 0 (fun n => n + 1) k d)
        data [].

(** [analyze_basic_stats] *)
Definition analyze_basic_stats (data : list json) : result Report.basic_stats :=
  sessions <- key_set "sessionId" data ;;
  user_types <- count_field "userType" data ;;
  message_types <- count_field "type" data ;;
  Ok {| Report.total_messages := Z.of_nat (List.length data);
        Report.unique_sessions := Z.of_nat (List.length sessions);
        Report.user_types := user_types;
        Report.message_types := message_types |}.

(** [needle in container] for a string [needle]: a key of a dict, a
    member of a list, a part of a string; nothing else can be searched. *)
Definition contained (needle : string) (container : json) : result bool :=
  match container with
  | JObj d => Ok (Py.has_key d needle)
  | JArr l => Ok (existsb (fun x => Py.eqb x (JStr needle)) l)
  | JStr s => Ok (Py.contains needle s)
  | _ => Raise TypeError
  end.

(** [entry['message'][field]] under the guard
    ['message' in entry and field in entry['message']]: [None] when the
    guard fails.  A list or a string that passes a test cannot be
    subscripted by a string. *)
Definition message_field (field : string) (entry : json) : result (option json) :=
  has_message <- contained "message" entry ;;
  if has_message then
    match entry with
    | JObj e =>
        let message := Py.dict_get e "message" JNull in
        has_field <- contained field message ;;
        if has_field then
          match message with
          | JObj md => Ok (Some (Py.dict_get md field JNull))
          | _ => Raise TypeError
          end
        else Ok None
    | _ => Raise TypeError
    end
  else Ok None.

(** A count that can be added to a running total. *)
Definition as_count (v : json) : result Z :=
  match Py.as_int v with
  | Some n => Ok n
  | None => Raise TypeError
  end.

(** The body of the loop of [analyze_tokens].  A value that is no
    integer raises [TypeError], at a sum or at the accumulation that
    follows it. *)
Definition tokens_step (st : Report.token_stats) (entry : json)
  : result Report.token_stats :=
  found <- message_field "usage" entry ;;
  match found with
  | None => Ok st
  | Some usage =>
      u <- Py.as_dict usage ;;
      input_tokens <- as_count (Py.dict_get u "input_tokens" (JNum 0)) ;;
      output_tokens <- as_count (Py.dict_get u "output_tokens" (JNum 0)) ;;
      cache_tokens <- add_tokens (Py.dict_get u "cache_creation_input_tokens" (JNum 0))
                                 (Py.dict_get u "cache_read_input_tokens" (JNum 0)) ;;
      let total_msg_tokens := input_tokens + output_tokens in
      Ok {| Report.total_input_tokens := Report.total_input_tokens st + input_tokens;
            Report.total_output_tokens := Report.total_output_tokens st + output_tokens;
            Report.total_cache_tokens := Report.total_cache_tokens st + cache_tokens;
            Report.messages_with_usage := Report.messages_with_usage st + 1;
            Report.token_distribution :=
              if 0 <? total_msg_tokens
              then (Report.token_distribution st ++ [total_msg_tokens])%list
              else Report.token_distribution st;
            Report.avg_tokens_per_message := Report.avg_tokens_per_message st;
            Report.max_tokens_per_message := Report.max_tokens_per_message st;
            Report.min_tokens_per_message := Report.min_tokens_per_message st |}
  end.

(** [max(l)] and [min(l)] of a list that starts with [x]. *)
Definition maximum (x : Z) (l : list Z) : Z := fold_left Z.max l x.
Definition minimum (x : Z) (l : list Z) : Z := fold_left Z.min l x.

(** [analyze_tokens]; the average is a true division, which raises
    when the quotient is out of the range of floats. *)
Definition analyze_tokens (data : list json) : result Report.token_stats :=
  st <- foldM tokens_step data
          {| Report.total_input_tokens := 0; Report.total_output_tokens := 0;
             Report.total_cache_tokens := 0; Report.messages_with_usage := 0;
             Report.token_distribution := [];
             Report.avg_tokens_per_message := None;
             Report.max_tokens_per_message := None;
             Report.min_tokens_per_message := None |} ;;
  match Report.token_distribution st with
  | [] => Ok st
  | x :: l =>
      avg <- true_div (sum (x :: l)) (Z.of_nat (List.length (x :: l))) ;;
      Ok {| Report.total_input_tokens := Report.total_input_tokens st;
            Report.total_output_tokens := Report.total_output_tokens st;
            Report.total_cache_tokens := Report.total_cache_tokens st;
            Report.messages_with_usage := Report.messages_with_usage st;
            Report.token_distribution := x :: l;
            Report.avg_tokens_per_message := Some avg;
            Report.max_tokens_per_message := Some (maximum x l);
            Report.min_tokens_per_message := Some (minimum x l) |}
  end.

(** [d[k] += 1] on a [defaultdict(int)]. *)
Fixpoint bump {K : Type} (eqb : K -> K -> bool) (k : K) (d : list (K * Z))
  : list (K * Z) :=
  match d with
  | [] => [(k, 1)]
  | (k', n) :: d' =>
      if eqb k' k then (k', n + 1) :: d' else (k', n) :: bump eqb k d'
  end.

(** The [datetime] that the [try] blocks of the timeline and of the
    session loop read from a timestamp; [None] when the block raises. *)
Definition parse_timestamp (ts : json) : option datetime :=
  match ts with
  | JStr s => fromisoformat (Py.replace_char "Z"%char "+00:00" s)
  | _ => None
  end.

(** The body of the loop of [analyze_timeline]. *)
Definition timeline_step (st : Report.timeline) (entry : json)
  : result Report.timeline :=
  e <- Py.as_dict entry ;;
  let timestamp_str := Py.dict_get e "timestamp" JNull in
  if Py.truthy timestamp_str then
    match parse_timestamp timestamp_str with
    | Some dt =>
        Ok {| Report.daily_usage :=
                bump String.eqb (Time.date_str dt) (Report.daily_usage st);
              Report.hourly_distribution :=
                bump Z.eqb (dt_hour dt) (Report.hourly_distribution st) |}
    | None => Ok st
    end
  else Ok st.

(** [analyze_timeline] *)
Definition analyze_timeline (data : list json) : result Report.timeline :=
  foldM timeline_step data
        {| Report.daily_usage := []; Report.hourly_distribution := [] |}.

(** The body of the loop of [analyze_models]. *)
Definition models_step (model_counts : list (json * Z)) (entry : json)
  : result (list (json * Z)) :=
  found <- message_field "model" entry ;;
  match found with
  | Some model => update 0 (fun n => n + 1) model model_counts
  | None => Ok model_counts
  end.

(** [analyze_models] *)
Definition analyze_models (data : list json) : result (list (json * Z)) :=
  foldM models_step data [].

(** The first loop of [analyze_sessions]. *)
Definition session_step (session_data : sessions) (entry : json) : result sessions :=
  session_id <- get_or_unknown "sessionId" entry ;;
  update [] (fun messages => (messages ++ [entry])%list) session_id session_data.

(** The timestamps of a session that can be parsed, in order. *)
Definition session_timestamps (messages : list json) : result (list datetime) :=
  foldM (fun timestamps msg =>
           m <- Py.as_dict msg ;;
           let timestamp_str := Py.dict_get m "timestamp" JNull in
           if Py.truthy timestamp_str then
             match parse_timestamp timestamp_str with
             | Some dt => Ok (timestamps ++ [dt])%list
             | None => Ok timestamps
             end
           else Ok timestamps)
        messages [].

(** The points of time by which [max] and [min] compare the values:
    instants when all carry an offset, wall-clock readings when none
    does; a value with and a value without offset do not compare. *)
Definition comparable (timestamps : list datetime) : result (list Z) :=
  match timestamps with
  | [] => Ok []
  | t :: _ =>
      mapM (fun x =>
              match dt_offset t, dt_offset x with
              | Some _, Some off => Ok (Time.wall_micros x - off)
              | None, None => Ok (Time.wall_micros x)
              | _, _ => Raise TypeError
              end) timestamps
  end.

(** [(max(timestamps) - min(timestamps)).total_seconds() / 60] for two
    or more timestamps, [None] for fewer. *)
Definition session_duration (timestamps : list datetime) : result (option ratio) :=
  if (1 <? List.length timestamps)%nat then
    points <- comparable timestamps ;;
    match points with
    | [] => Ok None
    | x :: l =>
        Ok (Some {| numerator := maximum x l - minimum x l;
                    denominator := 60 * Time.micros_per_second |})
    end
  else Ok None.

(** What the second loop of [analyze_sessions] appends for one session:
    its number of messages and, with two timestamps or more, its
    duration. *)
Definition session_summary (g : json * list json) : result (Z * option ratio) :=
  timestamps <- session_timestamps (snd g) ;;
  duration <- session_duration timestamps ;;
  Ok (Z.of_nat (List.length (snd g)), duration).

Definition durations (summaries : list (Z * option ratio)) : list ratio :=
  flat_map (fun s => match snd s with Some d => [d] | None => [] end) summaries.

(** [analyze_sessions]; the average number of messages is a true
    division of two [int]s, the durations and their average are floats
    throughout. *)
Definition analyze_sessions (data : list json) : result Report.session_stats :=
  session_data <- foldM session_step data [] ;;
  summaries <- mapM session_summary session_data ;;
  let msgs := map fst summaries in
  let ds := durations summaries in
  avg_messages <- match msgs with
                  | [] => Ok None
                  | _ :: _ =>
                      avg <- true_div (sum msgs) (Z.of_nat (List.length msgs)) ;;
                      Ok (Some avg)
                  end ;;
  Ok {| Report.total_sessions := Z.of_nat (List.length session_data);
        Report.messages_per_session := msgs;
        Report.session_durations := ds;
        Report.avg_messages_per_session := avg_messages;
        Report.avg_session_duration_minutes :=
          match ds with
          | [] => None
          | _ :: _ => Some {| numerator := sum (map numerator ds);
                              denominator := 60 * Time.micros_per_second
                                             * Z.of_nat (List.length ds) |}
          end |}.


(** ** Reference definitions for the plain report *)

(** The entry is a JSON object. *)
Definition is_object (entry : json) : bool :=
  match entry with
  | JObj _ => true
  | _ => false
  end.

(** The value that an entry holds under [field] of its [message], when
    the entry is an object whose [message] is an object with that key. *)
Definition named (field : string) (entry : json) : option json :=
  match entry with
  | JObj e =>
      match Py.lookup e "message" with
      | Some (JObj md) => Py.lookup md field
      | _ => None
      end
  | _ => None
  end.

Definition names (field : string) (entry : json) : bool :=
  match named field entry with
  | Some _ => true
  | None => false
  end.

(** The timestamp of an entry, when it has one that can be read. *)
Definition timestamp_of (entry : json) : option datetime :=
  match entry with
  | JObj e =>
      let timestamp_str := Py.dict_get e "timestamp" JNull in
      if Py.truthy timestamp_str then parse_timestamp timestamp_str else None
  | _ => None
  end.

Definition timed (entry : json) : bool :=
  match timestamp_of entry with
  | Some _ => true
  | None => false
  end.

(** The entry is filed under the key ['unknown']: it has no [sessionId],
    or that very string as its [sessionId]. *)
Definition unkeyed (entry : json) : Prop :=
  get_or_unknown "sessionId" entry = Ok (JStr "unknown").

(** The entries filed under the first key of the grouping dict that
    equals [k]. *)
Fixpoint filed_under (k : json) (g : sessions) : list json :=
  match g with
  | [] => []
  | (k', es) :: g' => if Py.eqb k' k then es else filed_under k g'
  end.

(** The timestamps of the entries that have one, in order. *)
Definition stamps_of (entries : list json) : list datetime :=
  flat_map (fun entry => match timestamp_of entry with
                         | Some dt => [dt]
                         | None => []
                         end) entries.

(** Both averages of the statistics are within the range of floats. *)
Definition averages_in_range (convs : list Conversation) : Prop :=
  let n := Z.max (Z.of_nat (List.length convs)) 1 in
  Z.abs (sum (map total_tokens convs)) < float_overflow * n /\
  Z.abs (sum (map (fun conv => Z.of_nat (List.length (messages conv))) convs))
  < float_overflow * n.


(** * Properties *)

Open Scope list_scope.

(** ** The exception monad *)

Lemma bind_ok (A B : Type) (m : result A) (k : A -> result B) (b : B) :
  bind m k = Ok b -> exists a, m = Ok a /\ k a = Ok b.
Proof.
  destruct m as [a|e]; simpl; intros H.
  - exists a. split; [reflexivity | exact H].
  - discriminate H.
Qed.

Ltac bind_inv H :=
  cbv beta in H;
  match type of H with
  | bind ?m ?k = Ok ?b =>
      let a := fresh "a" in
      let Ha := fresh "Ha" in
      let Hk := fresh "Hk" in
      destruct (@bind_ok _ _ m k b H) as (a & Ha & Hk); clear H;
      cbv beta in Hk
  end.

Lemma mapM_map (A B : Type) (f : A -> result B) (g : B -> A) (l : list A) (r : list B) :
  (forall a b, f a = Ok b -> g b = a) -> mapM f l = Ok r -> map g r = l.
Proof.
  intros Hg. revert r. induction l as [|a l IH]; simpl; intros r H.
  - inversion H. reflexivity.
  - bind_inv H. bind_inv Hk. inversion Hk0; subst. simpl.
    rewrite (Hg _ _ Ha), (IH _ Ha0). reflexivity.
Qed.

(** ** Sorting *)

Section SortingFacts.

Variable A : Type.

Lemma insert_keyed_perm (x : json * A) (l r : list (json * A)) :
  insert_keyed x l = Ok r -> Permutation (x :: l) r.
Proof.
  revert r. induction l as [|y l IH]; simpl; intros r H.
  - inversion H. apply Permutation_refl.
  - bind_inv H. destruct a.
    + bind_inv Hk. inversion Hk0; subst.
      eapply perm_trans; [apply perm_swap|]. apply perm_skip. apply IH, Ha0.
    + inversion Hk; subst. apply Permutation_refl.
Qed.

Lemma sort_keyed_perm (l r : list (json * A)) :
  sort_keyed l = Ok r -> Permutation l r.
Proof.
  revert r. induction l as [|x l IH]; simpl; intros r H.
  - inversion H. apply perm_nil.
  - bind_inv H. eapply perm_trans; [apply perm_skip, IH, Ha|].
    apply insert_keyed_perm, Hk.
Qed.

Lemma sort_by_perm (key : A -> result json) (l r : list A) :
  sort_by key l = Ok r -> Permutation l r.
Proof.
  unfold sort_by. intros H. bind_inv H. bind_inv Hk. inversion Hk0; subst.
  assert (Hm : map snd a = l).
  { eapply mapM_map; [|exact Ha]. intros x b Hb. bind_inv Hb.
    inversion Hk; subst. reflexivity. }
  rewrite <- Hm. apply Permutation_map, sort_keyed_perm, Ha0.
Qed.

Lemma sort_by_reverse_perm (key : A -> result json) (l r : list A) :
  sort_by_reverse key l = Ok r -> Permutation l r.
Proof.
  unfold sort_by_reverse. intros H. bind_inv H. inversion Hk; subst.
  eapply perm_trans; [apply Permutation_rev|].
  eapply perm_trans; [eapply sort_by_perm, Ha|].
  rewrite <- (rev_involutive a) at 1. apply Permutation_sym, Permutation_rev.
Qed.

End SortingFacts.

(** ** One entry of a session *)

Lemma process_entry_inv (conv conv' : Conversation) (entry : json) :
  process_entry conv entry = Ok conv' ->
  exists e model' role' content' tokens0,
    entry = JObj e /\
    extract_message conv e = Ok (model', role', content', tokens0) /\
    let tokens' := if tokens0 =? 0 then estimate_tokens content' else tokens0 in
    let message := {| role := role'; content := content';
                      timestamp := Py.dict_get e "timestamp" JNull;
                      tokens := tokens' |} in
    messages conv' = messages conv ++ [message] /\
    total_tokens conv' = total_tokens conv + tokens' /\
    model conv' = model' /\
    id conv' = id conv /\ file_path conv' = file_path conv /\
    status conv' = status conv /\ project_context conv' = project_context conv /\
    created_at conv' =
      (if Py.truthy (timestamp message) && negb (Py.truthy (created_at conv))
       then timestamp message else created_at conv) /\
    last_activity conv' =
      (if Py.truthy (timestamp message) then timestamp message
       else last_activity conv).
Proof.
  unfold process_entry. intros H. bind_inv H.
  destruct entry; simpl in Ha; try discriminate. inversion Ha; subst a; clear Ha.
  bind_inv Hk. destruct a as [[[model' role'] content'] tokens0].
  inversion Hk0; subst conv'; clear Hk0. simpl.
  exists kvs, model', role', content', tokens0. repeat split; auto.
Qed.

Lemma fold_append_part (parts : list json) (acc : list json) :
  fold_left append_part parts acc = (acc ++ flat_map part_lines parts)%list.
Proof.
  revert acc. induction parts as [|part parts IH]; simpl; intros acc.
  - rewrite app_nil_r. reflexivity.
  - rewrite IH. rewrite app_assoc. f_equal.
    unfold append_part, part_lines. destruct part; try (rewrite app_nil_r; reflexivity).
    destruct (Py.eq_str _ "text"); [reflexivity|].
    destruct (Py.eq_str _ "tool_use"); [reflexivity | rewrite app_nil_r; reflexivity].
Qed.

Lemma join_concat (sep : string) (l : list string) :
  Py.join sep l = String.concat sep l.
Proof.
  induction l as [|s l IH]; [reflexivity|].
  destruct l as [|t l]; [reflexivity|].
  change (Py.join sep (s :: t :: l)) with (s ++ sep ++ Py.join sep (t :: l))%string.
  change (String.concat sep (s :: t :: l))
    with (s ++ sep ++ String.concat sep (t :: l))%string.
  rewrite IH. reflexivity.
Qed.

Lemma assistant_content_rendered (content_parts : json) :
  assistant_content content_parts = rendered_content content_parts.
Proof.
  destruct content_parts; try reflexivity.
  unfold assistant_content, rendered_content, Py.join_values.
  rewrite fold_append_part. simpl.
  destruct (Py.strs (flat_map part_lines xs)); [|reflexivity].
  simpl. rewrite join_concat. reflexivity.
Qed.

Lemma usage_tokens_reported (e md : dict) (n : Z) :
  Py.eq_str (Py.dict_get e "type" JNull) "assistant" = true ->
  Py.dict_get e "message" (JObj []) = JObj md ->
  usage_tokens md = Ok n -> n = reported_tokens (JObj e).
Proof.
  intros Ht Hm. unfold usage_tokens, reported_tokens. rewrite Ht, Hm.
  destruct (Py.dict_get md "usage" (JObj [])) as [|b|z|s|xs|u] eqn:Hu; simpl.
  - intros H; inversion H; reflexivity.
  - destruct b; simpl; intros H; inversion H; reflexivity.
  - destruct (z =? 0); simpl; intros H; inversion H; reflexivity.
  - destruct (String.eqb s ""); simpl; intros H; inversion H; reflexivity.
  - destruct xs; simpl; intros H; inversion H; reflexivity.
  - destruct u as [|kv u'].
    + simpl. intros H; inversion H; reflexivity.
    + simpl. unfold add_tokens.
      destruct (Py.as_int (Py.dict_get (kv :: u') "input_tokens" (JNum 0)));
        [|discriminate].
      destruct (Py.as_int (Py.dict_get (kv :: u') "output_tokens" (JNum 0)));
        [|discriminate].
      intros H; inversion H; reflexivity.
Qed.

Lemma eq_str_exclusive (v : json) :
  Py.eq_str v "user" = true -> Py.eq_str v "assistant" = false.
Proof.
  destruct v; simpl; try discriminate. intros H.
  apply String.eqb_eq in H. subst. reflexivity.
Qed.

(** What [extract_message] returns when it returns. *)
Lemma extract_message_spec (conv : Conversation) (e : dict)
  (model' role' content' : json) (tokens0 : Z) :
  extract_message conv e = Ok (model', role', content', tokens0) ->
  model' = last (announced_model (JObj e)) (model conv) /\
  tokens0 = reported_tokens (JObj e) /\
  (Py.eq_str (Py.dict_get e "type" JNull) "assistant" = true ->
   role' = JStr "assistant" /\
   exists md, Py.dict_get e "message" (JObj []) = JObj md /\
     rendered_content (Py.dict_get md "content" (JArr [])) = Ok content').
Proof.
  unfold extract_message.
  destruct (Py.eq_str (Py.dict_get e "type" JNull) "user") eqn:Hu.
  - intros H. bind_inv H. inversion Hk; subst.
    pose proof (eq_str_exclusive _ Hu) as Hna.
    unfold announced_model, reported_tokens. rewrite Hna. simpl.
    split; [reflexivity|]. split; [reflexivity|]. intros; discriminate.
  - destruct (Py.eq_str (Py.dict_get e "type" JNull) "assistant") eqn:Has.
    + intros H. bind_inv H.
      destruct (Py.dict_get e "message" (JObj [])) as [| | | | |md] eqn:Hm;
        simpl in Ha; try discriminate.
      inversion Ha; subst a; clear Ha.
      bind_inv Hk. bind_inv Hk0. inversion Hk; subst; clear Hk.
      split; [|split].
      * unfold announced_model. rewrite Has, Hm.
        destruct (Py.truthy (Py.dict_get md "model" JNull)); reflexivity.
      * eapply usage_tokens_reported; eauto.
      * intros _. split; [reflexivity|]. exists md. split; [reflexivity|].
        rewrite <- assistant_content_rendered. exact Ha.
    + intros H. inversion H; subst.
      unfold announced_model, reported_tokens. rewrite Has. simpl.
      split; [reflexivity|]. split; [reflexivity|]. intros; discriminate.
Qed.

(** ** A whole session *)

Lemma last_default_irrelevant (A : Type) (l : list A) (d d' : A) :
  l <> [] -> last l d = last l d'.
Proof.
  induction l as [|a l IH]; intros Hne; [contradiction|].
  destruct l as [|b l]; [reflexivity|].
  change (last (b :: l) d = last (b :: l) d'). apply IH. discriminate.
Qed.

Lemma last_app_default (A : Type) (l1 l2 : list A) (d : A) :
  last (l1 ++ l2) d = last l2 (last l1 d).
Proof.
  revert d. induction l1 as [|a l1 IH]; intros d; [reflexivity|].
  destruct l1 as [|b l1].
  - destruct l2 as [|c l2]; [reflexivity|].
    change (last (c :: l2) d = last (c :: l2) a).
    apply last_default_irrelevant. discriminate.
  - change (last ((a :: b :: l1) ++ l2) d) with (last ((b :: l1) ++ l2) d).
    change (last (a :: b :: l1) d) with (last (b :: l1) d).
    apply IH.
Qed.

Lemma process_entry_step (conv conv' : Conversation) (entry : json) :
  process_entry conv entry = Ok conv' ->
  exists msg,
    message_of entry msg /\
    messages conv' = messages conv ++ [msg] /\
    total_tokens conv' = total_tokens conv + tokens msg /\
    model conv' = last (announced_model entry) (model conv) /\
    id conv' = id conv /\ file_path conv' = file_path conv /\
    status conv' = status conv /\ project_context conv' = project_context conv /\
    created_at conv' =
      (if Py.truthy (entry_timestamp entry) && negb (Py.truthy (created_at conv))
       then entry_timestamp entry else created_at conv) /\
    last_activity conv' =
      (if Py.truthy (entry_timestamp entry) then entry_timestamp entry
       else last_activity conv).
Proof.
  intros H. apply process_entry_inv in H.
  destruct H as (e & model' & role' & content' & tokens0 & -> & Hx & H).
  cbv zeta in H. destruct H as (Hm & Ht & Hmo & Hi & Hf & Hs & Hp & Hc & Hl).
  apply extract_message_spec in Hx. destruct Hx as (Hmodel & Htok & Hcont).
  eexists. split; [|split; [exact Hm|]].
  - split; [reflexivity|]. split.
    + simpl. subst tokens0. reflexivity.
    + intros e' He' Has. inversion He'; subst e'. simpl. apply Hcont, Has.
  - simpl. subst model'. repeat split; assumption.
Qed.

Lemma foldM_process_entry (entries : list json) (conv conv' : Conversation) :
  foldM process_entry entries conv = Ok conv' ->
  exists msgs,
    Forall2 message_of entries msgs /\
    messages conv' = messages conv ++ msgs /\
    total_tokens conv' = total_tokens conv + sum (map tokens msgs) /\
    model conv' = last (flat_map announced_model entries) (model conv) /\
    id conv' = id conv /\ file_path conv' = file_path conv /\
    status conv' = status conv /\ project_context conv' = project_context conv /\
    created_at conv' =
      (if Py.truthy (created_at conv) then created_at conv
       else hd (created_at conv) (stamps (map entry_timestamp entries))) /\
    last_activity conv' =
      last (stamps (map entry_timestamp entries)) (last_activity conv).
Proof.
  revert conv. induction entries as [|entry entries IH]; simpl; intros conv H.
  - inversion H; subst. exists []. rewrite app_nil_r.
    repeat split; auto; try constructor.
    + unfold sum. simpl. lia.
    + destruct (Py.truthy (created_at conv')); reflexivity.
  - bind_inv H. apply process_entry_step in Ha.
    destruct Ha as (msg & Hmsg & Hm & Ht & Hmo & Hi & Hf & Hs & Hp & Hc & Hl).
    apply IH in Hk.
    destruct Hk as (msgs & Hmsgs & Hm' & Ht' & Hmo' & Hi' & Hf' & Hs' & Hp' & Hc' & Hl').
    exists (msg :: msgs). split; [constructor; assumption|].
    split; [rewrite Hm', Hm, <- app_assoc; reflexivity|].
    split.
    { rewrite Ht', Ht. unfold sum. simpl.
      assert (Hfold : forall l z, fold_left Z.add l z = z + fold_left Z.add l 0).
      { clear. induction l as [|x l IHl]; intros z; simpl; [lia|].
        rewrite (IHl (z + x)), (IHl x). lia. }
      rewrite (Hfold _ (tokens msg)). lia. }
    split; [rewrite Hmo', Hmo, last_app_default; reflexivity|].
    split; [congruence|]. split; [congruence|]. split; [congruence|].
    split; [congruence|].
    unfold stamps in *. simpl.
    split.
    + rewrite Hc', Hc.
      destruct (Py.truthy (entry_timestamp entry)) eqn:Hts; simpl.
      * destruct (Py.truthy (created_at conv)) eqn:Hca; simpl.
        -- rewrite Hca. reflexivity.
        -- rewrite Hts. reflexivity.
      * destruct (Py.truthy (created_at conv)) eqn:Hca; reflexivity.
    + rewrite Hl', Hl.
      destruct (Py.truthy (entry_timestamp entry)) eqn:Hts; simpl.
      * destruct (filter Py.truthy (map entry_timestamp entries)) eqn:Hf0;
          [reflexivity|].
        apply last_default_irrelevant. discriminate.
      * reflexivity.
Qed.

(** The conversation that [process_session_entries] returns, field by
    field, in terms of the entries in sorted order. *)
Lemma process_session_entries_spec (now : Z) (entries : list json)
  (session_id : json) (fp : string) (conv : Conversation) :
  process_session_entries now entries session_id fp = Ok conv ->
  exists sorted,
    sort_by timestamp_key entries = Ok sorted /\
    Permutation entries sorted /\
    Forall2 message_of sorted (messages conv) /\
    id conv = session_id /\ file_path conv = fp /\
    total_tokens conv = sum (map tokens (messages conv)) /\
    model conv = last (flat_map announced_model sorted) (JStr "unknown") /\
    created_at conv = hd JNull (stamps (map entry_timestamp sorted)) /\
    last_activity conv = last (stamps (map entry_timestamp sorted)) JNull.
Proof.
  unfold process_session_entries. intros H. bind_inv H. bind_inv Hk.
  inversion Hk0; subst conv; clear Hk0.
  exists a. split; [exact Ha|]. split; [eapply sort_by_perm; eassumption|].
  apply foldM_process_entry in Ha0.
  destruct Ha0 as (msgs & Hmsgs & Hm & Ht & Hmo & Hi & Hf & _ & _ & Hc & Hl).
  unfold classify. simpl in *. rewrite Hm.
  split; [exact Hmsgs|]. split; [exact Hi|]. split; [exact Hf|].
  split; [exact Ht|]. split; [exact Hmo|]. split; assumption.
Qed.


(** C5.  In a reconstructed session the message of every assistant-typed
    entry has role [assistant] and the content the specification gives:
    for a list, the text of each text part and a [[Tool: name]] marker
    for each tool use ([unknown_tool] without a name), in part order,
    joined by newlines; for a string, the string itself.  A single tool
    use named Bash renders as [[Tool: Bash]], a tool use without a name
    as [[Tool: unknown_tool]], and a text part followed by a tool use as
    the text, one newline and the marker. *)
Theorem C5_assistant_content (now : Z) (entries : list json) (session_id : json)
  (fp : string) (conv : Conversation) :
  process_session_entries now entries session_id fp = Ok conv ->
  (exists sorted,
    Permutation entries sorted /\
    Forall2 (fun entry msg =>
               forall e, entry = JObj e ->
                 Py.eq_str (Py.dict_get e "type" JNull) "assistant" = true ->
                 role msg = JStr "assistant" /\
                 exists md, Py.dict_get e "message" (JObj []) = JObj md /\
                   rendered_content (Py.dict_get md "content" (JArr []))
                   = Ok (content msg))
            sorted (messages conv)) /\
  (forall s, rendered_content (JStr s) = Ok (JStr s)) /\
  (forall p, Py.dict_get p "type" JNull = JStr "tool_use" ->
             Py.dict_get p "name" (JStr "unknown_tool") = JStr "Bash" ->
             rendered_content (JArr [JObj p]) = Ok (JStr "[Tool: Bash]")) /\
  (forall p, Py.dict_get p "type" JNull = JStr "tool_use" ->
             Py.lookup p "name" = None ->
             rendered_content (JArr [JObj p]) = Ok (JStr "[Tool: unknown_tool]")) /\
  (forall t p s n,
      Py.dict_get t "type" JNull = JStr "text" ->
      Py.dict_get t "text" (JStr "") = JStr s ->
      Py.dict_get p "type" JNull = JStr "tool_use" ->
      Py.dict_get p "name" (JStr "unknown_tool") = JStr n ->
      rendered_content (JArr [JObj t; JObj p])
      = Ok (JStr (s ++ String "010"%char ("[Tool: " ++ n ++ "]")))) /\
  (forall t1 t2 s1 s2,
      Py.dict_get t1 "type" JNull = JStr "text" ->
      Py.dict_get t1 "text" (JStr "") = JStr s1 ->
      Py.dict_get t2 "type" JNull = JStr "text" ->
      Py.dict_get t2 "text" (JStr "") = JStr s2 ->
      rendered_content (JArr [JObj t1; JObj t2])
      = Ok (JStr (s1 ++ String "010"%char s2))).
Proof.
  intros H. apply process_session_entries_spec in H.
  destruct H as (sorted & _ & Hperm & Hmsgs & _).
  split; [|split; [|split; [|split; [|split]]]].
  - exists sorted. split; [exact Hperm|].
    eapply Forall2_impl; [|exact Hmsgs]. intros entry msg (_ & _ & Hc). exact Hc.
  - reflexivity.
  - intros p Ht Hn. unfold rendered_content. simpl. rewrite Ht, Hn. reflexivity.
  - intros p Ht Hn. unfold rendered_content. simpl. rewrite Ht.
    unfold Py.dict_get. rewrite Hn. reflexivity.
  - intros t p s n Ht Hs Hp Hn. unfold rendered_content. simpl.
    rewrite Ht, Hs, Hp, Hn. reflexivity.
  - intros t1 t2 s1 s2 Ht1 Hs1 Ht2 Hs2. unfold rendered_content. simpl.
    rewrite Ht1, Hs1, Ht2, Hs2. reflexivity.
Qed.

(** C7, in the form that holds of the code.  The model of a conversation reconstructed from a
    session is the last non-empty model announced by an assistant entry,
    the entries taken in the order of the sort on their timestamp keys,
    and ['unknown'] when no assistant entry announces one. *)
Theorem C7_session_model (now : Z) (entries : list json) (session_id : json)
  (fp : string) (conv : Conversation) :
  process_session_entries now entries session_id fp = Ok conv ->
  exists sorted,
    sort_by timestamp_key entries = Ok sorted /\
    model conv = last (flat_map announced_model sorted) (JStr "unknown").
Proof.
  intros H. apply process_session_entries_spec in H.
  destruct H as (sorted & Hs & _ & _ & _ & _ & _ & Hm & _).
  exists sorted. split; assumption.
Qed.

(** ** Keys of grouping dicts *)

Lemma eqb_hashable_refl (a : json) : Py.hashable a = true -> Py.eqb a a = true.
Proof.
  destruct a; simpl; try discriminate; intros _; try reflexivity.
  - apply Z.eqb_refl.
  - apply Z.eqb_refl.
  - apply String.eqb_refl.
Qed.

Lemma eqb_hashable_sym (a b : json) :
  Py.hashable a = true -> Py.hashable b = true -> Py.eqb a b = Py.eqb b a.
Proof.
  destruct a, b; simpl; try discriminate; intros _ _; try reflexivity;
    try apply Z.eqb_sym; apply String.eqb_sym.
Qed.

Lemma eqb_hashable_trans (a b c : json) :
  Py.hashable a = true -> Py.hashable b = true -> Py.hashable c = true ->
  Py.eqb a b = true -> Py.eqb b c = true -> Py.eqb a c = true.
Proof.
  destruct a, b, c; simpl; try discriminate; intros _ _ _ H1 H2;
    try reflexivity; try discriminate;
    try (apply Z.eqb_eq in H1; apply Z.eqb_eq in H2; apply Z.eqb_eq; congruence);
    apply String.eqb_eq in H1; apply String.eqb_eq in H2; apply String.eqb_eq;
    congruence.
Qed.

(** Only a string equals a string. *)
Lemma eqb_str_inv (a : json) (s : string) : Py.eqb a (JStr s) = true -> a = JStr s.
Proof.
  destruct a; simpl; try discriminate.
  intros H. apply String.eqb_eq in H. congruence.
Qed.

Lemma eqb_str_inv_l (a : json) (s : string) : Py.eqb (JStr s) a = true -> a = JStr s.
Proof.
  destruct a; simpl; try discriminate.
  intros H. apply String.eqb_eq in H. congruence.
Qed.

Lemma eqb_str_str (s t : string) : Py.eqb (JStr s) (JStr t) = String.eqb s t.
Proof. reflexivity. Qed.

Lemma append_inj_l (p x y : string) : (p ++ x)%string = (p ++ y)%string -> x = y.
Proof.
  induction p as [|c p IH]; simpl; intros H; [exact H|].
  inversion H. apply IH. assumption.
Qed.

Lemma distinct_snoc (keys : list json) (k : json) :
  distinct keys -> Forall (fun k' => Py.eqb k' k = false) keys ->
  distinct (keys ++ [k]).
Proof.
  induction keys as [|a keys IH]; simpl; intros Hd Hf.
  - split; [constructor | exact I].
  - destruct Hd as [Ha Hd]. inversion Hf; subst. split.
    + apply Forall_app. split; [exact Ha|]. constructor; [assumption | constructor].
    + apply IH; assumption.
Qed.

Section KeyedDictFacts.

Variable V : Type.

(** An update either rewrites the first binding whose key equals [k] or
    adds a binding after all the others. *)
Lemma upsert_cases (default : V) (f : V -> V) (k : json) (d : list (json * V)) :
  (exists d1 k' v d2,
      d = d1 ++ (k', v) :: d2 /\ Py.eqb k' k = true /\
      Forall (fun kv => Py.eqb (fst kv) k = false) d1 /\
      upsert default f k d = d1 ++ (k', f v) :: d2)
  \/ (Forall (fun kv => Py.eqb (fst kv) k = false) d /\
      upsert default f k d = d ++ [(k, f default)]).
Proof.
  induction d as [|[k0 v0] d IH]; simpl.
  - right. split; [constructor | reflexivity].
  - destruct (Py.eqb k0 k) eqn:E.
    + left. exists [], k0, v0, d. repeat split; auto.
    + destruct IH as [(d1 & k' & v & d2 & -> & Hk & Hf & Hu) | (Hf & Hu)].
      * left. exists ((k0, v0) :: d1), k', v, d2. rewrite Hu.
        repeat split; auto.
      * right. rewrite Hu. split; [constructor; assumption | reflexivity].
Qed.

End KeyedDictFacts.

Lemma distinct_app_inv (l1 l2 : list json) (k : json) :
  distinct (l1 ++ k :: l2) ->
  Forall (fun k' => Py.eqb k' k = false) l1 /\
  Forall (fun k' => Py.eqb k k' = false) l2.
Proof.
  induction l1 as [|a l1 IH]; simpl; intros [Hf Hd].
  - split; [constructor | exact Hf].
  - destruct (IH Hd) as [H1 H2]. split; [|exact H2].
    constructor; [|exact H1].
    apply Forall_app in Hf. destruct Hf as [_ Hf]. inversion Hf; assumption.
Qed.

(** ** Grouping the lines of a file by session *)

Lemma members_snoc (seen : list (nat * json)) (ne : nat * json) (k : json) :
  members (seen ++ [ne]) k =
  members seen k ++ (if Py.eqb (session_key ne) k then [ne] else []).
Proof.
  unfold members. rewrite filter_app. simpl.
  destruct (Py.eqb (session_key ne) k); reflexivity.
Qed.

Lemma filter_none (A : Type) (f : A -> bool) (l : list A) :
  (forall x, In x l -> f x = false) -> filter f l = [].
Proof.
  induction l as [|a l IH]; simpl; intros H; [reflexivity|].
  rewrite (H a (or_introl eq_refl)). apply IH. intros x Hx. apply H. right. exact Hx.
Qed.

Lemma group_entry_inv (n : nat) (entry : json) (g g' : sessions) :
  group_entry n entry g = Ok g' ->
  (exists e, entry = JObj e) /\
  Py.hashable (session_key (n, entry)) = true /\
  g' = upsert [] (fun entries => entries ++ [entry]) (session_key (n, entry)) g.
Proof.
  unfold group_entry, session_id_of. intros H. bind_inv H. bind_inv Ha.
  destruct entry; simpl in Ha0; try discriminate.
  inversion Ha0; subst a0; clear Ha0. inversion Hk0; subst a; clear Hk0.
  unfold update in Hk. unfold session_key. simpl in Hk |- *.
  destruct (Py.hashable _) eqn:Hh in Hk; [|discriminate].
  inversion Hk; subst. split; [eexists; reflexivity|]. split; [exact Hh | reflexivity].
Qed.

Lemma grouped_step (seen : list (nat * json)) (g g' : sessions) (n : nat)
  (entry : json) :
  grouped seen g -> group_entry n entry g = Ok g' ->
  grouped (seen ++ [(n, entry)]) g'.
Proof.
  intros (Hd & Hg & Hs) H. apply group_entry_inv in H.
  destruct H as (Hobj & Hh & ->).
  set (ne := (n, entry)) in *. set (sid := session_key ne) in *.
  assert (Hkeep : forall k, Py.hashable k = true -> Py.eqb k sid = false ->
                    members (seen ++ [ne]) k = members seen k).
  { intros k Hkv Hne. rewrite members_snoc. fold sid.
    rewrite (eqb_hashable_sym _ _ Hh Hkv), Hne. apply app_nil_r. }
  destruct (upsert_cases [] (fun entries => entries ++ [entry]) sid g)
    as [(g1 & k' & v & g2 & Hgeq & Hk' & Hg1 & Hu) | (Hnone & Hu)]; rewrite Hu.
  - subst g. rewrite map_app in Hd. simpl in Hd.
    destruct (distinct_app_inv _ _ _ Hd) as [_ Hafter].
    apply Forall_app in Hg. destruct Hg as [Hg1' Hg2'].
    inversion Hg2' as [|? ? (Hhk' & Hv & Hvne) Hg2'']; subst. simpl in *.
    split; [|split].
    + rewrite map_app. simpl. exact Hd.
    + apply Forall_app. split; [|constructor].
      * rewrite Forall_forall in *. intros kv Hin.
        destruct (Hg1' kv Hin) as (Hhkv & Hsk & Hne0).
        split; [exact Hhkv|]. split; [|exact Hne0].
        rewrite Hkeep; auto.
      * simpl. split; [exact Hhk'|]. split.
        -- rewrite members_snoc. fold sid.
           rewrite (eqb_hashable_sym _ _ Hh Hhk'), Hk'.
           rewrite map_app. simpl. rewrite Hv. reflexivity.
        -- intros Hnil. apply app_eq_nil in Hnil. destruct Hnil; discriminate.
      * rewrite Forall_forall in *. intros kv Hin.
        destruct (Hg2'' kv Hin) as (Hhkv & Hsk & Hne0).
        split; [exact Hhkv|]. split; [|exact Hne0].
        rewrite Hkeep; auto.
        destruct (Py.eqb (fst kv) sid) eqn:E; [|reflexivity].
        assert (Py.eqb k' (fst kv) = true).
        { apply (eqb_hashable_trans k' sid (fst kv)); auto.
          rewrite eqb_hashable_sym; auto. }
        assert (Py.eqb k' (fst kv) = false).
        { apply (Hafter (fst kv)). apply in_map. exact Hin. }
        congruence.
    + apply Forall_app. split.
      * rewrite Forall_forall in *. intros ne' Hin.
        destruct (Hs ne' Hin) as (Hh' & Ho' & kv & Hkv & Hek).
        split; [exact Hh'|]. split; [exact Ho'|].
        apply in_app_or in Hkv. destruct Hkv as [Hkv | [Hkv | Hkv]].
        -- exists kv. split; [apply in_or_app; left; exact Hkv | exact Hek].
        -- subst kv. exists (k', v ++ [entry]).
           split; [apply in_or_app; right; left; reflexivity | exact Hek].
        -- exists kv. split; [apply in_or_app; right; right; exact Hkv | exact Hek].
      * constructor; [|constructor]. split; [exact Hh|]. split; [exact Hobj|].
        exists (k', v ++ [entry]).
        split; [apply in_or_app; right; left; reflexivity|]. simpl.
        rewrite eqb_hashable_sym; auto.
  - split; [|split].
    + rewrite map_app. simpl. apply distinct_snoc; [exact Hd|].
      rewrite Forall_forall in *. intros k Hin. apply in_map_iff in Hin.
      destruct Hin as (kv & <- & Hin). apply (Hnone kv Hin).
    + apply Forall_app. split; [|constructor; [|constructor]].
      * rewrite Forall_forall in *. intros kv Hin.
        destruct (Hg kv Hin) as (Hhkv & Hsk & Hne0).
        split; [exact Hhkv|]. split; [|exact Hne0].
        rewrite Hkeep; auto.
      * simpl. split; [exact Hh|]. split; [|discriminate].
        rewrite members_snoc. fold sid. rewrite (eqb_hashable_refl _ Hh).
        unfold members at 1. rewrite filter_none; [reflexivity|].
        intros ne' Hin. rewrite Forall_forall in Hs.
        destruct (Hs ne' Hin) as (Hh' & _ & kv & Hkv & Hek).
        destruct (Py.eqb (session_key ne') sid) eqn:E; [|reflexivity].
        rewrite Forall_forall in Hg, Hnone.
        destruct (Hg kv Hkv) as (Hhkv & _).
        assert (Py.eqb (fst kv) sid = true).
        { apply (eqb_hashable_trans (fst kv) (session_key ne') sid); auto.
          rewrite eqb_hashable_sym; auto. }
        rewrite (Hnone kv Hkv) in H. discriminate.
    + apply Forall_app. split.
      * rewrite Forall_forall in *. intros ne' Hin.
        destruct (Hs ne' Hin) as (Hh' & Ho' & kv & Hkv & Hek).
        split; [exact Hh'|]. split; [exact Ho'|].
        exists kv. split; [apply in_or_app; left; exact Hkv | exact Hek].
      * constructor; [|constructor]. split; [exact Hh|]. split; [exact Hobj|].
        exists (sid, [] ++ [entry]).
        split; [apply in_or_app; right; left; reflexivity|]. simpl.
        apply eqb_hashable_refl, Hh.
Qed.

Lemma read_lines_grouped (lines : list string) :
  forall (n : nat) (g0 g : sessions) (w0 w : list nat) (seen : list (nat * json)),
    grouped seen g0 ->
    read_lines n lines g0 w0 = (g, w, Ok tt) ->
    grouped (seen ++ parsed_from n lines) g /\ w = w0 ++ rejected_from n lines.
Proof.
  induction lines as [|line rest IH]; simpl; intros n g0 g w0 w seen Hg H.
  - inversion H; subst. rewrite !app_nil_r. split; [exact Hg | reflexivity].
  - destruct (loads (Py.strip line)) as [entry|].
    + destruct (group_entry n entry g0) as [g1|e] eqn:Hge; [|discriminate].
      pose proof (@grouped_step _ _ _ _ _ Hg Hge) as Hg1.
      destruct (IH _ _ _ _ _ _ Hg1 H) as [Hgr Hw].
      rewrite <- app_assoc in Hgr. split; assumption.
    + destruct (IH _ _ _ _ _ _ Hg H) as [Hgr Hw].
      split; [exact Hgr|]. rewrite Hw, <- app_assoc. reflexivity.
Qed.



Lemma grouped_nil : grouped [] [].
Proof. repeat split; constructor. Qed.




Lemma process_sessions_spec (clock : nat -> Z) (fp : string) (groups : sessions) :
  forall self self',
    process_sessions clock groups fp self = (self', Ok tt) ->
    exists convs,
      conversations self' = conversations self ++ convs /\
      usage_stats self' = usage_stats self /\
      Forall2 (built_from fp) groups convs.
Proof.
  induction groups as [|[k es] groups IH]; simpl; intros self self' H.
  - inversion H; subst. exists []. rewrite app_nil_r. repeat split. constructor.
  - destruct (process_session_entries (clock (List.length (conversations self))) es k fp)
      as [conv|e] eqn:Hp; [|discriminate].
    apply IH in H. destruct H as (convs & Hc & Hu & Hf).
    exists (conv :: convs). simpl in Hc, Hu. split; [|split].
    + rewrite Hc, <- app_assoc. reflexivity.
    + exact Hu.
    + constructor; [|exact Hf].
      pose proof (process_session_entries_spec _ _ _ _ Hp) as (s & _ & _ & _ & Hi & Hfp & _).
      split; [exact Hi|]. split; [exact Hfp|]. eexists. exact Hp.
Qed.

Lemma process_jsonl_file_spec (clock : nat -> Z) (self self' : analyzer)
  (file : file_id) (lines : list string) (warnings : list nat) :
  process_jsonl_file clock self file lines = (self', warnings, Ok tt) ->
  exists groups convs,
    read_lines 1 lines [] [] = (groups, warnings, Ok tt) /\
    conversations self' = conversations self ++ convs /\
    usage_stats self' = usage_stats self /\
    Forall2 (built_from (path file)) groups convs.
Proof.
  unfold process_jsonl_file. intros H.
  destruct (read_lines 1 lines [] []) as [[groups w] outcome] eqn:Hr.
  destruct outcome as [[]|e]; [|discriminate].
  destruct (process_sessions clock groups (path file) self) as [s o] eqn:Hp.
  inversion H; subst. apply process_sessions_spec in Hp.
  destruct Hp as (convs & Hc & Hu & Hf). exists groups, convs. repeat split; auto.
Qed.

Lemma members_In (parsed : list (nat * json)) (k : json) (ne : nat * json) :
  In ne (members parsed k) <-> In ne parsed /\ Py.eqb (session_key ne) k = true.
Proof. unfold members. apply filter_In. Qed.

(** Entries with equal keys share a group; entries with different keys
    share none. *)
Lemma grouped_pairs (parsed : list (nat * json)) (groups : sessions) :
  grouped parsed groups ->
  forall ne1 ne2, In ne1 parsed -> In ne2 parsed ->
    (Py.eqb (session_key ne1) (session_key ne2) = true ->
     exists g, In g groups /\ snd g = map snd (members parsed (fst g)) /\
               In ne1 (members parsed (fst g)) /\ In ne2 (members parsed (fst g))) /\
    (Py.eqb (session_key ne1) (session_key ne2) = false ->
     forall g, In g groups ->
       ~ (In ne1 (members parsed (fst g)) /\ In ne2 (members parsed (fst g)))).
Proof.
  intros (_ & Hg & Hs) ne1 ne2 H1 H2. rewrite Forall_forall in Hg, Hs.
  destruct (Hs ne1 H1) as (Hh1 & _ & kv & Hkv & Hek).
  destruct (Hs ne2 H2) as (Hh2 & _).
  split.
  - intros Heq. destruct (Hg kv Hkv) as (Hhk & Hm & _).
    exists kv. split; [exact Hkv|]. split; [exact Hm|].
    split; apply members_In; split; auto.
    apply (eqb_hashable_trans (session_key ne2) (session_key ne1) (fst kv)); auto.
    rewrite eqb_hashable_sym; auto.
  - intros Hne g Hin [Hm1 Hm2]. apply members_In in Hm1, Hm2.
    destruct Hm1 as [_ Hm1]. destruct Hm2 as [_ Hm2].
    destruct (Hg g Hin) as (Hhk & _).
    assert (Py.eqb (session_key ne1) (session_key ne2) = true).
    { apply (eqb_hashable_trans (session_key ne1) (fst g) (session_key ne2)); auto.
      rewrite eqb_hashable_sym; auto. }
    congruence.
Qed.

(** C4, in the form that holds of the code.  Grouping is per file.  When [process_jsonl_file]
    completes, the conversations it adds are the reconstructions of the
    groups of this file's lines, one conversation per group, each group
    holding exactly the entries filed under its key; two entries of the
    file whose session keys are equal are in one group, and two entries
    whose keys differ are in no common group. *)
Theorem C4_grouping_within_a_file (clock : nat -> Z) (self self' : analyzer)
  (file : file_id) (lines : list string) (warnings : list nat) :
  process_jsonl_file clock self file lines = (self', warnings, Ok tt) ->
  exists groups convs,
    conversations self' = conversations self ++ convs /\
    Forall2 (built_from (path file)) groups convs /\
    (forall g, In g groups -> snd g = map snd (members (parsed_from 1 lines) (fst g))) /\
    forall ne1 ne2,
      In ne1 (parsed_from 1 lines) -> In ne2 (parsed_from 1 lines) ->
      (Py.eqb (session_key ne1) (session_key ne2) = true ->
       exists g, In g groups /\
                 In ne1 (members (parsed_from 1 lines) (fst g)) /\
                 In ne2 (members (parsed_from 1 lines) (fst g))) /\
      (Py.eqb (session_key ne1) (session_key ne2) = false ->
       forall g, In g groups ->
         ~ (In ne1 (members (parsed_from 1 lines) (fst g)) /\
            In ne2 (members (parsed_from 1 lines) (fst g)))).
Proof.
  intros H. apply process_jsonl_file_spec in H.
  destruct H as (groups & convs & Hr & Hc & _ & Hf).
  destruct (@read_lines_grouped _ _ _ _ _ _ _ grouped_nil Hr) as [Hg _].
  simpl in Hg. exists groups, convs. split; [exact Hc|]. split; [exact Hf|].
  split.
  - intros g Hin. destruct Hg as (_ & Hg & _). rewrite Forall_forall in Hg.
    apply (Hg g Hin).
  - intros ne1 ne2 H1 H2.
    destruct (grouped_pairs Hg ne1 ne2 H1 H2) as [Hsame Hdiff].
    split; [|exact Hdiff].
    intros Heq. destruct (Hsame Heq) as (g & Hin & _ & Hm1 & Hm2).
    exists g. repeat split; assumption.
Qed.

Lemma str_of_nat_inj (i j : nat) : Py.str_of_nat i = Py.str_of_nat j -> i = j.
Proof.
  unfold Py.str_of_nat. intros H.
  assert (Hu : Nat.to_uint i = Nat.to_uint j).
  { apply (f_equal NilEmpty.uint_of_string) in H.
    rewrite !NilEmpty.usu in H. congruence. }
  apply (f_equal Nat.of_uint) in Hu.
  rewrite !DecimalNat.Unsigned.of_to in Hu. exact Hu.
Qed.

Lemma session_key_synthetic (n : nat) (e : dict) :
  Py.lookup e "sessionId" = None ->
  session_key (n, JObj e) = JStr ("session_" ++ Py.str_of_nat n).
Proof. intros H. unfold session_key, Py.dict_get. simpl. rewrite H. reflexivity. Qed.

Lemma session_key_explicit (n : nat) (e : dict) (v : json) :
  Py.lookup e "sessionId" = Some v -> session_key (n, JObj e) = v.
Proof. intros H. unfold session_key, Py.dict_get. simpl. rewrite H. reflexivity. Qed.

(** C10.  When [process_jsonl_file] completes, the conversations it
    adds are the reconstructions of the groups of this file's lines, one
    conversation per group, the groups having different keys and each
    holding exactly the entries filed under its key.  An entry without a [sessionId] on line [n] is in the
    group, and so in the conversation, whose key is the string
    [session_n]; two such entries on different lines are in no common
    group; and an entry whose [sessionId] is the string [session_n] is
    in the group of the entry without [sessionId] on line [n]. *)
Theorem C10_synthetic_session_keys (clock : nat -> Z) (self self' : analyzer)
  (file : file_id) (lines : list string) (warnings : list nat) :
  process_jsonl_file clock self file lines = (self', warnings, Ok tt) ->
  exists groups convs,
    conversations self' = conversations self ++ convs /\
    Forall2 (built_from (path file)) groups convs /\
    distinct (map fst groups) /\
    (forall g, In g groups -> snd g = map snd (members (parsed_from 1 lines) (fst g))) /\
    (forall n e,
        In (n, JObj e) (parsed_from 1 lines) -> Py.lookup e "sessionId" = None ->
        exists g, In g groups /\
          fst g = JStr ("session_" ++ Py.str_of_nat n) /\
          snd g = map snd (members (parsed_from 1 lines) (fst g)) /\
          In (n, JObj e) (members (parsed_from 1 lines) (fst g))) /\
    (forall i j ei ej,
        In (i, JObj ei) (parsed_from 1 lines) -> In (j, JObj ej) (parsed_from 1 lines) ->
        Py.lookup ei "sessionId" = None -> Py.lookup ej "sessionId" = None ->
        i <> j ->
        forall g, In g groups ->
          ~ (In (i, JObj ei) (members (parsed_from 1 lines) (fst g)) /\
             In (j, JObj ej) (members (parsed_from 1 lines) (fst g)))) /\
    (forall n m e e',
        In (n, JObj e) (parsed_from 1 lines) -> In (m, JObj e') (parsed_from 1 lines) ->
        Py.lookup e "sessionId" = None ->
        Py.lookup e' "sessionId" = Some (JStr ("session_" ++ Py.str_of_nat n)) ->
        exists g, In g groups /\
          In (n, JObj e) (members (parsed_from 1 lines) (fst g)) /\
          In (m, JObj e') (members (parsed_from 1 lines) (fst g))).
Proof.
  intros H. apply process_jsonl_file_spec in H.
  destruct H as (groups & convs & Hr & Hc & _ & Hf).
  destruct (@read_lines_grouped _ _ _ _ _ _ _ grouped_nil Hr) as [Hg _].
  simpl in Hg. exists groups, convs. split; [exact Hc|]. split; [exact Hf|].
  split; [apply Hg|].
  split.
  { intros g Hin. destruct Hg as (_ & Hg' & _). rewrite Forall_forall in Hg'.
    apply (Hg' g Hin). }
  split; [|split].
  - intros n e Hin Hno.
    destruct (grouped_pairs Hg _ _ Hin Hin) as [Hsame _].
    destruct Hg as (_ & _ & Hs). rewrite Forall_forall in Hs.
    destruct (Hs _ Hin) as (Hh & _).
    destruct (Hsame (eqb_hashable_refl _ Hh)) as (g & Hg1 & Hg2 & Hm & _).
    exists g. split; [exact Hg1|]. split; [|split; assumption].
    apply members_In in Hm. destruct Hm as [_ Hm].
    rewrite (session_key_synthetic n e Hno) in Hm.
    apply eqb_str_inv_l in Hm. exact Hm.
  - intros i j ei ej Hi Hj Hni Hnj Hij.
    destruct (grouped_pairs Hg _ _ Hi Hj) as [_ Hdiff]. apply Hdiff.
    rewrite (session_key_synthetic i ei Hni), (session_key_synthetic j ej Hnj).
    rewrite eqb_str_str. apply String.eqb_neq. intros Heq.
    apply Hij, str_of_nat_inj. apply append_inj_l in Heq. exact Heq.
  - intros n m e e' Hn Hm Hno Hex.
    destruct (grouped_pairs Hg _ _ Hn Hm) as [Hsame _].
    rewrite (session_key_synthetic n e Hno), (session_key_explicit m e' Hex) in Hsame.
    rewrite eqb_str_str, String.eqb_refl in Hsame.
    destruct (Hsame eq_refl) as (g & Hin & _ & H1 & H2).
    exists g. repeat split; assumption.
Qed.

(** ** The order of timestamps *)

Lemma ascii_compare_refl (c : ascii) : Ascii.compare c c = Eq.
Proof. unfold Ascii.compare. apply N.compare_refl. Qed.

Lemma ascii_compare_lt_trans (a b c : ascii) :
  Ascii.compare a b = Lt -> Ascii.compare b c = Lt -> Ascii.compare a c = Lt.
Proof.
  unfold Ascii.compare. rewrite !N.compare_lt_iff. apply N.lt_trans.
Qed.

Lemma string_leb_trans (s1 s2 s3 : string) :
  String.leb s1 s2 = true -> String.leb s2 s3 = true -> String.leb s1 s3 = true.
Proof.
  unfold String.leb. revert s2 s3.
  induction s1 as [|c1 s1 IH]; intros [|c2 s2] [|c3 s3]; simpl; auto;
    try discriminate.
  destruct (Ascii.compare c1 c2) eqn:E12; try discriminate;
    destruct (Ascii.compare c2 c3) eqn:E23; try discriminate.
  - apply Ascii.compare_eq_iff in E12, E23. subst.
    rewrite ascii_compare_refl. apply IH.
  - apply Ascii.compare_eq_iff in E12. subst. rewrite E23. auto.
  - apply Ascii.compare_eq_iff in E23. subst. rewrite E12. auto.
  - rewrite (ascii_compare_lt_trans _ _ _ E12 E23). auto.
Qed.

Lemma string_ltb_leb (s t : string) : Py.string_ltb s t = true -> String.leb s t = true.
Proof.
  unfold Py.string_ltb, String.ltb, String.leb.
  destruct (String.compare s t); auto; discriminate.
Qed.

Lemma string_not_ltb_leb (s t : string) :
  Py.string_ltb s t = false -> String.leb t s = true.
Proof.
  unfold Py.string_ltb, String.ltb, String.leb. rewrite (String.compare_antisym s t).
  destruct (String.compare t s); simpl; auto; discriminate.
Qed.

Section SortedFacts.

Variable A : Type.

Lemma key_le_trans (x y z : json * A) : key_le x y -> key_le y z -> key_le x z.
Proof. unfold key_le. apply string_leb_trans. Qed.

Lemma insert_keyed_sorted (x : json * A) (l r : list (json * A)) :
  is_text (fst x) -> Forall (fun y => is_text (fst y)) l ->
  StronglySorted key_le l -> insert_keyed x l = Ok r -> StronglySorted key_le r.
Proof.
  intros [a Ha]. revert r. induction l as [|y l IH]; simpl; intros r Hl Hs H.
  - inversion H. constructor; constructor.
  - inversion Hl as [|? ? [b Hb] Hl']; subst.
    inversion Hs as [|? ? Hs' Hy]; subst.
    rewrite Ha, Hb in H. simpl in H.
    destruct (Py.string_ltb b a) eqn:E.
    + bind_inv H. inversion Hk; subst.
      constructor; [apply IH; assumption|].
      assert (Hp : Permutation (x :: l) a0)
        by (eapply insert_keyed_perm; eassumption).
      rewrite Forall_forall in *. intros z Hz.
      apply (Permutation_in _ (Permutation_sym Hp)) in Hz.
      destruct Hz as [<- | Hz]; [|apply Hy, Hz].
      unfold key_le. rewrite Ha, Hb. simpl. apply string_ltb_leb, E.
    + inversion H; subst.
      assert (Hxy : key_le x y).
      { unfold key_le. rewrite Ha, Hb. simpl. apply string_not_ltb_leb, E. }
      constructor; [constructor; assumption|].
      constructor; [exact Hxy|].
      rewrite Forall_forall in *. intros z Hz.
      apply (key_le_trans Hxy), Hy, Hz.
Qed.

Lemma sort_keyed_sorted (l r : list (json * A)) :
  Forall (fun y => is_text (fst y)) l ->
  sort_keyed l = Ok r -> StronglySorted key_le r.
Proof.
  revert r. induction l as [|x l IH]; simpl; intros r Hl H.
  - inversion H. constructor.
  - inversion Hl; subst. bind_inv H.
    eapply insert_keyed_sorted; [eassumption | | apply IH; eassumption | exact Hk].
    assert (Hp : Permutation l a) by (eapply sort_keyed_perm; eassumption).
    rewrite Forall_forall in *. intros z Hz.
    apply H3. apply (Permutation_in _ (Permutation_sym Hp)), Hz.
Qed.

End SortedFacts.

Lemma filter_perm (A : Type) (f : A -> bool) (l l' : list A) :
  Permutation l l' -> Permutation (filter f l) (filter f l').
Proof.
  induction 1 as [|x l l' _ IH|x y l|l l' l'' _ IH1 _ IH2]; simpl.
  - constructor.
  - destruct (f x); [constructor|]; exact IH.
  - destruct (f x), (f y); try apply Permutation_refl. apply perm_swap.
  - eapply perm_trans; eassumption.
Qed.

Lemma timestamp_key_matches (entries : list json) (keyed : list (json * json)) :
  Forall string_stamped entries ->
  mapM (fun x => k <- timestamp_key x ;; Ok (k, x)) entries = Ok keyed ->
  Forall key_matches keyed.
Proof.
  revert keyed. induction entries as [|entry entries IH]; simpl; intros keyed Hs H.
  - inversion H. constructor.
  - inversion Hs as [|? ? (e & -> & He) Hs']; subst.
    bind_inv H. bind_inv Hk. inversion Hk0; subst.
    constructor; [|apply IH; assumption].
    bind_inv Ha. simpl in Ha1. inversion Ha1; subst a1. inversion Hk; subst a.
    unfold key_matches, is_text, Py.dict_get. simpl. unfold Py.dict_get.
    destruct He as [He | [s He]]; rewrite He.
    + split; [eexists; reflexivity|]. right. split; reflexivity.
    + split; [eexists; reflexivity|]. left. reflexivity.
Qed.

Lemma sorted_stamps (s : list (json * json)) :
  Forall key_matches s -> StronglySorted (@key_le json) s ->
  StronglySorted text_le (stamps (map entry_timestamp (map snd s))) /\
  Forall (fun t => is_text t /\ exists kx, In kx s /\ fst kx = t)
         (stamps (map entry_timestamp (map snd s))).
Proof.
  induction s as [|kx s IH]; simpl; intros Hm Hs.
  - split; constructor.
  - inversion Hm as [|? ? [Htext Hkey] Hm']; subst.
    inversion Hs as [|? ? Hs' Hle]; subst.
    destruct (IH Hm' Hs') as [IH1 IH2].
    assert (Hrest : Forall (fun t => is_text t /\ exists kx0, In kx0 (kx :: s) /\ fst kx0 = t)
                           (stamps (map entry_timestamp (map snd s)))).
    { rewrite Forall_forall in *. intros t Ht.
      destruct (IH2 t Ht) as (Hit & kx0 & Hin & Hf).
      split; [exact Hit|]. exists kx0. split; [right; exact Hin | exact Hf]. }
    unfold stamps in *. simpl.
    destruct (Py.truthy (entry_timestamp (snd kx))) eqn:Htr; [|split; assumption].
    destruct Hkey as [Hkey | [Hkey _]]; [|rewrite Hkey in Htr; discriminate].
    split.
    + constructor; [exact IH1|].
      rewrite Forall_forall in *. intros t Ht.
      destruct (IH2 t Ht) as (_ & kx0 & Hin & <-).
      unfold text_le. rewrite Hkey. apply (Hle kx0 Hin).
    + constructor; [|exact Hrest].
      rewrite Hkey. split; [exact Htext|]. exists kx. split; [left|]; reflexivity.
Qed.

Lemma text_le_refl (a : json) : text_le a a.
Proof.
  unfold text_le, String.leb.
  pose proof (String.compare_antisym (key_text a) (key_text a)) as H.
  destruct (String.compare (key_text a) (key_text a)); simpl in H; auto.
  discriminate.
Qed.

Lemma sorted_hd_least (l : list json) (d : json) :
  StronglySorted text_le l -> forall t, In t l -> text_le (hd d l) t.
Proof.
  intros Hs t Hin. destruct l as [|a l]; [contradiction|].
  inversion Hs as [|? ? _ Hle]; subst. simpl.
  destruct Hin as [<- | Hin]; [apply text_le_refl|].
  rewrite Forall_forall in Hle. apply Hle, Hin.
Qed.

Lemma sorted_last_greatest (l : list json) (d : json) :
  StronglySorted text_le l -> forall t, In t l -> text_le t (last l d).
Proof.
  induction l as [|a l IH]; intros Hs t Hin; [contradiction|].
  inversion Hs as [|? ? Hs' Hle]; subst.
  destruct l as [|b l].
  - destruct Hin as [<- | []]. apply text_le_refl.
  - change (text_le t (last (b :: l) d)).
    destruct Hin as [<- | Hin]; [|apply IH; assumption].
    rewrite Forall_forall in Hle. apply Hle.
    clear. revert b. induction l as [|c l IHl]; intros b; [left; reflexivity|].
    change (In (last (c :: l) d) (b :: c :: l)). right. apply IHl.
Qed.

Lemma hd_In (A : Type) (l : list A) (d : A) : l <> [] -> In (hd d l) l.
Proof. destruct l; [contradiction | left; reflexivity]. Qed.

Lemma last_In (A : Type) (l : list A) (d : A) : l <> [] -> In (last l d) l.
Proof.
  induction l as [|a l IH]; intros H; [contradiction|].
  destruct l as [|b l]; [left; reflexivity|].
  right. apply IH. discriminate.
Qed.

Lemma message_timestamps (entries : list json) (msgs : list message_info) :
  Forall2 message_of entries msgs ->
  map timestamp msgs = map entry_timestamp entries.
Proof.
  induction 1 as [|entry msg entries msgs (Ht & _) _ IH]; simpl;
    [reflexivity | rewrite Ht, IH; reflexivity].
Qed.

(** C6, in the form that holds of the code.  For a session whose timestamps are strings (or are
    missing), [created_at] and [last_activity] are the least and the
    greatest non-empty timestamp of the messages in the code-point order
    of the timestamp texts, the order of the sort; both are null when no
    message carries a timestamp.  The timestamps are compared as texts,
    never as parsed instants. *)
Theorem C6_least_and_greatest_timestamp (now : Z) (entries : list json)
  (session_id : json) (fp : string) (conv : Conversation) :
  Forall string_stamped entries ->
  process_session_entries now entries session_id fp = Ok conv ->
  (stamps (map timestamp (messages conv)) = [] ->
   created_at conv = JNull /\ last_activity conv = JNull) /\
  (stamps (map timestamp (messages conv)) <> [] ->
   exists lo hi,
     created_at conv = JStr lo /\ last_activity conv = JStr hi /\
     In (JStr lo) (stamps (map timestamp (messages conv))) /\
     In (JStr hi) (stamps (map timestamp (messages conv))) /\
     forall t, In (JStr t) (stamps (map timestamp (messages conv))) ->
               String.leb lo t = true /\ String.leb t hi = true).
Proof.
  intros Hstr H. apply process_session_entries_spec in H.
  destruct H as (sorted & Hsort & _ & Hmsgs & _ & _ & _ & _ & Hc & Hl).
  rewrite (message_timestamps Hmsgs). rewrite Hc, Hl.
  unfold sort_by in Hsort. bind_inv Hsort. bind_inv Hk. inversion Hk0; subst sorted.
  rename a into keyed, a0 into s.
  assert (Hkm : Forall key_matches s).
  { pose proof (timestamp_key_matches Hstr Ha) as Hkeyed.
    assert (Hp : Permutation keyed s) by (eapply sort_keyed_perm; eassumption).
    rewrite Forall_forall in *. intros kx Hin.
    apply Hkeyed, (Permutation_in _ (Permutation_sym Hp)), Hin. }
  assert (Hss : StronglySorted (@key_le json) s).
  { eapply sort_keyed_sorted; [|exact Ha0].
    pose proof (timestamp_key_matches Hstr Ha) as Hkeyed.
    rewrite Forall_forall in *. intros kx Hin. apply (Hkeyed kx Hin). }
  destruct (sorted_stamps Hkm Hss) as [Hsorted Htexts].
  set (st := stamps (map entry_timestamp (map snd s))) in *.
  split.
  - intros ->. split; reflexivity.
  - intros Hne.
    pose proof (hd_In JNull Hne) as Hhd. pose proof (last_In JNull Hne) as Hlast.
    rewrite Forall_forall in Htexts.
    destruct (Htexts _ Hhd) as [[lo Hlo] _]. destruct (Htexts _ Hlast) as [[hi Hhi] _].
    exists lo, hi. split; [exact Hlo|]. split; [exact Hhi|].
    split; [rewrite <- Hlo; exact Hhd|]. split; [rewrite <- Hhi; exact Hlast|].
    intros t Ht. split.
    + pose proof (sorted_hd_least JNull Hsorted _ Ht) as Hle.
      unfold text_le in Hle. rewrite Hlo in Hle. exact Hle.
    + pose proof (sorted_last_greatest JNull Hsorted _ Ht) as Hle.
      unfold text_le in Hle. rewrite Hhi in Hle. exact Hle.
Qed.

(** ** Aggregation *)


Lemma counter_total (keys : list json) :
  Forall (fun k => Py.hashable k = true) keys ->
  forall d, exists d', foldM (fun d k => update 0 (fun n => n + 1) k d) keys d = Ok d'.
Proof.
  induction 1 as [|k keys Hk _ IH]; simpl; intros d.
  - eexists; reflexivity.
  - unfold update at 1. rewrite Hk. simpl. apply IH.
Qed.

Lemma same_but_status_maps (cs1 cs2 : list Conversation) :
  Forall2 same_but_status cs1 cs2 ->
  List.length cs1 = List.length cs2 /\
  map (fun conv => Z.of_nat (List.length (messages conv))) cs1 =
  map (fun conv => Z.of_nat (List.length (messages conv))) cs2 /\
  map total_tokens cs1 = map total_tokens cs2 /\
  map model cs1 = map model cs2 /\
  map (fun conv => JStr (project_context conv)) cs1 =
  map (fun conv => JStr (project_context conv)) cs2 /\
  forall d, fold_left daily_step cs1 d = fold_left daily_step cs2 d.
Proof.
  induction 1 as [|c1 c2 cs1 cs2 (_ & _ & Hm & Ht & Hmo & Hc & _ & Hp) _ IH]; simpl.
  - repeat split; reflexivity.
  - destruct IH as (Ea & Eb & Ec & Ed & Ee & Ef).
    rewrite Ea, Eb, Ec, Ed, Ee, Hm, Ht, Hmo, Hp. repeat split; try reflexivity.
    intros d. replace (daily_step d c1) with (daily_step d c2); [apply Ef|].
    unfold daily_step, daily_key. rewrite Hc, Ht. reflexivity.
Qed.

Lemma classify_same_but_status (now1 now2 : Z) (conv : Conversation) :
  same_but_status (classify now1 conv) (classify now2 conv).
Proof. unfold same_but_status, classify. simpl. repeat split; reflexivity. Qed.

Lemma usage_statistics_same_but_status (cs1 cs2 : list Conversation) (s1 : Stats.t) :
  Forall2 same_but_status cs1 cs2 ->
  usage_statistics cs1 = Ok s1 ->
  exists s2, usage_statistics cs2 = Ok s2 /\ same_but_statuses s1 s2.
Proof.
  intros Hsame H.
  destruct (same_but_status_maps Hsame) as (Hl & E1 & E2 & E3 & E4 & E5).
  assert (Hhash : Forall (fun k => Py.hashable k = true)
                         (map (fun conv => JStr (status conv)) cs2)).
  { rewrite Forall_forall. intros k Hin. apply in_map_iff in Hin.
    destruct Hin as (? & <- & _). reflexivity. }
  destruct (counter_total Hhash []) as [st2 Hst2].
  unfold usage_statistics, counter in *.
  rewrite <- Hl, <- E1, <- E2, <- E3, <- E4, <- E5, Hst2.
  bind_inv H. bind_inv Hk. bind_inv Hk0. bind_inv Hk. bind_inv Hk0.
  inversion Hk; subst; clear Hk.
  rewrite Ha, Ha0. cbn [bind]. rewrite Ha2, Ha3. cbn [bind].
  eexists. split; [reflexivity|].
  unfold same_but_statuses. simpl. repeat split; reflexivity.
Qed.

(** C9.  Aggregation is a function of the stored conversations alone:
    running it again on its own result changes nothing; two analyzers
    holding the same conversations get the same statistics; and two
    analyzers whose conversations differ in their status at most, as two
    classifications at different times do, get statistics that
    differ in the status breakdown at most. *)
Theorem C9_aggregation_deterministic (self1 self2 r1 : analyzer) :
  analyze_usage_patterns self1 = Ok r1 ->
  analyze_usage_patterns r1 = Ok r1 /\
  (conversations self2 = conversations self1 ->
   conversations self1 <> [] \/ usage_stats self2 = usage_stats self1 ->
   exists r2, analyze_usage_patterns self2 = Ok r2 /\
              usage_stats r2 = usage_stats r1) /\
  (conversations self1 <> [] ->
   Forall2 same_but_status (conversations self1) (conversations self2) ->
   exists r2 s1 s2,
     analyze_usage_patterns self2 = Ok r2 /\
     usage_stats r1 = Some s1 /\ usage_stats r2 = Some s2 /\
     same_but_statuses s1 s2) /\
  (forall now1 now2 entries session_id fp c1,
     process_session_entries now1 entries session_id fp = Ok c1 ->
     exists c2, process_session_entries now2 entries session_id fp = Ok c2 /\
                same_but_status c1 c2).
Proof.
  intros H. split; [|split; [|split]].
  - unfold analyze_usage_patterns in *.
    destruct (conversations self1) as [|c cs] eqn:E.
    + inversion H; subst. rewrite E. reflexivity.
    + bind_inv H. inversion Hk; subst. simpl. rewrite Ha. reflexivity.
  - intros Hc Hor. unfold analyze_usage_patterns in *. rewrite Hc.
    destruct (conversations self1) as [|c cs] eqn:E.
    + destruct Hor as [Hne | Hu]; [contradiction Hne; reflexivity|].
      inversion H; subst. exists self2. split; [reflexivity | exact Hu].
    + bind_inv H. inversion Hk; subst. rewrite Ha. simpl.
      eexists. split; reflexivity.
  - intros Hne Hsame. unfold analyze_usage_patterns in *.
    destruct (conversations self1) as [|c cs] eqn:E; [contradiction Hne; reflexivity|].
    destruct (conversations self2) as [|c' cs'] eqn:E'; [inversion Hsame|].
    bind_inv H. inversion Hk; subst; clear Hk.
    destruct (usage_statistics_same_but_status Hsame Ha) as (s2 & Hs2 & Hss).
    rewrite Hs2. simpl.
    eexists. exists a, s2. repeat split; try reflexivity; apply Hss.
  - intros now1 now2 entries session_id fp c1 Hp.
    unfold process_session_entries in *. bind_inv Hp. bind_inv Hk.
    inversion Hk0; subst. rewrite Ha. simpl. rewrite Ha0. simpl.
    eexists. split; [reflexivity|]. apply classify_same_but_status.
Qed.

(** ** The display list of the dashboard *)

Section UpdateFacts.

Variable A : Type.
Variable f : A -> A.

Lemma update_nth_length (n : nat) (l : list A) :
  List.length (update_nth n f l) = List.length l.
Proof.
  revert n. induction l as [|a l IH]; intros [|n]; simpl; auto.
Qed.

Lemma update_nth_same (n : nat) (l : list A) :
  nth_error (update_nth n f l) n = option_map f (nth_error l n).
Proof.
  revert n. induction l as [|a l IH]; intros [|n]; simpl; auto.
Qed.

Lemma update_nth_other (n i : nat) (l : list A) :
  i <> n -> nth_error (update_nth n f l) i = nth_error l i.
Proof.
  revert n i. induction l as [|a l IH]; intros [|n] [|i] H; simpl; auto.
  - contradiction H; reflexivity.
Qed.

(** Updating distinct positions one after the other rewrites each of
    them once and leaves the rest alone. *)
Lemma fold_update_nth (positions : list nat) :
  NoDup positions ->
  forall (l : list A) (i : nat),
    nth_error (fold_left (fun st p => update_nth p f st) positions l) i =
    if in_dec Nat.eq_dec i positions then option_map f (nth_error l i)
    else nth_error l i.
Proof.
  induction 1 as [|p positions Hp _ IH]; simpl; intros l i; [reflexivity|].
  rewrite IH. destruct (in_dec Nat.eq_dec i positions) as [Hin|Hout].
  - destruct (Nat.eq_dec p i) as [->|Hne]; [contradiction|].
    rewrite update_nth_other; auto.
  - destruct (Nat.eq_dec p i) as [->|Hne].
    + apply update_nth_same.
    + apply update_nth_other. auto.
Qed.

Lemma fold_update_nth_length (positions : list nat) (l : list A) :
  List.length (fold_left (fun st p => update_nth p f st) positions l) = List.length l.
Proof.
  revert l. induction positions as [|p positions IH]; simpl; intros l; [reflexivity|].
  rewrite IH. apply update_nth_length.
Qed.

End UpdateFacts.


Lemma map_fst_combine (A B : Type) (l : list A) (l' : list B) :
  List.length l = List.length l' -> map fst (combine l l') = l.
Proof.
  revert l'. induction l as [|a l IH]; intros [|b l'] H; simpl in *;
    try discriminate; [reflexivity|]. rewrite IH; congruence.
Qed.

Lemma NoDup_firstn (A : Type) (n : nat) (l : list A) : NoDup l -> NoDup (firstn n l).
Proof.
  intros H. revert n. induction H as [|a l Ha _ IH]; intros [|n]; simpl;
    try constructor; auto.
  intros Hin. apply Ha. clear -Hin. revert n Hin.
  induction l as [|b l IHl]; intros [|n] Hin; simpl in *; try contradiction.
  destruct Hin as [-> | Hin]; [left; reflexivity | right; eapply IHl; exact Hin].
Qed.

Lemma display_positions_NoDup (store : list Conversation) (positions : list nat) :
  display_positions store = Ok positions -> NoDup positions.
Proof.
  unfold display_positions. intros H. bind_inv H.
  assert (Hpos : map fst (firstn 50 a) = positions) by congruence.
  rewrite <- Hpos, <- firstn_map. apply NoDup_firstn.
  assert (Hp : Permutation (combine (seq 0 (List.length store)) store) a)
    by (eapply sort_by_reverse_perm; eassumption).
  apply (Permutation_map fst) in Hp.
  rewrite map_fst_combine in Hp by apply length_seq.
  eapply Permutation_NoDup; [exact Hp | apply seq_NoDup].
Qed.



(** ** Well-formed sessions are reconstructed *)

Lemma strs_part_lines (parts : list json) :
  Forall well_formed_part parts ->
  exists lines, Py.strs (flat_map part_lines parts) = Ok lines.
Proof.
  induction 1 as [|part parts Hp _ [lines IH]]; simpl.
  - eexists; reflexivity.
  - unfold part_lines at 1. destruct part; simpl; try (eexists; exact IH).
    unfold well_formed_part in Hp.
    destruct (Py.eq_str (Py.dict_get kvs "type" JNull) "text").
    + destruct (Hp eq_refl) as [t Ht]. rewrite Ht. simpl. rewrite IH. simpl.
      eexists; reflexivity.
    + destruct (Py.eq_str (Py.dict_get kvs "type" JNull) "tool_use"); simpl.
      * rewrite IH. simpl. eexists; reflexivity.
      * eexists; exact IH.
Qed.

Lemma usage_tokens_total (md : dict) :
  well_formed_usage (Py.dict_get md "usage" (JObj [])) ->
  exists n, usage_tokens md = Ok n.
Proof.
  unfold usage_tokens. intros [Hf | (u & a & b & Hu & Ha & Hb)].
  - rewrite Hf. eexists; reflexivity.
  - rewrite Hu. destruct (Py.truthy (JObj u)); [|eexists; reflexivity].
    simpl. unfold add_tokens. rewrite Ha, Hb. eexists; reflexivity.
Qed.

Lemma process_entry_total (conv : Conversation) (entry : json) :
  well_formed_entry entry -> exists conv', process_entry conv entry = Ok conv'.
Proof.
  intros [(e & -> & _) Hwf]. destruct (Hwf e eq_refl) as [Hu Ha].
  unfold process_entry. simpl.
  assert (Hx : exists x, extract_message conv e = Ok x).
  { unfold extract_message.
    destruct (Py.eq_str (Py.dict_get e "type" JNull) "user").
    - destruct (Hu eq_refl) as [md ->]. simpl. eexists; reflexivity.
    - destruct (Py.eq_str (Py.dict_get e "type" JNull) "assistant").
      + destruct (Ha eq_refl) as (md & -> & Hparts & Husage). simpl.
        rewrite assistant_content_rendered.
        assert (Hc : exists c, rendered_content (Py.dict_get md "content" (JArr [])) = Ok c).
        { unfold rendered_content.
          destruct (Py.dict_get md "content" (JArr [])) eqn:E; try (eexists; reflexivity).
          destruct (strs_part_lines (Hparts _ eq_refl)) as [lines ->]. simpl.
          eexists; reflexivity. }
        destruct Hc as [c ->]. simpl.
        destruct (@usage_tokens_total md Husage) as [n ->]. simpl.
        eexists; reflexivity.
      + eexists; reflexivity. }
  destruct Hx as [[[[m r] c] n] ->]. simpl. eexists; reflexivity.
Qed.

Lemma foldM_process_entry_total (entries : list json) :
  Forall well_formed_entry entries ->
  forall conv, exists conv', foldM process_entry entries conv = Ok conv'.
Proof.
  induction 1 as [|entry entries He _ IH]; simpl; intros conv.
  - eexists; reflexivity.
  - destruct (process_entry_total conv He) as [conv1 ->]. simpl. apply IH.
Qed.

Lemma insert_keyed_total (A : Type) (x : json * A) (l : list (json * A)) :
  is_text (fst x) -> Forall (fun y => is_text (fst y)) l ->
  exists r, insert_keyed x l = Ok r.
Proof.
  intros [a Ha]. induction 1 as [|y l [b Hb] _ [r IH]]; simpl.
  - eexists; reflexivity.
  - rewrite Ha, Hb. simpl. destruct (Py.string_ltb b a).
    + rewrite IH. simpl. eexists; reflexivity.
    + eexists; reflexivity.
Qed.

Lemma sort_keyed_total (A : Type) (l : list (json * A)) :
  Forall (fun y => is_text (fst y)) l -> exists r, sort_keyed l = Ok r.
Proof.
  induction 1 as [|x l Hx Hl [r IH]]; simpl.
  - eexists; reflexivity.
  - rewrite IH. simpl. apply insert_keyed_total; [exact Hx|].
    assert (Hp : Permutation l r) by (eapply sort_keyed_perm; eassumption).
    rewrite Forall_forall in *. intros z Hz.
    apply Hl, (Permutation_in _ (Permutation_sym Hp)), Hz.
Qed.

Lemma timestamp_keys_total (entries : list json) :
  Forall string_stamped entries ->
  exists keyed, mapM (fun x => k <- timestamp_key x ;; Ok (k, x)) entries = Ok keyed.
Proof.
  induction 1 as [|entry entries (e & -> & _) _ [keyed IH]]; simpl.
  - eexists; reflexivity.
  - rewrite IH. simpl. eexists; reflexivity.
Qed.

(** X18.  Every session of well-formed entries is reconstructed: no step
    of [process_session_entries] raises on it. *)
Lemma process_session_entries_total (now : Z) (entries : list json)
  (session_id : json) (fp : string) :
  Forall well_formed_entry entries ->
  exists conv, process_session_entries now entries session_id fp = Ok conv.
Proof.
  intros Hwf.
  assert (Hstr : Forall string_stamped entries).
  { eapply Forall_impl; [|exact Hwf]. intros entry [H _]. exact H. }
  destruct (timestamp_keys_total Hstr) as [keyed Hkeyed].
  pose proof (timestamp_key_matches Hstr Hkeyed) as Hkm.
  assert (Htexts : Forall (fun y : json * json => is_text (fst y)) keyed).
  { eapply Forall_impl; [|exact Hkm]. intros kx [H _]. exact H. }
  destruct (sort_keyed_total Htexts) as [s Hs].
  assert (Hsorted : sort_by timestamp_key entries = Ok (map snd s)).
  { unfold sort_by. rewrite Hkeyed. simpl. rewrite Hs. reflexivity. }
  assert (Hwf' : Forall well_formed_entry (map snd s)).
  { assert (Hp : Permutation entries (map snd s))
      by (eapply sort_by_perm; eassumption).
    rewrite Forall_forall in *. intros entry Hin.
    apply Hwf, (Permutation_in _ (Permutation_sym Hp)), Hin. }
  destruct (foldM_process_entry_total Hwf' (new_conversation session_id fp))
    as [conv Hconv].
  unfold process_session_entries. rewrite Hsorted. simpl. rewrite Hconv. simpl.
  eexists; reflexivity.
Qed.

(** X19.  The classifier reads only the seconds field of the time
    difference, so its answer repeats every day. *)
Lemma status_repeats_daily (now : Z) (conv : Conversation) :
  determine_conversation_status (now + 86400 * Time.micros_per_second) conv =
  determine_conversation_status now conv.
Proof.
  unfold determine_conversation_status.
  destruct (negb (Py.truthy (last_activity conv))); [reflexivity|].
  destruct (last_activity conv); try reflexivity.
  destruct (fromisoformat _); [|reflexivity].
  destruct (Time.instant d) as [t|]; [|reflexivity].
  assert (E : Time.td_seconds (now + 86400 * Time.micros_per_second - t) =
              Time.td_seconds (now - t)).
  { unfold Time.td_seconds, Time.micros_per_second.
    replace (now + 86400 * 1000000 - t) with (now - t + 86400 * 1000000) by lia.
    rewrite Z.div_add by lia.
    rewrite <- (Z.mul_1_l 86400) at 1. rewrite Z.mod_add by lia. reflexivity. }
  rewrite E. reflexivity.
Qed.

(** ** Further properties of the reconstruction *)

Lemma foldM_process_entry_rel (R : json -> message_info -> Prop) :
  (forall conv entry conv',
      process_entry conv entry = Ok conv' ->
      exists msg, messages conv' = messages conv ++ [msg] /\ R entry msg) ->
  forall entries conv conv',
    foldM process_entry entries conv = Ok conv' ->
    exists msgs, messages conv' = messages conv ++ msgs /\ Forall2 R entries msgs.
Proof.
  intros HR. induction entries as [|entry entries IH]; simpl; intros conv conv' H.
  - inversion H; subst. exists []. rewrite app_nil_r. split; [reflexivity | constructor].
  - bind_inv H. destruct (HR _ _ _ Ha) as (msg & Hm & Hr).
    destruct (IH _ _ Hk) as (msgs & Hm' & Hrs).
    exists (msg :: msgs). split; [|constructor; assumption].
    rewrite Hm', Hm, <- app_assoc. reflexivity.
Qed.

Lemma process_entry_role_and_content (conv conv' : Conversation) (entry : json) :
  process_entry conv entry = Ok conv' ->
  exists msg, messages conv' = messages conv ++ [msg] /\ role_and_content_of entry msg.
Proof.
  intros H. apply process_entry_inv in H.
  destruct H as (e & model' & role' & content' & tokens0 & -> & Hx & H).
  cbv zeta in H. destruct H as (Hm & _).
  eexists. split; [exact Hm|].
  intros e' He'. inversion He'; subst e'; clear He'. simpl.
  unfold extract_message in Hx. split.
  - intros Hu. rewrite Hu in Hx. bind_inv Hx.
    destruct (Py.dict_get e "message" (JObj [])) eqn:Emsg; simpl in Ha; try discriminate.
    inversion Ha; subst a. inversion Hk; subst.
    split; [reflexivity|]. eexists. split; reflexivity.
  - intros Hu Has. rewrite Hu, Has in Hx. inversion Hx; subst.
    split; [reflexivity|]. split; [reflexivity|]. reflexivity.
Qed.

(** X1.  The total of a reconstructed session is the sum of the tokens
    of its messages, and the session has one message per entry. *)
Theorem session_totals (now : Z) (entries : list json) (session_id : json)
  (fp : string) (conv : Conversation) :
  process_session_entries now entries session_id fp = Ok conv ->
  total_tokens conv = sum (map tokens (messages conv)) /\
  List.length (messages conv) = List.length entries.
Proof.
  intros H. apply process_session_entries_spec in H.
  destruct H as (sorted & _ & Hperm & Hmsgs & _ & _ & Ht & _).
  split; [exact Ht|].
  rewrite (Permutation_length Hperm). symmetry. eapply Forall2_length. exact Hmsgs.
Qed.

(** X2.  In a reconstructed session a user entry gives a message of role
    [user] whose content is the [message.content] value as it is, string
    or not; an entry that is neither a user nor an assistant entry gives
    a message whose role is the raw type ([unknown] without one), whose
    content is empty and whose tokens are 0, whatever its [message]
    holds. *)
Theorem session_roles_and_contents (now : Z) (entries : list json)
  (session_id : json) (fp : string) (conv : Conversation) :
  process_session_entries now entries session_id fp = Ok conv ->
  exists sorted,
    sort_by timestamp_key entries = Ok sorted /\
    Forall2 role_and_content_of sorted (messages conv).
Proof.
  unfold process_session_entries. intros H. bind_inv H. bind_inv Hk.
  inversion Hk0; subst conv; clear Hk0.
  exists a. split; [exact Ha|].
  destruct (@foldM_process_entry_rel role_and_content_of
              (fun c e c' => @process_entry_role_and_content c c' e) _ _ _ Ha0)
    as (msgs & Hm & Hr).
  unfold classify. simpl in *. rewrite Hm. exact Hr.
Qed.

Lemma fold_process_message (msgs : list json) :
  forall conv,
    let conv' := fold_left process_message msgs conv in
    messages conv' = messages conv ++ flat_map flat_message msgs /\
    total_tokens conv' =
      total_tokens conv + sum (map tokens (flat_map flat_message msgs)) /\
    model conv' = last (flat_map keyed_model msgs) (model conv) /\
    id conv' = id conv /\ file_path conv' = file_path conv /\
    created_at conv' =
      (if Py.truthy (created_at conv) then created_at conv
       else hd (created_at conv)
               (stamps (map timestamp (flat_map flat_message msgs)))) /\
    last_activity conv' =
      last (stamps (map timestamp (flat_map flat_message msgs))) (last_activity conv).
Proof.
  induction msgs as [|msg msgs IH]; intros conv; cbv zeta.
  - simpl. rewrite app_nil_r. unfold sum. simpl.
    repeat split; auto; try lia.
    destruct (Py.truthy (created_at conv)); reflexivity.
  - simpl fold_left. specialize (IH (process_message conv msg)). cbv zeta in IH.
    destruct IH as (Hm & Ht & Hmo & Hi & Hf & Hc & Hl).
    rewrite Hm, Ht, Hmo, Hi, Hf, Hc, Hl. clear Hm Ht Hmo Hi Hf Hc Hl.
    destruct msg as [| | | | |m]; simpl;
      try (repeat split; reflexivity).
    assert (Hfold : forall l z, fold_left Z.add l z = z + fold_left Z.add l 0).
    { clear. induction l as [|x l IHl]; intros z; simpl; [lia|].
      rewrite (IHl (z + x)), (IHl x). lia. }
    split; [rewrite <- app_assoc; reflexivity|].
    split.
    { unfold sum. simpl.
      rewrite (Hfold _ (estimate_tokens (Py.dict_get m "content" (JStr "")))). lia. }
    split.
    { destruct (Py.has_key m "model"); simpl.
      - destruct (flat_map keyed_model msgs) eqn:E; [reflexivity|].
        apply last_default_irrelevant. discriminate.
      - reflexivity. }
    split; [reflexivity|]. split; [reflexivity|].
    unfold stamps. simpl.
    destruct (Py.truthy (Py.dict_get m "timestamp" JNull)) eqn:Hts; simpl.
    + split.
      * destruct (Py.truthy (created_at conv)) eqn:Hca; simpl.
        -- rewrite Hca. reflexivity.
        -- rewrite Hts. reflexivity.
      * destruct (filter Py.truthy
                    (map timestamp (flat_map flat_message msgs))) eqn:Hf0;
          [reflexivity|].
        apply last_default_irrelevant. discriminate.
    + split; [|reflexivity].
      destruct (Py.truthy (created_at conv)) eqn:Hca; reflexivity.
Qed.

(** X3.  A conversation read from a [.json] file takes the file's stem
    as its id; it has one message per element that is an object, in file
    order, every other element being skipped; the tokens of each message
    are the estimate of its content and the total is their sum. *)
Theorem flat_file_messages (now : Z) (data : json) (file : file_id)
  (conv : Conversation) :
  process_conversation_file now data file = Ok conv ->
  exists msgs,
    file_messages data = Ok msgs /\
    id conv = JStr (stem file) /\ file_path conv = path file /\
    messages conv = flat_map flat_message msgs /\
    Forall (fun m => tokens m = estimate_tokens (content m)) (messages conv) /\
    total_tokens conv = sum (map tokens (messages conv)).
Proof.
  unfold process_conversation_file. intros H. bind_inv H.
  inversion Hk; subst conv; clear Hk. exists a. split; [exact Ha|].
  pose proof (fold_process_message a
                (new_conversation (JStr (stem file)) (path file))) as Hf.
  cbv zeta in Hf. destruct Hf as (Hm & Ht & _ & Hi & Hfp & _).
  unfold classify. simpl in *. rewrite Hm.
  split; [exact Hi|]. split; [exact Hfp|]. split; [reflexivity|].
  split; [|exact Ht].
  clear. induction a as [|msg a IH]; simpl; [constructor|].
  apply Forall_app. split; [|exact IH].
  destruct msg; simpl; constructor; [reflexivity | constructor].
Qed.

(** X4.  In a conversation read from a [.json] file the messages are
    not sorted: [created_at] is the first and [last_activity] the last
    non-empty timestamp in file order, and the model is the value of the
    last [model] key among the elements, [unknown] without one. *)
Theorem flat_file_timestamps_and_model (now : Z) (data : json) (file : file_id)
  (conv : Conversation) :
  process_conversation_file now data file = Ok conv ->
  exists msgs,
    file_messages data = Ok msgs /\
    created_at conv = hd JNull (stamps (map timestamp (messages conv))) /\
    last_activity conv = last (stamps (map timestamp (messages conv))) JNull /\
    model conv = last (flat_map keyed_model msgs) (JStr "unknown").
Proof.
  unfold process_conversation_file. intros H. bind_inv H.
  inversion Hk; subst conv; clear Hk. exists a. split; [exact Ha|].
  pose proof (fold_process_message a
                (new_conversation (JStr (stem file)) (path file))) as Hf.
  cbv zeta in Hf. destruct Hf as (Hm & _ & Hmo & _ & _ & Hc & Hl).
  unfold classify. simpl in *. rewrite Hm.
  split; [exact Hc|]. split; [exact Hl | exact Hmo].
Qed.

(** X5.  Reading a [.json] document fails in one case only: the document
    is an object whose [messages] value is null, a boolean or a number,
    which cannot be iterated. *)
Theorem flat_file_failure (now : Z) (data : json) (file : file_id) :
  (exists e, process_conversation_file now data file = Raise e) <->
  exists d v, data = JObj d /\ Py.lookup d "messages" = Some v /\
              (v = JNull \/ (exists b, v = JBool b) \/ exists n, v = JNum n).
Proof.
  unfold process_conversation_file, file_messages. split.
  - intros [e H]. destruct data as [| | | | |d]; simpl in H; try discriminate.
    unfold Py.has_key, Py.dict_get in H.
    destruct (Py.lookup d "messages") as [v|] eqn:E; simpl in H; [|discriminate].
    exists d, v. split; [reflexivity|]. split; [exact E|].
    destruct v; simpl in H; try discriminate; eauto.
  - intros (d & v & -> & Hl & Hv). unfold Py.has_key, Py.dict_get. rewrite Hl.
    destruct Hv as [-> | [[b ->] | [n ->]]]; simpl; eexists; reflexivity.
Qed.

(** ** The order of the messages of a session *)

Lemma string_ltb_irrefl (s : string) : Py.string_ltb s s = false.
Proof.
  unfold Py.string_ltb, String.ltb.
  pose proof (String.compare_antisym s s) as H.
  destruct (String.compare s s); simpl in H; auto; discriminate.
Qed.

Section StableFacts.

Variable A : Type.

Lemma insert_keyed_stable (x : json * A) (l r : list (json * A)) (k : string) :
  is_text (fst x) -> Forall (fun y => is_text (fst y)) l ->
  insert_keyed x l = Ok r ->
  filter (has_text k) r = filter (has_text k) (x :: l).
Proof.
  intros [a Ha]. revert r. induction l as [|y l IH]; simpl; intros r Hl H.
  - inversion H. reflexivity.
  - inversion Hl as [|? ? [b Hb] Hl']; subst.
    rewrite Ha, Hb in H. simpl in H.
    destruct (Py.string_ltb b a) eqn:E.
    + bind_inv H. inversion Hk; subst. simpl. rewrite (IH _ Hl' Ha0). simpl.
      destruct (has_text k y) eqn:Eb; destruct (has_text k x) eqn:Ea;
        try reflexivity.
      unfold has_text in Eb, Ea. rewrite Hb in Eb. rewrite Ha in Ea. simpl in Eb, Ea.
      apply String.eqb_eq in Eb, Ea. subst a b.
      rewrite string_ltb_irrefl in E. discriminate.
    + inversion H; subst. reflexivity.
Qed.

Lemma sort_keyed_stable (l r : list (json * A)) (k : string) :
  Forall (fun y => is_text (fst y)) l ->
  sort_keyed l = Ok r -> filter (has_text k) r = filter (has_text k) l.
Proof.
  revert r. induction l as [|x l IH]; simpl; intros r Hl H.
  - inversion H. reflexivity.
  - inversion Hl; subst. bind_inv H.
    assert (Hp : Permutation l a) by (eapply sort_keyed_perm; eassumption).
    assert (Ha' : Forall (fun y => is_text (fst y)) a).
    { rewrite Forall_forall in *. intros z Hz.
      apply H3, (Permutation_in _ (Permutation_sym Hp)), Hz. }
    rewrite (@insert_keyed_stable x a r k H2 Ha' Hk). simpl. rewrite (IH _ H3 Ha).
    reflexivity.
Qed.

End StableFacts.

Lemma key_matches_text (kx : json * json) :
  key_matches kx -> key_text (fst kx) = entry_key_text (snd kx).
Proof.
  unfold entry_key_text. intros [_ [H | [H1 H2]]].
  - rewrite H. reflexivity.
  - rewrite H1, H2. reflexivity.
Qed.

Lemma filter_map_snd (s : list (json * json)) (k : string) :
  Forall key_matches s ->
  filter (fun e => String.eqb (entry_key_text e) k) (map snd s) =
  map snd (filter (@has_text json k) s).
Proof.
  induction 1 as [|kx s Hkx _ IH]; simpl; [reflexivity|].
  unfold has_text at 1. rewrite (key_matches_text Hkx), IH.
  destruct (String.eqb (entry_key_text (snd kx)) k); reflexivity.
Qed.

Lemma sorted_map_snd (s : list (json * json)) :
  Forall key_matches s -> StronglySorted (@key_le json) s ->
  StronglySorted (fun a b => String.leb (entry_key_text a) (entry_key_text b) = true)
                 (map snd s).
Proof.
  induction s as [|kx s IH]; simpl; intros Hm Hs; [constructor|].
  inversion Hm as [|? ? Hkx Hm']; subst. inversion Hs as [|? ? Hs' Hle]; subst.
  constructor; [apply IH; assumption|].
  rewrite Forall_forall in *. intros e He. apply in_map_iff in He.
  destruct He as (kx' & <- & Hin).
  rewrite <- (key_matches_text Hkx), <- (key_matches_text (Hm' _ Hin)).
  apply (Hle kx' Hin).
Qed.

Lemma process_entry_message (conv conv' : Conversation) (entry : json) :
  process_entry conv entry = Ok conv' ->
  exists msg, messages conv' = messages conv ++ [msg] /\
              (message_of entry msg /\ role_and_content_of entry msg).
Proof.
  intros H. destruct (process_entry_step _ _ H) as (m1 & Hof & Hm1 & _).
  destruct (process_entry_role_and_content _ _ H) as (m2 & Hm2 & Hrc).
  rewrite Hm1 in Hm2. apply app_inv_head in Hm2. inversion Hm2; subst m2.
  exists m1. split; [exact Hm1 | split; assumption].
Qed.

(** X6.  The messages of a session whose timestamps are strings (or are
    missing) are the messages of its entries, one by one, the entries
    taken sorted on their timestamp texts in code-point order, an entry
    without timestamp counting as the empty text and so coming first;
    entries with the same text keep the order they have in the file.
    Role, content, timestamp and tokens of each message are those of
    its entry, so the order of the messages is the order of the sorted
    entries. *)
Theorem session_message_order (now : Z) (entries : list json) (session_id : json)
  (fp : string) (conv : Conversation) :
  Forall string_stamped entries ->
  process_session_entries now entries session_id fp = Ok conv ->
  exists sorted,
    Permutation entries sorted /\
    Forall2 (fun entry msg => message_of entry msg /\ role_and_content_of entry msg)
            sorted (messages conv) /\
    map timestamp (messages conv) = map entry_timestamp sorted /\
    StronglySorted (fun a b => String.leb (entry_key_text a) (entry_key_text b) = true)
                   sorted /\
    forall k, filter (fun e => String.eqb (entry_key_text e) k) sorted
              = filter (fun e => String.eqb (entry_key_text e) k) entries.
Proof.
  intros Hstr H.
  assert (Hspec := H). apply process_session_entries_spec in Hspec.
  destruct Hspec as (sorted & Hsort & Hperm & Hmsgs & _).
  exists sorted. split; [exact Hperm|].
  split.
  { unfold process_session_entries in H. bind_inv H. bind_inv Hk.
    inversion Hk0; subst conv; clear Hk0.
    assert (a = sorted) by congruence. subst a.
    destruct (@foldM_process_entry_rel
                (fun entry msg => message_of entry msg /\ role_and_content_of entry msg)
                (fun c e c' => @process_entry_message c c' e) _ _ _ Ha0)
      as (msgs & Hm & Hr).
    unfold classify. simpl in *. rewrite Hm. exact Hr. }
  split; [apply message_timestamps, Hmsgs|].
  unfold sort_by in Hsort. bind_inv Hsort. bind_inv Hk. inversion Hk0; subst sorted.
  rename a into keyed, a0 into s.
  pose proof (timestamp_key_matches Hstr Ha) as Hkeyed.
  assert (Hp : Permutation keyed s) by (eapply sort_keyed_perm; eassumption).
  assert (Hkm : Forall key_matches s).
  { rewrite Forall_forall in *. intros kx Hin.
    apply Hkeyed, (Permutation_in _ (Permutation_sym Hp)), Hin. }
  assert (Htexts : Forall (fun y : json * json => is_text (fst y)) keyed).
  { eapply Forall_impl; [|exact Hkeyed]. intros kx [Hx _]. exact Hx. }
  split.
  - apply sorted_map_snd; [exact Hkm|]. eapply sort_keyed_sorted; eassumption.
  - intros k. rewrite (@filter_map_snd s k Hkm).
    rewrite (@sort_keyed_stable json keyed s k Htexts Ha0).
    rewrite <- (@filter_map_snd keyed k Hkeyed). f_equal.
    eapply mapM_map; [|exact Ha]. intros x b Hb. bind_inv Hb.
    inversion Hk; subst. reflexivity.
Qed.

(** ** The two classifiers *)

Lemma status_label (now : Z) (conv : Conversation) :
  In (determine_conversation_status now conv) status_labels.
Proof.
  unfold determine_conversation_status, status_labels.
  destruct (negb (Py.truthy (last_activity conv))); [left; reflexivity|].
  destruct (last_activity conv); try (left; reflexivity).
  destruct (fromisoformat _); [|left; reflexivity].
  destruct (Time.instant d); [|left; reflexivity].
  destruct (_ <? 300); [right; left; reflexivity|].
  destruct (_ <? 3600); [right; right; left; reflexivity|].
  right; right; right; left; reflexivity.
Qed.

Lemma project_label (conv : Conversation) :
  In (extract_project_context conv) project_labels.
Proof.
  unfold extract_project_context, project_labels.
  repeat (match goal with
          | |- In (if ?b then _ else _) _ => destruct b
          end; [simpl; tauto|]).
  simpl; tauto.
Qed.

(** X7.  Neither placeholder of a new conversation survives the
    reconstruction: the status of every conversation built from a
    session or from a [.json] file is one of [unknown], [active],
    [recent] and [inactive], and its project context is one of the seven
    labels of the keyword rules. *)
Theorem reconstructed_labels (now : Z) (conv : Conversation) :
  ((exists entries session_id fp,
       process_session_entries now entries session_id fp = Ok conv) \/
   (exists data file, process_conversation_file now data file = Ok conv)) ->
  In (status conv) status_labels /\ In (project_context conv) project_labels.
Proof.
  intros [(entries & sid & fp & H) | (data & file & H)].
  - unfold process_session_entries in H. bind_inv H. bind_inv Hk.
    inversion Hk0; subst. unfold classify. simpl.
    split; [apply status_label | apply project_label].
  - unfold process_conversation_file in H. bind_inv H.
    inversion Hk; subst. unfold classify. simpl.
    split; [apply status_label | apply project_label].
Qed.

(** X8.  The status is [unknown] exactly when the last activity denotes
    no instant: it is empty or missing, is not a string, cannot be
    parsed, or carries no UTC offset. *)
Theorem status_unknown_iff (now : Z) (conv : Conversation) :
  determine_conversation_status now conv = "unknown" <->
  Py.truthy (last_activity conv) = false \/
  timestamp_instant (last_activity conv) = None.
Proof.
  unfold determine_conversation_status, timestamp_instant.
  destruct (Py.truthy (last_activity conv)) eqn:Ht; simpl.
  - destruct (last_activity conv); try (split; auto; fail).
    destruct (fromisoformat _); [|split; auto].
    destruct (Time.instant d).
    + split.
      * destruct (_ <? 300); [discriminate|]. destruct (_ <? 3600); discriminate.
      * intros [H | H]; discriminate.
    + split; auto.
  - split; auto.
Qed.

(** X9.  For a last activity that lies in the past by less than one day
    the classifier answers by age: [active] under five minutes, [recent]
    under one hour, [inactive] from one hour on. *)
Theorem status_within_a_day (now age : Z) (conv : Conversation) :
  Py.truthy (last_activity conv) = true ->
  seconds_since now (last_activity conv) = Some age ->
  0 <= age < 86400 ->
  determine_conversation_status now conv = status_of_age age.
Proof.
  unfold seconds_since, timestamp_instant, determine_conversation_status,
    status_of_age.
  intros Ht Hs Hage. rewrite Ht. simpl.
  destruct (last_activity conv); try discriminate.
  destruct (fromisoformat _); [|discriminate].
  destruct (Time.instant d) as [t|]; [|discriminate].
  inversion Hs as [Hage']. unfold Time.td_seconds.
  unfold Time.td_total_seconds in *. rewrite Hage'.
  rewrite Z.mod_small by lia. reflexivity.
Qed.

(** ** The keyword rules *)

Lemma lower_app (a b : string) :
  Py.lower (a ++ b)%string = (Py.lower a ++ Py.lower b)%string.
Proof. induction a as [|c a IH]; simpl; [reflexivity | rewrite IH; reflexivity]. Qed.

Lemma prefix_app (t a b : string) :
  prefix t a = true -> prefix t (a ++ b)%string = true.
Proof.
  revert a. induction t as [|c t IH]; intros a H; [destruct (a ++ b)%string; reflexivity|].
  destruct a as [|c' a]; simpl in *; [discriminate|].
  destruct (ascii_dec c c'); [apply IH; exact H | discriminate].
Qed.

Lemma contains_app_l (t a b : string) :
  Py.contains t a = true -> Py.contains t (a ++ b)%string = true.
Proof.
  induction a as [|c a IH]; intros H.
  - simpl in H. rewrite orb_false_r in H.
    destruct t; [|discriminate]. destruct (""%string ++ b)%string; reflexivity.
  - simpl in H. apply orb_true_iff in H. cbn [append Py.contains].
    apply orb_true_iff. destruct H as [H | H].
    + left. apply (prefix_app _ (String c a) b H).
    + right. apply IH, H.
Qed.

Lemma contains_app_r (t a b : string) :
  Py.contains t b = true -> Py.contains t (a ++ b)%string = true.
Proof.
  intros H. induction a as [|c a IH]; [exact H|].
  cbn [append Py.contains]. apply orb_true_iff. right. exact IH.
Qed.

Lemma sample_contains (t : string) (msgs : list message_info) :
  forall acc,
    Py.contains t (Py.lower acc) = true \/
    Exists (fun m => Py.contains t (sampled m) = true) msgs ->
    Py.contains t
      (Py.lower (fold_left (fun acc msg =>
                              (acc ++ Py.take 500 (Py.str (content msg)))%string)
                           msgs acc)) = true.
Proof.
  induction msgs as [|m msgs IH]; simpl; intros acc H.
  - destruct H as [H | H]; [exact H | inversion H].
  - apply IH. destruct H as [H | H].
    + left. rewrite lower_app. apply contains_app_l, H.
    + inversion H as [? ? Hm | ? ? Hrest]; subst.
      * left. rewrite lower_app. apply contains_app_r, Hm.
      * right. exact Hrest.
Qed.

(** X10.  A keyword of the Python rule that occurs, in any letter case,
    within the first 500 characters of one of the first three messages
    decides the project context: the conversation is labelled [python],
    whatever keywords of the later rules occur. *)
Theorem python_keyword_wins (conv : Conversation) (m : message_info) (term : string) :
  In m (firstn 3 (messages conv)) ->
  In term python_terms ->
  Py.contains term (sampled m) = true ->
  extract_project_context conv = "python".
Proof.
  intros Hm Hterm Hc. unfold extract_project_context.
  assert (Hany : any_in python_terms
            (Py.lower (fold_left (fun acc msg =>
                                    (acc ++ Py.take 500 (Py.str (content msg)))%string)
                                 (firstn 3 (messages conv)) "")) = true).
  { unfold any_in. apply existsb_exists. exists term. split; [exact Hterm|].
    apply sample_contains. right. apply Exists_exists. exists m. split; assumption. }
  unfold python_terms in Hany. rewrite Hany. reflexivity.
Qed.

(** ** Whole files *)



Lemma upsert_entry_count (entry k : json) (groups : sessions) :
  entry_count (upsert [] (fun entries => entries ++ [entry]) k groups)
  = S (entry_count groups).
Proof.
  unfold entry_count. induction groups as [|[k' es] groups IH]; simpl.
  - reflexivity.
  - destruct (Py.eqb k' k); simpl.
    + rewrite length_app. simpl. lia.
    + rewrite IH. lia.
Qed.

Lemma read_lines_counts (lines : list string) :
  forall n g0 g w0 w,
    read_lines n lines g0 w0 = (g, w, Ok tt) ->
    entry_count g = (entry_count g0 + List.length (parsed_from n lines))%nat /\
    List.length w = (List.length w0 + List.length (rejected_from n lines))%nat.
Proof.
  induction lines as [|line rest IH]; simpl; intros n g0 g w0 w H.
  - inversion H; subst. split; lia.
  - destruct (loads (Py.strip line)) as [entry|].
    + destruct (group_entry n entry g0) as [g1|e] eqn:Hge; [|discriminate].
      apply group_entry_inv in Hge. destruct Hge as (_ & _ & ->).
      destruct (IH _ _ _ _ _ H) as [Hc Hw]. rewrite upsert_entry_count in Hc.
      simpl. split; lia.
    + destruct (IH _ _ _ _ _ H) as [Hc Hw]. rewrite length_app in Hw. simpl in *.
      split; lia.
Qed.

Lemma parsed_rejected_length (lines : list string) (n : nat) :
  (List.length (parsed_from n lines) + List.length (rejected_from n lines))%nat
  = List.length lines.
Proof.
  revert n. induction lines as [|line rest IH]; simpl; intros n; [reflexivity|].
  destruct (loads (Py.strip line)); simpl; rewrite <- (IH (S n)); lia.
Qed.

Lemma session_message_count (now : Z) (entries : list json) (session_id : json)
  (fp : string) (conv : Conversation) :
  process_session_entries now entries session_id fp = Ok conv ->
  List.length (messages conv) = List.length entries.
Proof.
  intros H. apply process_session_entries_spec in H.
  destruct H as (sorted & _ & Hperm & Hmsgs & _).
  rewrite (Permutation_length Hperm). symmetry. eapply Forall2_length. exact Hmsgs.
Qed.

Lemma built_from_message_count (fp : string) (groups : sessions)
  (convs : list Conversation) :
  Forall2 (built_from fp) groups convs -> message_count convs = entry_count groups.
Proof.
  unfold message_count, entry_count.
  induction 1 as [|g c groups convs (_ & _ & now & Hp) _ IH]; simpl; [reflexivity|].
  rewrite (session_message_count _ _ _ _ Hp), IH. reflexivity.
Qed.

(** X11.  No line of a line-delimited file is lost or counted twice:
    when [process_jsonl_file] completes, the conversations it adds hold
    as many messages as the file has accepted lines, and the accepted
    and the reported lines together are all the lines of the file. *)
Theorem jsonl_file_conservation (clock : nat -> Z) (self self' : analyzer)
  (file : file_id) (lines : list string) (warnings : list nat) :
  process_jsonl_file clock self file lines = (self', warnings, Ok tt) ->
  exists convs,
    conversations self' = conversations self ++ convs /\
    message_count convs = List.length (parsed_from 1 lines) /\
    (message_count convs + List.length warnings)%nat = List.length lines.
Proof.
  intros H. apply process_jsonl_file_spec in H.
  destruct H as (groups & convs & Hr & Hc & _ & Hf).
  exists convs. split; [exact Hc|].
  destruct (read_lines_counts _ _ _ _ Hr) as [Hcount Hw].
  rewrite (built_from_message_count Hf), Hcount. simpl in *.
  split; [reflexivity|]. rewrite Hw. apply parsed_rejected_length.
Qed.


Lemma process_sessions_appends (clock : nat -> Z) (fp : string) (groups : sessions) :
  forall self self' outcome,
    process_sessions clock groups fp self = (self', outcome) ->
    exists convs,
      conversations self' = conversations self ++ convs /\
      usage_stats self' = usage_stats self /\
      Forall (fun conv => file_path conv = fp) convs.
Proof.
  induction groups as [|[k es] groups IH]; simpl; intros self self' outcome H.
  - inversion H; subst. exists []. rewrite app_nil_r. repeat split. constructor.
  - destruct (process_session_entries (clock (List.length (conversations self))) es k fp)
      as [conv|e] eqn:Hp.
    + apply IH in H. destruct H as (convs & Hc & Hu & Hf).
      exists (conv :: convs). simpl in Hc, Hu. split; [|split].
      * rewrite Hc, <- app_assoc. reflexivity.
      * exact Hu.
      * constructor; [|exact Hf].
        apply process_session_entries_spec in Hp.
        destruct Hp as (s & _ & _ & _ & _ & Hfp & _). exact Hfp.
    + inversion H; subst. exists []. rewrite app_nil_r. repeat split. constructor.
Qed.

Lemma process_jsonl_file_appends (clock : nat -> Z) (self self' : analyzer)
  (file : file_id) (lines : list string) (warnings : list nat) (outcome : result unit) :
  process_jsonl_file clock self file lines = (self', warnings, outcome) ->
  exists convs,
    conversations self' = conversations self ++ convs /\
    usage_stats self' = usage_stats self /\
    Forall (fun conv => file_path conv = path file) convs.
Proof.
  unfold process_jsonl_file. intros H.
  destruct (read_lines 1 lines [] []) as [[groups w] o].
  destruct o as [[]|e].
  - destruct (process_sessions clock groups (path file) self) as [s o'] eqn:Hp.
    inversion H; subst. eapply process_sessions_appends. exact Hp.
  - inversion H; subst. exists []. rewrite app_nil_r. repeat split. constructor.
Qed.

Lemma load_jsonl_files_appends (clock : nat -> Z) (files : list (file_id * list string)) :
  forall self,
    exists convs,
      conversations (load_jsonl_files clock files self) = conversations self ++ convs /\
      usage_stats (load_jsonl_files clock files self) = usage_stats self /\
      Forall (fun conv => In (file_path conv) (map (fun f => path (fst f)) files)) convs.
Proof.
  induction files as [|[file lines] files IH]; simpl; intros self.
  - exists []. rewrite app_nil_r. repeat split. constructor.
  - destruct (process_jsonl_file clock self file lines) as [[s w] o] eqn:Hp. simpl.
    apply process_jsonl_file_appends in Hp. destruct Hp as (c1 & Hc1 & Hu1 & Hf1).
    destruct (IH s) as (c2 & Hc2 & Hu2 & Hf2).
    exists (c1 ++ c2). split; [|split].
    + rewrite Hc2, Hc1, <- app_assoc. reflexivity.
    + congruence.
    + apply Forall_app. split.
      * eapply Forall_impl; [|exact Hf1]. intros c Hc. left. symmetry. exact Hc.
      * eapply Forall_impl; [|exact Hf2]. intros c Hc. right. exact Hc.
Qed.

Lemma flat_file_path (now : Z) (data : json) (file : file_id) (conv : Conversation) :
  process_conversation_file now data file = Ok conv -> file_path conv = path file.
Proof.
  unfold process_conversation_file. intros H. bind_inv H.
  inversion Hk; subst conv; clear Hk.
  pose proof (fold_process_message a
                (new_conversation (JStr (stem file)) (path file))) as Hf.
  cbv zeta in Hf. destruct Hf as (_ & _ & _ & _ & Hfp & _).
  unfold classify. simpl in *. exact Hfp.
Qed.

Lemma load_json_files_appends (clock : nat -> Z) (files : list (file_id * string)) :
  forall self,
    exists convs,
      conversations (load_json_files clock files self) = conversations self ++ convs /\
      usage_stats (load_json_files clock files self) = usage_stats self /\
      Forall (fun conv => In (file_path conv) (map (fun f => path (fst f)) files)) convs.
Proof.
  induction files as [|[file text] files IH]; simpl; intros self.
  - exists []. rewrite app_nil_r. repeat split. constructor.
  - match goal with
    | |- context [load_json_files clock files ?s] => set (s1 := s)
    end.
    assert (H1 : exists c1, conversations s1 = conversations self ++ c1 /\
                            usage_stats s1 = usage_stats self /\
                            Forall (fun conv => file_path conv = path file) c1).
    { subst s1. destruct (loads text) as [data|].
      - destruct (process_conversation_file _ data file) as [conv|e] eqn:Hp.
        + exists [conv]. simpl. repeat split. constructor; [|constructor].
          apply (flat_file_path _ _ _ Hp).
        + exists []. rewrite app_nil_r. repeat split. constructor.
      - exists []. rewrite app_nil_r. repeat split. constructor. }
    destruct H1 as (c1 & Hc1 & Hu1 & Hf1).
    destruct (IH s1) as (c2 & Hc2 & Hu2 & Hf2).
    exists (c1 ++ c2). split; [|split].
    + rewrite Hc2, Hc1, <- app_assoc. reflexivity.
    + congruence.
    + apply Forall_app. split.
      * eapply Forall_impl; [|exact Hf1]. intros c Hc. left. symmetry. exact Hc.
      * eapply Forall_impl; [|exact Hf2]. intros c Hc. right. exact Hc.
Qed.

(** X13.  Loading only appends.  Whatever the files hold, and whichever
    of them fail, [load_conversation_data] keeps the conversations that
    were there, in their order, leaves the statistics alone, and every
    conversation it adds carries the path of one of the files it was
    given. *)
Theorem loading_only_appends (clock : nat -> Z)
  (json_files : list (file_id * string))
  (jsonl_files : list (file_id * list string)) (self : analyzer) :
  exists convs,
    conversations (load_conversation_data clock json_files jsonl_files self)
    = conversations self ++ convs /\
    usage_stats (load_conversation_data clock json_files jsonl_files self)
    = usage_stats self /\
    Forall (fun conv =>
              In (file_path conv)
                 (map (fun f => path (fst f)) json_files
                  ++ map (fun f => path (fst f)) jsonl_files))
           convs.
Proof.
  unfold load_conversation_data.
  destruct (load_json_files_appends clock json_files self) as (c1 & Hc1 & Hu1 & Hf1).
  destruct (load_jsonl_files_appends clock jsonl_files
              (load_json_files clock json_files self)) as (c2 & Hc2 & Hu2 & Hf2).
  exists (c1 ++ c2). split; [|split].
  - rewrite Hc2, Hc1, <- app_assoc. reflexivity.
  - congruence.
  - apply Forall_app. split.
    + eapply Forall_impl; [|exact Hf1]. intros c Hc. apply in_or_app. left. exact Hc.
    + eapply Forall_impl; [|exact Hf2]. intros c Hc. apply in_or_app. right. exact Hc.
Qed.

(** ** The sums of the statistics *)

Lemma sum_cons (a : Z) (l : list Z) : sum (a :: l) = a + sum l.
Proof.
  unfold sum. simpl.
  assert (Hfold : forall l z, fold_left Z.add l z = z + fold_left Z.add l 0).
  { clear. induction l as [|x l IHl]; intros z; simpl; [lia|].
    rewrite (IHl (z + x)), (IHl x). lia. }
  apply Hfold.
Qed.

Lemma sum_app (l1 l2 : list Z) : sum (l1 ++ l2) = sum l1 + sum l2.
Proof.
  induction l1 as [|a l1 IH]; simpl; [reflexivity|].
  rewrite !sum_cons, IH. lia.
Qed.

Lemma upsert_count_sum (k : json) (d : list (json * Z)) :
  sum (map snd (upsert 0 (fun n => n + 1) k d)) = sum (map snd d) + 1.
Proof.
  induction d as [|[k' v] d IH]; simpl; [reflexivity|].
  destruct (Py.eqb k' k); simpl; rewrite !sum_cons; [lia | rewrite IH; lia].
Qed.

Lemma counter_from_sum (keys : list json) :
  forall d d',
    foldM (fun d k => update 0 (fun n => n + 1) k d) keys d = Ok d' ->
    sum (map snd d') = sum (map snd d) + Z.of_nat (List.length keys) /\
    Forall (fun k => Py.hashable k = true) keys.
Proof.
  induction keys as [|k keys IH]; simpl; intros d d' H.
  - inversion H; subst. split; [lia | constructor].
  - bind_inv H. unfold update in Ha.
    destruct (Py.hashable k) eqn:Hh; [|discriminate]. inversion Ha; subst a.
    destruct (IH _ _ Hk) as [Hs Hf]. rewrite upsert_count_sum in Hs.
    split; [lia | constructor; assumption].
Qed.

Lemma counter_sum (keys : list json) (d : list (json * Z)) :
  counter keys = Ok d -> sum (map snd d) = Z.of_nat (List.length keys).
Proof.
  unfold counter. intros H. destruct (counter_from_sum _ _ H) as [Hs _].
  rewrite Hs. reflexivity.
Qed.

Lemma daily_step_sums (conv : Conversation) (d : list (string * day_bucket)) :
  sum (map (fun b => day_conversations (snd b)) (daily_step d conv))
  = sum (map (fun b => day_conversations (snd b)) d)
    + (if dated conv then 1 else 0) /\
  sum (map (fun b => day_tokens (snd b)) (daily_step d conv))
  = sum (map (fun b => day_tokens (snd b)) d)
    + (if dated conv then total_tokens conv else 0).
Proof.
  unfold daily_step, dated. destruct (daily_key conv) as [date|]; [|split; lia].
  induction d as [|[k b] d IH]; simpl.
  - rewrite !sum_cons. unfold sum. simpl. split; lia.
  - destruct (String.eqb k date); simpl; rewrite !sum_cons.
    + simpl. split; lia.
    + destruct IH as [IH1 IH2]. rewrite IH1, IH2. split; lia.
Qed.

Lemma daily_usage_sums (convs : list Conversation) :
  forall d,
    sum (map (fun b => day_conversations (snd b)) (fold_left daily_step convs d))
    = sum (map (fun b => day_conversations (snd b)) d)
      + Z.of_nat (List.length (filter dated convs)) /\
    sum (map (fun b => day_tokens (snd b)) (fold_left daily_step convs d))
    = sum (map (fun b => day_tokens (snd b)) d)
      + sum (map total_tokens (filter dated convs)).
Proof.
  induction convs as [|conv convs IH]; simpl; intros d.
  - change (sum []) with 0. split; lia.
  - destruct (IH (daily_step d conv)) as [IH1 IH2].
    destruct (daily_step_sums conv d) as [H1 H2].
    rewrite IH1, IH2, H1, H2.
    destruct (dated conv); cbn [map List.length]; [rewrite sum_cons|]; split; lia.
Qed.

(** ** True division *)

Lemma float_overflow_pos : 0 < float_overflow.
Proof. vm_compute. reflexivity. Qed.

Lemma true_div_ok (a b : Z) (q : ratio) :
  true_div a b = Ok q ->
  q = {| numerator := a; denominator := b |} /\ b <> 0 /\
  Z.abs a < float_overflow * Z.abs b.
Proof.
  unfold true_div. destruct (b =? 0) eqn:Eb; [discriminate|].
  destruct (float_overflow * Z.abs b <=? Z.abs a) eqn:Eo; [discriminate|].
  intros H. inversion H. apply Z.eqb_neq in Eb. apply Z.leb_gt in Eo. auto.
Qed.

Lemma true_div_in_range (a b : Z) :
  b <> 0 -> Z.abs a < float_overflow * Z.abs b ->
  true_div a b = Ok {| numerator := a; denominator := b |}.
Proof.
  intros Hb Hr. unfold true_div. apply Z.eqb_neq in Hb. rewrite Hb.
  apply Z.leb_gt in Hr. rewrite Hr. reflexivity.
Qed.

Lemma true_div_overflow (a b : Z) :
  b <> 0 -> float_overflow * Z.abs b <= Z.abs a -> true_div a b = Raise OverflowError.
Proof.
  intros Hb Hr. unfold true_div. apply Z.eqb_neq in Hb. rewrite Hb.
  apply Z.leb_le in Hr. rewrite Hr. reflexivity.
Qed.

(** X14.  The breakdowns of the statistics are complete.  The counts by
    model, by project and by status each add up to the number of
    conversations; the daily buckets count exactly the conversations
    whose creation date can be read and add up their tokens; and both
    averages divide by the number of conversations, which is at least
    one. *)
Theorem statistics_add_up (self self' : analyzer) :
  conversations self <> [] ->
  analyze_usage_patterns self = Ok self' ->
  exists s,
    usage_stats self' = Some s /\
    Stats.total_conversations s = Z.of_nat (List.length (conversations self)) /\
    sum (map snd (Stats.models s)) = Stats.total_conversations s /\
    sum (map snd (Stats.projects s)) = Stats.total_conversations s /\
    sum (map snd (Stats.statuses s)) = Stats.total_conversations s /\
    sum (map (fun b => day_conversations (snd b)) (Stats.daily_usage s))
    = Z.of_nat (List.length (filter dated (conversations self))) /\
    sum (map (fun b => day_tokens (snd b)) (Stats.daily_usage s))
    = sum (map total_tokens (filter dated (conversations self))) /\
    denominator (Stats.avg_tokens_per_conversation s) = Stats.total_conversations s /\
    denominator (Stats.avg_messages_per_conversation s) = Stats.total_conversations s /\
    1 <= Stats.total_conversations s.
Proof.
  intros Hne H.
  assert (Hunf : analyze_usage_patterns self =
            (stats <- usage_statistics (conversations self) ;;
             Ok {| conversations := conversations self; usage_stats := Some stats |})).
  { unfold analyze_usage_patterns.
    destruct (conversations self); [contradiction Hne|]; reflexivity. }
  assert (Hpos : 1 <= Z.of_nat (List.length (conversations self))).
  { destruct (conversations self); [contradiction Hne; reflexivity | simpl; lia]. }
  rewrite Hunf in H. bind_inv H. inversion Hk; subst self'; clear Hk. exists a.
  cbn [usage_stats]. split; [reflexivity|].
  unfold usage_statistics in Ha. bind_inv Ha. bind_inv Hk. bind_inv Hk0.
  bind_inv Hk. bind_inv Hk0.
  apply true_div_ok in Ha2, Ha3. destruct Ha2 as (-> & _). destruct Ha3 as (-> & _).
  inversion Hk; subst a; clear Hk. cbn [Stats.total_conversations Stats.models
    Stats.projects Stats.statuses Stats.daily_usage Stats.avg_tokens_per_conversation
    Stats.avg_messages_per_conversation denominator].
  rewrite (counter_sum _ Ha0), (counter_sum _ Ha), (counter_sum _ Ha1).
  rewrite !length_map.
  destruct (daily_usage_sums (conversations self) []) as [Hd1 Hd2].
  rewrite Hd1, Hd2. change (sum (map _ [])) with 0.
  repeat split; try reflexivity; lia.
Qed.

Lemma counter_raises (keys : list json) :
  Exists (fun k => Py.hashable k = false) keys ->
  forall d, foldM (fun d k => update 0 (fun n => n + 1) k d) keys d = Raise TypeError.
Proof.
  induction keys as [|k keys IH]; intros He d; [inversion He|].
  simpl. unfold update at 1. destruct (Py.hashable k) eqn:Hk; simpl; [|reflexivity].
  apply IH. inversion He; subst; [congruence | assumption].
Qed.

Lemma hashable_or_not (A : Type) (f : A -> json) (l : list A) :
  Forall (fun x => Py.hashable (f x) = true) l \/
  Exists (fun x => Py.hashable (f x) = false) l.
Proof.
  induction l as [|x l [IH | IH]].
  - left. constructor.
  - destruct (Py.hashable (f x)) eqn:E.
    + left. constructor; assumption.
    + right. apply Exists_cons_hd. exact E.
  - right. apply Exists_cons_tl. exact IH.
Qed.

Lemma hashable_not_both (A : Type) (f : A -> json) (l : list A) :
  Forall (fun x => Py.hashable (f x) = true) l ->
  Exists (fun x => Py.hashable (f x) = false) l -> False.
Proof.
  intros Hf He. apply Exists_exists in He. destruct He as (x & Hin & Hx).
  rewrite Forall_forall in Hf. rewrite (Hf x Hin) in Hx. discriminate.
Qed.

Lemma conversations_max (convs : list Conversation) :
  Z.max (Z.of_nat (List.length convs)) 1 <> 0 /\
  Z.abs (Z.max (Z.of_nat (List.length convs)) 1)
  = Z.max (Z.of_nat (List.length convs)) 1.
Proof. split; lia. Qed.

(** The three ways in which the statistics end. *)
Lemma usage_statistics_cases (convs : list Conversation) :
  (Exists (fun conv => Py.hashable (model conv) = false) convs /\
   usage_statistics convs = Raise TypeError) \/
  (Forall (fun conv => Py.hashable (model conv) = true) convs /\
   ~ averages_in_range convs /\ usage_statistics convs = Raise OverflowError) \/
  (Forall (fun conv => Py.hashable (model conv) = true) convs /\
   averages_in_range convs /\ exists s, usage_statistics convs = Ok s).
Proof.
  destruct (hashable_or_not model convs) as [Hf | He].
  - right.
    assert (Hm : Forall (fun k => Py.hashable k = true) (map model convs)).
    { rewrite Forall_forall in *. intros k Hin. apply in_map_iff in Hin.
      destruct Hin as (conv & <- & Hin). apply Hf, Hin. }
    assert (Hp : Forall (fun k => Py.hashable k = true)
                        (map (fun conv => JStr (project_context conv)) convs)).
    { rewrite Forall_forall. intros k Hin. apply in_map_iff in Hin.
      destruct Hin as (? & <- & _). reflexivity. }
    assert (Hs : Forall (fun k => Py.hashable k = true)
                        (map (fun conv => JStr (status conv)) convs)).
    { rewrite Forall_forall. intros k Hin. apply in_map_iff in Hin.
      destruct Hin as (? & <- & _). reflexivity. }
    destruct (counter_total Hm []) as [dm Hdm].
    destruct (counter_total Hp []) as [dp Hdp].
    destruct (counter_total Hs []) as [ds Hds].
    destruct (conversations_max convs) as [Hn0 Habs].
    unfold averages_in_range. cbv zeta.
    set (n := Z.max (Z.of_nat (List.length convs)) 1) in *.
    set (tt := sum (map total_tokens convs)).
    set (tm := sum (map (fun conv => Z.of_nat (List.length (messages conv))) convs)).
    assert (Hunf : usage_statistics convs =
                   (avg_tokens <- true_div tt n ;;
                    avg_messages <- true_div tm n ;;
                    Ok {| Stats.total_conversations := Z.of_nat (List.length convs);
                          Stats.total_messages := tm;
                          Stats.total_tokens := tt;
                          Stats.models := dm;
                          Stats.projects := dp;
                          Stats.daily_usage := fold_left daily_step convs [];
                          Stats.statuses := ds;
                          Stats.avg_tokens_per_conversation := avg_tokens;
                          Stats.avg_messages_per_conversation := avg_messages |})).
    { unfold usage_statistics, counter. rewrite Hdm, Hdp, Hds. reflexivity. }
    rewrite Hunf.
    destruct (Z.lt_ge_cases (Z.abs tt) (float_overflow * n)) as [Ht | Ht].
    + destruct (Z.lt_ge_cases (Z.abs tm) (float_overflow * n)) as [Hm' | Hm'].
      * right. split; [exact Hf|]. split; [split; assumption|].
        rewrite (@true_div_in_range tt n Hn0), (@true_div_in_range tm n Hn0);
          [eexists; reflexivity | rewrite Habs; exact Hm' | rewrite Habs; exact Ht].
      * left. split; [exact Hf|]. split; [intros [_ Hc]; lia|].
        rewrite (@true_div_in_range tt n Hn0) by (rewrite Habs; exact Ht).
        cbn [bind]. rewrite (@true_div_overflow tm n Hn0) by (rewrite Habs; exact Hm').
        reflexivity.
    + left. split; [exact Hf|]. split; [intros [Hc _]; lia|].
      rewrite (@true_div_overflow tt n Hn0) by (rewrite Habs; exact Ht). reflexivity.
  - left. split; [exact He|].
    assert (Hm : Exists (fun k => Py.hashable k = false) (map model convs)).
    { apply Exists_exists in He. destruct He as (conv & Hin & Hc).
      apply Exists_exists. exists (model conv). split; [apply in_map, Hin | exact Hc]. }
    unfold usage_statistics, counter. rewrite (counter_raises Hm). reflexivity.
Qed.

(** X15.  Aggregation ends in one of three ways.  It raises [TypeError]
    exactly when some conversation has a model that cannot be hashed (a
    list or an object), which [Counter] rejects.  Otherwise it raises
    [OverflowError] exactly when an average is out of the range of
    floats: the total of the tokens, or of the messages, is at least
    [2 ** 1024 - 2 ** 970] times the number of conversations.  In every
    other case it succeeds. *)
Theorem aggregation_failure (self : analyzer) :
  ((exists self', analyze_usage_patterns self = Ok self') <->
   Forall (fun conv => Py.hashable (model conv) = true) (conversations self) /\
   averages_in_range (conversations self)) /\
  (analyze_usage_patterns self = Raise TypeError <->
   Exists (fun conv => Py.hashable (model conv) = false) (conversations self)) /\
  (analyze_usage_patterns self = Raise OverflowError <->
   Forall (fun conv => Py.hashable (model conv) = true) (conversations self) /\
   ~ averages_in_range (conversations self)).
Proof.
  unfold analyze_usage_patterns.
  destruct (conversations self) as [|c cs] eqn:E.
  - assert (Hr : averages_in_range []).
    { unfold averages_in_range. simpl. change (sum []) with 0. simpl.
      pose proof float_overflow_pos. split; lia. }
    split; [|split].
    + split; [intros _; split; [constructor | exact Hr] | intros _; eexists; reflexivity].
    + split; [discriminate | intros He; inversion He].
    + split; [discriminate | intros [_ Hn]; contradiction].
  - destruct (usage_statistics_cases (c :: cs))
      as [(He & Hu) | [(Hf & Hn & Hu) | (Hf & Hr & s & Hu)]]; rewrite Hu; cbn [bind].
    + split; [|split].
      * split; [intros [self' H]; discriminate H|].
        intros [Hf _]. destruct (hashable_not_both model Hf He).
      * split; [intros _; exact He | reflexivity].
      * split; [discriminate|]. intros [Hf _]. destruct (hashable_not_both model Hf He).
    + split; [|split].
      * split; [intros [self' H]; discriminate H | intros [_ Hr]; contradiction].
      * split; [discriminate|]. intros He. destruct (hashable_not_both model Hf He).
      * split; [intros _; split; assumption | reflexivity].
    + split; [|split].
      * split; [intros _; split; assumption | intros _; eexists; reflexivity].
      * split; [discriminate|]. intros He. destruct (hashable_not_both model Hf He).
      * split; [discriminate | intros [_ Hn]; contradiction].
Qed.

(** ** The conversations handed to the page *)

Lemma In_firstn (A : Type) (n : nat) (l : list A) (x : A) :
  In x (firstn n l) -> In x l.
Proof.
  revert n. induction l as [|a l IH]; intros [|n] H; simpl in *; try contradiction.
  destruct H as [-> | H]; [left; reflexivity | right; eapply IH; exact H].
Qed.

Lemma display_positions_spec (store : list Conversation) (positions : list nat) :
  display_positions store = Ok positions ->
  NoDup positions /\
  Forall (fun i => (i < List.length store)%nat) positions /\
  List.length positions = Nat.min 50 (List.length store).
Proof.
  intros H. split; [eapply display_positions_NoDup; exact H|].
  unfold display_positions in H. bind_inv H.
  assert (Hpos : map fst (firstn 50 a) = positions) by congruence.
  assert (Hp : Permutation (combine (seq 0 (List.length store)) store) a)
    by (eapply sort_by_reverse_perm; eassumption).
  split.
  - rewrite <- Hpos. rewrite Forall_forall. intros i Hi.
    apply in_map_iff in Hi. destruct Hi as (ic & <- & Hin).
    apply In_firstn in Hin. apply (Permutation_in _ (Permutation_sym Hp)) in Hin.
    destruct ic as [i c]. apply in_combine_l in Hin. apply in_seq in Hin. simpl. lia.
  - rewrite <- Hpos, length_map, length_firstn, <- (Permutation_length Hp).
    rewrite length_combine, length_seq, Nat.min_id. reflexivity.
Qed.

Lemma shown_conversations (store store' : list Conversation) (positions ps : list nat) :
  (forall i, In i positions ->
             nth_error store' i = option_map clean_conversation (nth_error store i)) ->
  Forall (fun i => (i < List.length store)%nat) positions ->
  incl ps positions ->
  Forall2 (fun i conv => nth_error store' i = Some conv /\
                         exists c0, nth_error store i = Some c0 /\
                                    conv = clean_conversation c0)
          ps
          (flat_map (fun i => match nth_error store' i with
                              | Some conv => [conv]
                              | None => []
                              end) ps).
Proof.
  intros Hnth Hlt. induction ps as [|i ps IH]; intros Hincl; simpl; [constructor|].
  assert (Hi : In i positions) by (apply Hincl; left; reflexivity).
  rewrite Forall_forall in Hlt.
  destruct (nth_error store i) as [c0|] eqn:E.
  - rewrite (Hnth i Hi), E. simpl. constructor.
    + split; [rewrite (Hnth i Hi), E; reflexivity|].
      exists c0. split; [exact E | reflexivity].
    + apply IH. intros j Hj. apply Hincl. right. exact Hj.
  - apply nth_error_None in E. specialize (Hlt i Hi). lia.
Qed.

Lemma mem_char_app (c : ascii) (a b : string) :
  Py.mem_char c (a ++ b)%string = Py.mem_char c a || Py.mem_char c b.
Proof.
  induction a as [|c' a IH]; simpl; [reflexivity|].
  rewrite IH, orb_assoc. reflexivity.
Qed.

Lemma replace_char_removes (c : ascii) (new s : string) :
  Py.mem_char c new = false -> Py.mem_char c (Py.replace_char c new s) = false.
Proof.
  intros Hnew. induction s as [|c' s IH]; simpl; [reflexivity|].
  rewrite mem_char_app, IH, orb_false_r.
  destruct (Ascii.eqb c' c) eqn:E; [exact Hnew|].
  simpl. rewrite orb_false_r, Ascii.eqb_sym. exact E.
Qed.

Lemma replace_char_keeps_absent (c c' : ascii) (new s : string) :
  Py.mem_char c s = false -> Py.mem_char c new = false ->
  Py.mem_char c (Py.replace_char c' new s) = false.
Proof.
  intros Hs Hnew. induction s as [|x s IH]; simpl in *; [reflexivity|].
  apply orb_false_iff in Hs. destruct Hs as [Hx Hs].
  rewrite mem_char_app, (IH Hs), orb_false_r.
  destruct (Ascii.eqb x c'); [exact Hnew|]. simpl. rewrite Hx. reflexivity.
Qed.

Lemma replace_char_absent (c : ascii) (new s : string) :
  Py.mem_char c s = false -> Py.replace_char c new s = s.
Proof.
  induction s as [|x s IH]; simpl; intros H; [reflexivity|].
  apply orb_false_iff in H. destruct H as [Hx Hs].
  rewrite Ascii.eqb_sym, Hx, (IH Hs). reflexivity.
Qed.

Lemma clean_content_one_line (v : json) :
  exists s, clean_content v = JStr s /\ one_line s.
Proof.
  unfold clean_content. eexists. split; [reflexivity|]. unfold one_line.
  split; [|split].
  - apply replace_char_keeps_absent; [|reflexivity].
    apply replace_char_keeps_absent; [|reflexivity].
    apply replace_char_removes. reflexivity.
  - apply replace_char_keeps_absent; [|reflexivity].
    apply replace_char_removes. reflexivity.
  - apply replace_char_removes. reflexivity.
Qed.

Lemma clean_content_plain (s : string) :
  Py.len s <= 500 -> one_line s -> clean_content (JStr s) = JStr s.
Proof.
  intros Hlen (Hn & Hr & Ht). unfold clean_content. simpl Py.str.
  destruct (500 <? Py.len s) eqn:E; [apply Z.ltb_lt in E; lia|].
  rewrite (@replace_char_absent "010"%char _ s Hn).
  rewrite (@replace_char_absent "013"%char _ s Hr).
  rewrite (@replace_char_absent "009"%char _ s Ht). reflexivity.
Qed.

Lemma Forall2_right (A B : Type) (R : A -> B -> Prop) (l : list A) (l' : list B) :
  Forall2 R l l' -> Forall (fun y => exists x, R x y) l'.
Proof.
  induction 1 as [|x y l l' Hxy _ IH]; constructor; [exists x; exact Hxy | exact IH].
Qed.

Lemma displayed_cases (self self' : analyzer) (shown : list Conversation) :
  generate_enhanced_html self = Ok (self', shown) ->
  exists positions,
    display_positions (conversations self) = Ok positions /\
    usage_stats self' = usage_stats self /\
    List.length (conversations self') = List.length (conversations self) /\
    (forall i, nth_error (conversations self') i =
               if in_dec Nat.eq_dec i positions
               then option_map clean_conversation (nth_error (conversations self) i)
               else nth_error (conversations self) i) /\
    shown = flat_map (fun i => match nth_error (conversations self') i with
                               | Some conv => [conv]
                               | None => []
                               end) positions.
Proof.
  unfold generate_enhanced_html. intros H. bind_inv H.
  inversion Hk; subst; clear Hk. exists a. cbn [conversations usage_stats].
  split; [exact Ha|]. split; [reflexivity|].
  split; [apply fold_update_nth_length|].
  split; [|reflexivity].
  intros i. apply fold_update_nth. eapply display_positions_NoDup. exact Ha.
Qed.

(** X16.  The page gets the fifty most recently active conversations,
    or all of them when there are fewer.  Each of them is a stored
    conversation after its clean-up, the very one the analyzer now
    holds, and the content of each of its messages is a string without
    newline, carriage return or tab. *)
Theorem dashboard_display (self self' : analyzer) (shown : list Conversation) :
  generate_enhanced_html self = Ok (self', shown) ->
  List.length shown = Nat.min 50 (List.length (conversations self)) /\
  Forall (fun conv =>
            In conv (conversations self') /\
            (exists c0, In c0 (conversations self) /\ conv = clean_conversation c0) /\
            Forall (fun m => exists s, content m = JStr s /\ one_line s)
                   (messages conv))
         shown.
Proof.
  intros H. apply displayed_cases in H.
  destruct H as (positions & Hpos & _ & _ & Hnth & ->).
  destruct (display_positions_spec _ Hpos) as (Hnd & Hlt & Hlen).
  assert (Hsh : Forall2 (fun i conv =>
                   nth_error (conversations self') i = Some conv /\
                   exists c0, nth_error (conversations self) i = Some c0 /\
                              conv = clean_conversation c0)
                 positions
                 (flat_map (fun i => match nth_error (conversations self') i with
                                     | Some conv => [conv]
                                     | None => []
                                     end) positions)).
  { apply (@shown_conversations (conversations self) (conversations self')
             positions positions); [|exact Hlt | apply incl_refl].
    intros i Hi. rewrite Hnth. destruct (in_dec Nat.eq_dec i positions);
      [reflexivity | contradiction]. }
  split; [rewrite <- (Forall2_length Hsh); exact Hlen|].
  apply Forall2_right in Hsh. eapply Forall_impl; [|exact Hsh].
  intros conv (i & Hi & c0 & Hc0 & ->).
  split; [eapply nth_error_In; exact Hi|].
  split; [exists c0; split; [eapply nth_error_In; exact Hc0 | reflexivity]|].
  unfold clean_conversation. cbn [messages].
  rewrite Forall_forall. intros m Hm. apply in_map_iff in Hm.
  destruct Hm as (m0 & <- & _). unfold clean_message. cbn [content].
  apply clean_content_one_line.
Qed.

(** X17.  Dashboard generation changes nothing in the analyzer when the
    content of every stored message is a string of at most 500
    characters without newline, carriage return or tab. *)
Theorem dashboard_keeps_plain_text (self self' : analyzer) (shown : list Conversation) :
  Forall (fun conv =>
            Forall (fun m => exists s, content m = JStr s /\ Py.len s <= 500 /\
                                       one_line s)
                   (messages conv))
         (conversations self) ->
  generate_enhanced_html self = Ok (self', shown) ->
  conversations self' = conversations self /\ usage_stats self' = usage_stats self.
Proof.
  intros Hplain H. apply displayed_cases in H.
  destruct H as (positions & _ & Hu & Hlen & Hnth & _). split; [|exact Hu].
  assert (Hclean : forall conv, In conv (conversations self) ->
                                clean_conversation conv = conv).
  { intros conv Hin. rewrite Forall_forall in Hplain. specialize (Hplain conv Hin).
    clear Hin.
    destruct conv as [i f ms tt mo ca la st pc]. unfold clean_conversation. simpl in *.
    f_equal. induction Hplain as [|m ms (s & Hs & Hl & Ho) _ IH]; simpl; [reflexivity|].
    rewrite IH. f_equal. destruct m as [r c t k]. unfold clean_message. simpl in *.
    subst c. rewrite (clean_content_plain Hl Ho). reflexivity. }
  apply nth_error_ext. intros i. rewrite Hnth.
  destruct (in_dec Nat.eq_dec i positions); [|reflexivity].
  destruct (nth_error (conversations self) i) as [conv|] eqn:E; [|reflexivity].
  simpl. rewrite (Hclean conv (nth_error_In _ _ E)). reflexivity.
Qed.

(** ** The plain report: basic statistics and sessions *)


Lemma count_field_from_sum (field : string) (data : list json) :
  forall d d',
    foldM (fun d entry =>
             k <- get_or_unknown field entry ;; update 0 (fun n => n + 1) k d)
          data d = Ok d' ->
    sum (map snd d') = sum (map snd d) + Z.of_nat (List.length data).
Proof.
  induction data as [|entry data IH]; intros d d' H.
  - simpl in H. inversion H; subst. simpl. lia.
  - simpl in H. bind_inv H. bind_inv Ha. unfold update in Hk0.
    destruct (Py.hashable a0); [|discriminate]. inversion Hk0; subst a.
    rewrite (IH _ _ Hk), upsert_count_sum.
    change (List.length (entry :: data)) with (S (List.length data)). lia.
Qed.

Lemma set_add_length (k : json) (s s' : list json) :
  set_add k s = Ok s' ->
  (List.length s <= List.length s' <= S (List.length s))%nat /\
  (1 <= List.length s')%nat.
Proof.
  unfold set_add. destruct (Py.hashable k); [|discriminate].
  destruct (existsb _ s) eqn:E; intros H; inversion H; subst.
  - split; [lia|]. destruct s'; [discriminate E | simpl; lia].
  - rewrite length_app. simpl. lia.
Qed.

Lemma key_set_from_length (field : string) (data : list json) :
  forall s s',
    foldM (fun s entry => k <- get_or_unknown field entry ;; set_add k s)
          data s = Ok s' ->
    (List.length s <= List.length s' <= List.length s + List.length data)%nat /\
    (data <> [] -> (1 <= List.length s')%nat).
Proof.
  induction data as [|entry data IH]; intros s s' H.
  - simpl in H. inversion H; subst. simpl. split; [lia | congruence].
  - simpl in H. bind_inv H. bind_inv Ha.
    destruct (set_add_length _ _ Hk0) as [Hl H1].
    destruct (IH _ _ Hk) as [Hl' _]. simpl. split; [lia | intros _; lia].
Qed.

Lemma upsert_keys (V : Type) (default : V) (f : V -> V) (k : json)
  (d : list (json * V)) :
  map fst (upsert default f k d) =
  if existsb (fun k' => Py.eqb k' k) (map fst d) then map fst d
  else map fst d ++ [k].
Proof.
  induction d as [|[k0 v0] d IH]; simpl; [reflexivity|].
  destruct (Py.eqb k0 k); simpl; [reflexivity|].
  rewrite IH. destruct (existsb _ (map fst d)); reflexivity.
Qed.

Lemma session_step_inv (g g' : sessions) (entry : json) :
  session_step g entry = Ok g' ->
  exists k, get_or_unknown "sessionId" entry = Ok k /\ Py.hashable k = true /\
            g' = upsert [] (fun messages => messages ++ [entry]) k g.
Proof.
  unfold session_step. intros H. bind_inv H. exists a. unfold update in Hk.
  destruct (Py.hashable a); [|discriminate]. inversion Hk; subst. auto.
Qed.

Lemma session_keys (data : list json) :
  forall g g',
    foldM session_step data g = Ok g' ->
    foldM (fun s entry => k <- get_or_unknown "sessionId" entry ;; set_add k s)
          data (map fst g) = Ok (map fst g').
Proof.
  induction data as [|entry data IH]; intros g g' H.
  - simpl in H. inversion H; subst. reflexivity.
  - simpl in H. bind_inv H. destruct (session_step_inv _ _ Ha) as (k & Hg & Hh & ->).
    simpl. rewrite Hg. simpl. unfold set_add. rewrite Hh. simpl.
    rewrite <- (@upsert_keys _ [] (fun messages => messages ++ [entry]) k g).
    apply IH. exact Hk.
Qed.

Lemma upsert_sizes (entry k : json) (g : sessions) :
  sum (map (fun kv => Z.of_nat (List.length (snd kv)))
           (upsert [] (fun messages => messages ++ [entry]) k g))
  = sum (map (fun kv => Z.of_nat (List.length (snd kv))) g) + 1 /\
  (Forall (fun kv => snd kv <> []) g ->
   Forall (fun kv => snd kv <> [])
          (upsert [] (fun messages => messages ++ [entry]) k g)).
Proof.
  induction g as [|[k' es] g [IH1 IH2]]; simpl.
  - split; [reflexivity|]. intros _. constructor; [discriminate | constructor].
  - destruct (Py.eqb k' k); simpl; rewrite !sum_cons.
    + split; [rewrite length_app; simpl; lia|].
      intros Hf. inversion Hf; subst. constructor; [|assumption].
      simpl. destruct es; discriminate.
    + split; [rewrite IH1; lia|].
      intros Hf. inversion Hf; subst. constructor; [assumption | auto].
Qed.

Lemma session_sizes (data : list json) :
  forall g g',
    foldM session_step data g = Ok g' ->
    sum (map (fun kv => Z.of_nat (List.length (snd kv))) g')
    = sum (map (fun kv => Z.of_nat (List.length (snd kv))) g)
      + Z.of_nat (List.length data) /\
    (Forall (fun kv => snd kv <> []) g -> Forall (fun kv => snd kv <> []) g').
Proof.
  induction data as [|entry data IH]; intros g g' H.
  - simpl in H. inversion H; subst. simpl. split; [lia | auto].
  - simpl in H. bind_inv H. destruct (session_step_inv _ _ Ha) as (k & _ & _ & ->).
    destruct (IH _ _ Hk) as [Hs Hf]. destruct (upsert_sizes entry k g) as [Us Uf].
    split; [|auto]. rewrite Hs, Us.
    change (List.length (entry :: data)) with (S (List.length data)). lia.
Qed.

Lemma session_summaries (groups : sessions) (summaries : list (Z * option ratio)) :
  mapM session_summary groups = Ok summaries ->
  map fst summaries = map (fun kv => Z.of_nat (List.length (snd kv))) groups.
Proof.
  revert summaries. induction groups as [|g groups IH]; simpl; intros summaries H.
  - inversion H. reflexivity.
  - bind_inv H. bind_inv Hk. inversion Hk0; subst. simpl.
    rewrite (IH _ Ha0). f_equal.
    unfold session_summary in Ha. bind_inv Ha. bind_inv Hk.
    inversion Hk1; subst. reflexivity.
Qed.

Lemma analyze_sessions_inv (data : list json) (s : Report.session_stats) :
  analyze_sessions data = Ok s ->
  exists groups summaries,
    foldM session_step data [] = Ok groups /\
    mapM session_summary groups = Ok summaries /\
    Report.total_sessions s = Z.of_nat (List.length groups) /\
    Report.messages_per_session s = map fst summaries /\
    Report.session_durations s = durations summaries /\
    Report.avg_messages_per_session s =
      match map fst summaries with
      | [] => None
      | _ :: _ => Some {| numerator := sum (map fst summaries);
                          denominator := Z.of_nat (List.length (map fst summaries)) |}
      end /\
    Report.avg_session_duration_minutes s =
      match durations summaries with
      | [] => None
      | _ :: _ => Some {| numerator := sum (map numerator (durations summaries));
                          denominator := 60 * Time.micros_per_second
                                         * Z.of_nat (List.length (durations summaries)) |}
      end.
Proof.
  unfold analyze_sessions. intros H. bind_inv H. bind_inv Hk. bind_inv Hk0.
  exists a, a0. inversion Hk; subst; simpl. repeat split; auto.
  destruct (map fst a0); [inversion Ha1; reflexivity|].
  bind_inv Ha1. apply true_div_ok in Ha2. destruct Ha2 as (-> & _).
  inversion Hk0; reflexivity.
Qed.

(** X20.  The basic statistics add up: [total_messages] is the number
    of entries, the counts by user type and by message type each sum to
    it, and the number of sessions lies between 1 and it (0 for no
    entry at all). *)
Theorem basic_stats_add_up (data : list json) (s : Report.basic_stats) :
  analyze_basic_stats data = Ok s ->
  Report.total_messages s = Z.of_nat (List.length data) /\
  sum (map snd (Report.user_types s)) = Report.total_messages s /\
  sum (map snd (Report.message_types s)) = Report.total_messages s /\
  Report.unique_sessions s <= Report.total_messages s /\
  (data <> [] -> 1 <= Report.unique_sessions s).
Proof.
  unfold analyze_basic_stats, key_set, count_field. intros H.
  bind_inv H. bind_inv Hk. bind_inv Hk0. inversion Hk; subst; simpl.
  destruct (key_set_from_length _ _ _ Ha) as [Hl H1].
  rewrite (count_field_from_sum _ _ _ Ha0), (count_field_from_sum _ _ _ Ha1).
  simpl in *. repeat split; try lia. intros Hne. specialize (H1 Hne). lia.
Qed.

(** X21.  The two analyses agree on the sessions: [analyze_sessions]
    counts as many sessions as [analyze_basic_stats], lists one size per
    session, every size at least 1, the sizes sum to [total_messages],
    and the average it reports is [total_messages] over
    [unique_sessions]. *)
Theorem sessions_agree_with_basic_stats (data : list json)
  (b : Report.basic_stats) (s : Report.session_stats) :
  analyze_basic_stats data = Ok b -> analyze_sessions data = Ok s ->
  Report.total_sessions s = Report.unique_sessions b /\
  Z.of_nat (List.length (Report.messages_per_session s)) = Report.total_sessions s /\
  sum (Report.messages_per_session s) = Report.total_messages b /\
  Forall (fun n => 1 <= n) (Report.messages_per_session s) /\
  (data <> [] ->
   Report.avg_messages_per_session s =
     Some {| numerator := Report.total_messages b;
             denominator := Report.unique_sessions b |}).
Proof.
  intros Hb Hs.
  destruct (analyze_sessions_inv _ Hs) as (g & sm & Hg & Hsm & Ht & Hm & _ & Ha & _).
  unfold analyze_basic_stats, key_set in Hb. bind_inv Hb. bind_inv Hk. bind_inv Hk0.
  inversion Hk; subst b; simpl. clear Hk.
  pose proof (session_keys _ _ Hg) as Hkeys. simpl in Hkeys.
  rewrite Hkeys in Ha0. inversion Ha0; subst a. rewrite length_map.
  pose proof (session_summaries _ Hsm) as Hfst.
  destruct (session_sizes _ _ Hg) as [Hsz Hne]. simpl in Hsz.
  assert (Hlen : Z.of_nat (List.length (map fst sm)) = Z.of_nat (List.length g)).
  { rewrite Hfst, length_map. reflexivity. }
  assert (Hsum : sum (map fst sm) = Z.of_nat (List.length data)).
  { rewrite Hfst, Hsz. unfold sum. simpl. lia. }
  rewrite Ht, Hm. split; [reflexivity|]. split; [exact Hlen|]. split; [exact Hsum|].
  split.
  - rewrite Hfst. specialize (Hne (Forall_nil _)).
    clear - Hne. induction Hne as [|kv l Hkv _ IH]; simpl; constructor; auto.
    destruct (snd kv); [congruence | simpl; lia].
  - intros Hd. rewrite Ha. destruct (map fst sm) eqn:E.
    + exfalso. destruct (key_set_from_length _ _ _ Hkeys) as [_ H1].
      specialize (H1 Hd). rewrite length_map in H1. simpl in Hlen. lia.
    + rewrite Hsum, Hlen. reflexivity.
Qed.

Lemma unkeyed_grouping (data acc : list json) :
  Forall unkeyed data ->
  foldM session_step data [(JStr "unknown", acc)] = Ok [(JStr "unknown", acc ++ data)].
Proof.
  intros H. revert acc. induction H as [|entry data He _ IH]; intros acc; simpl.
  - rewrite app_nil_r. reflexivity.
  - assert (Hs : session_step [(JStr "unknown", acc)] entry
                 = Ok [(JStr "unknown", acc ++ [entry])]).
    { unfold session_step. unfold unkeyed in He. rewrite He. reflexivity. }
    rewrite Hs. simpl. rewrite IH, <- app_assoc. reflexivity.
Qed.

Lemma unkeyed_groups (data : list json) :
  data <> [] -> Forall unkeyed data ->
  foldM session_step data [] = Ok [(JStr "unknown", data)].
Proof.
  intros Hne H. destruct H as [|entry data He Hf]; [congruence|].
  assert (Hs : session_step [] entry = Ok [(JStr "unknown", [entry])]).
  { unfold session_step. unfold unkeyed in He. rewrite He. reflexivity. }
  simpl. rewrite Hs. simpl. apply (unkeyed_grouping [entry] Hf).
Qed.

(** X22.  Entries without a [sessionId] are not told apart: all of them
    (with those whose [sessionId] is the string ['unknown']) make up one
    session, whose size is the number of entries. *)
Theorem entries_without_session_share_one (data : list json)
  (s : Report.session_stats) :
  data <> [] -> Forall unkeyed data -> analyze_sessions data = Ok s ->
  Report.total_sessions s = 1 /\
  Report.messages_per_session s = [Z.of_nat (List.length data)].
Proof.
  intros Hne Hu Hs.
  destruct (analyze_sessions_inv _ Hs) as (g & sm & Hg & Hsm & Ht & Hm & _).
  rewrite (unkeyed_groups Hne Hu) in Hg. inversion Hg; subst g.
  rewrite Ht, Hm, (session_summaries _ Hsm). split; reflexivity.
Qed.

(** ** The plain report: tokens, timeline and models *)

Lemma message_field_named (field : string) (entry : json) (r : option json) :
  message_field field entry = Ok r -> r = named field entry.
Proof.
  unfold message_field, named, contained.
  destruct entry as [| | |s|l|e]; simpl; try discriminate.
  - destruct (Py.contains "message" s); simpl; intros H; inversion H; reflexivity.
  - destruct (existsb _ l); simpl; intros H; inversion H; reflexivity.
  - unfold Py.has_key, Py.dict_get. destruct (Py.lookup e "message") as [m|]; simpl.
    + destruct m as [| | |s|l|md]; simpl; try discriminate.
      * destruct (Py.contains field s); simpl; intros H; inversion H; reflexivity.
      * destruct (existsb _ l); simpl; intros H; inversion H; reflexivity.
      * destruct (Py.lookup md field); simpl; intros H; inversion H; reflexivity.
    + intros H; inversion H; reflexivity.
Qed.

Lemma maximum_spec (l : list Z) :
  forall x, In (maximum x l) (x :: l) /\ Forall (fun n => n <= maximum x l) (x :: l).
Proof.
  unfold maximum. induction l as [|a l IH]; intros x; cbn [fold_left].
  - split; [left; reflexivity | constructor; [lia | constructor]].
  - destruct (IH (Z.max x a)) as [Hin Hall].
    apply in_inv in Hin. apply Forall_cons_iff in Hall. destruct Hall as [Hm Hall].
    split.
    + destruct Hin as [Hm' | Hin]; [|right; right; exact Hin].
      rewrite <- Hm'. destruct (Z.max_spec x a) as [[_ ->] | [_ ->]];
        [right; left | left]; reflexivity.
    + constructor; [lia|]. constructor; [lia | assumption].
Qed.

Lemma minimum_spec (l : list Z) :
  forall x, In (minimum x l) (x :: l) /\ Forall (fun n => minimum x l <= n) (x :: l).
Proof.
  unfold minimum. induction l as [|a l IH]; intros x; cbn [fold_left].
  - split; [left; reflexivity | constructor; [lia | constructor]].
  - destruct (IH (Z.min x a)) as [Hin Hall].
    apply in_inv in Hin. apply Forall_cons_iff in Hall. destruct Hall as [Hm Hall].
    split.
    + destruct Hin as [Hm' | Hin]; [|right; right; exact Hin].
      rewrite <- Hm'. destruct (Z.min_spec x a) as [[_ ->] | [_ ->]];
        [left | right; left]; reflexivity.
    + constructor; [lia|]. constructor; [lia | assumption].
Qed.

Lemma tokens_step_inv (st st' : Report.token_stats) (entry : json) :
  tokens_step st entry = Ok st' ->
  Report.messages_with_usage st'
  = Report.messages_with_usage st + (if names "usage" entry then 1 else 0) /\
  (exists added,
      Report.token_distribution st' = Report.token_distribution st ++ added /\
      Forall (fun n => 0 < n) added /\
      Z.of_nat (List.length added) <= (if names "usage" entry then 1 else 0) /\
      (Report.total_input_tokens st' + Report.total_output_tokens st')
      - (Report.total_input_tokens st + Report.total_output_tokens st)
      <= sum added) /\
  Report.avg_tokens_per_message st' = Report.avg_tokens_per_message st /\
  Report.max_tokens_per_message st' = Report.max_tokens_per_message st /\
  Report.min_tokens_per_message st' = Report.min_tokens_per_message st.
Proof.
  unfold tokens_step. intros H. bind_inv H. apply message_field_named in Ha.
  subst a. unfold names. destruct (named "usage" entry) as [usage|].
  - bind_inv Hk. bind_inv Hk0. bind_inv Hk. bind_inv Hk0.
    inversion Hk; subst st'; cbn [Report.messages_with_usage
      Report.token_distribution Report.total_input_tokens
      Report.total_output_tokens Report.avg_tokens_per_message
      Report.max_tokens_per_message Report.min_tokens_per_message].
    split; [reflexivity|]. split; [|auto].
    destruct (0 <? a0 + a1) eqn:E.
    + exists [a0 + a1]. apply Z.ltb_lt in E. split; [reflexivity|].
      split; [constructor; [exact E | constructor]|].
      unfold sum. simpl. split; lia.
    + exists []. apply Z.ltb_ge in E. rewrite app_nil_r. split; [reflexivity|].
      split; [constructor|]. unfold sum. simpl. split; lia.
  - inversion Hk; subst st'. split; [lia|]. split; [|auto].
    exists []. rewrite app_nil_r. split; [reflexivity|].
    split; [constructor|]. unfold sum. simpl. split; lia.
Qed.

Lemma tokens_fold_inv (data : list json) :
  forall st st',
    foldM tokens_step data st = Ok st' ->
    Report.messages_with_usage st'
    = Report.messages_with_usage st
      + Z.of_nat (List.length (filter (names "usage") data)) /\
    (exists added,
        Report.token_distribution st' = Report.token_distribution st ++ added /\
        Forall (fun n => 0 < n) added /\
        Z.of_nat (List.length added)
        <= Z.of_nat (List.length (filter (names "usage") data)) /\
        (Report.total_input_tokens st' + Report.total_output_tokens st')
        - (Report.total_input_tokens st + Report.total_output_tokens st)
        <= sum added) /\
    Report.avg_tokens_per_message st' = Report.avg_tokens_per_message st /\
    Report.max_tokens_per_message st' = Report.max_tokens_per_message st /\
    Report.min_tokens_per_message st' = Report.min_tokens_per_message st.
Proof.
  induction data as [|entry data IH]; intros st st' H.
  - simpl in H. inversion H; subst. simpl. split; [lia|]. split; [|auto].
    exists []. rewrite app_nil_r. split; [reflexivity|]. split; [constructor|].
    unfold sum. simpl. split; lia.
  - simpl in H. bind_inv H.
    destruct (tokens_step_inv _ _ Ha) as (M1 & (d1 & D1 & P1 & L1 & S1) & A1 & X1 & N1).
    destruct (IH _ _ Hk) as (M2 & (d2 & D2 & P2 & L2 & S2) & A2 & X2 & N2).
    assert (Hf : Z.of_nat (List.length (filter (names "usage") (entry :: data)))
                 = (if names "usage" entry then 1 else 0)
                   + Z.of_nat (List.length (filter (names "usage") data))).
    { simpl. destruct (names "usage" entry); simpl List.length; lia. }
    rewrite Hf. split; [lia|]. split; [|repeat split; congruence].
    exists (d1 ++ d2). rewrite D2, D1, <- app_assoc. split; [reflexivity|].
    split; [apply Forall_app; split; assumption|].
    rewrite length_app, sum_app. split; lia.
Qed.

(** X23.  The token statistics: [messages_with_usage] counts the
    entries whose [message] object has a [usage] key; the distribution
    holds only positive totals, at most one per such entry, and its sum
    is at least [total_input_tokens + total_output_tokens]; average,
    maximum and minimum are present exactly when the distribution is not
    empty, and then the maximum and the minimum are members that bound
    every member. *)
Theorem token_stats_bounds (data : list json) (t : Report.token_stats) :
  analyze_tokens data = Ok t ->
  Report.messages_with_usage t
  = Z.of_nat (List.length (filter (names "usage") data)) /\
  Forall (fun n => 0 < n) (Report.token_distribution t) /\
  Z.of_nat (List.length (Report.token_distribution t))
  <= Report.messages_with_usage t /\
  Report.total_input_tokens t + Report.total_output_tokens t
  <= sum (Report.token_distribution t) /\
  match Report.token_distribution t with
  | [] => Report.avg_tokens_per_message t = None /\
          Report.max_tokens_per_message t = None /\
          Report.min_tokens_per_message t = None
  | x :: l =>
      Report.avg_tokens_per_message t
      = Some {| numerator := sum (x :: l);
                denominator := Z.of_nat (List.length (x :: l)) |} /\
      exists mx mn,
        Report.max_tokens_per_message t = Some mx /\
        Report.min_tokens_per_message t = Some mn /\
        In mx (x :: l) /\ In mn (x :: l) /\
        Forall (fun n => mn <= n <= mx) (x :: l)
  end.
Proof.
  unfold analyze_tokens. intros H. bind_inv H.
  destruct (tokens_fold_inv _ _ Ha) as (M & (d & D & P & L & S) & A & X & N).
  cbn [Report.messages_with_usage Report.token_distribution
       Report.total_input_tokens Report.total_output_tokens
       Report.avg_tokens_per_message Report.max_tokens_per_message
       Report.min_tokens_per_message app] in *.
  subst d.
  destruct (Report.token_distribution a) as [|x l] eqn:E.
  - inversion Hk; subst t. rewrite E.
    split; [lia|]. split; [exact P|]. split; [lia|]. split; [lia|]. auto.
  - bind_inv Hk. apply true_div_ok in Ha0. destruct Ha0 as (-> & _).
    inversion Hk0; subst t; cbn [Report.messages_with_usage
      Report.token_distribution Report.total_input_tokens
      Report.total_output_tokens Report.avg_tokens_per_message
      Report.max_tokens_per_message Report.min_tokens_per_message].
    split; [lia|]. split; [exact P|]. split; [lia|]. split; [lia|].
    split; [reflexivity|]. exists (maximum x l), (minimum x l).
    destruct (maximum_spec l x) as [Imx Fmx]. destruct (minimum_spec l x) as [Imn Fmn].
    repeat split; auto.
    apply Forall_forall. intros n Hn.
    rewrite Forall_forall in Fmx, Fmn. specialize (Fmx n Hn). specialize (Fmn n Hn).
    cbv beta in *. lia.
Qed.

Lemma bump_sum (K : Type) (eqb : K -> K -> bool) (k : K) (d : list (K * Z)) :
  sum (map snd (bump eqb k d)) = sum (map snd d) + 1.
Proof.
  induction d as [|[k' n] d IH]; simpl; [reflexivity|].
  destruct (eqb k' k); simpl; rewrite !sum_cons; [lia | rewrite IH; lia].
Qed.

Lemma timeline_step_inv (st st' : Report.timeline) (entry : json) :
  timeline_step st entry = Ok st' ->
  is_object entry = true /\
  sum (map snd (Report.daily_usage st'))
  = sum (map snd (Report.daily_usage st)) + (if timed entry then 1 else 0) /\
  sum (map snd (Report.hourly_distribution st'))
  = sum (map snd (Report.hourly_distribution st)) + (if timed entry then 1 else 0).
Proof.
  unfold timeline_step, timed, timestamp_of.
  destruct entry as [| | |s|l|e]; simpl; try discriminate.
  destruct (Py.truthy (Py.dict_get e "timestamp" JNull)).
  - destruct (parse_timestamp _) as [dt|]; intros H; inversion H; subst; simpl.
    + rewrite !bump_sum. auto.
    + split; [reflexivity | split; lia].
  - intros H; inversion H; subst. split; [reflexivity | split; lia].
Qed.

Lemma timeline_fold_inv (data : list json) :
  forall st st',
    foldM timeline_step data st = Ok st' ->
    Forall (fun entry => is_object entry = true) data /\
    sum (map snd (Report.daily_usage st'))
    = sum (map snd (Report.daily_usage st))
      + Z.of_nat (List.length (filter timed data)) /\
    sum (map snd (Report.hourly_distribution st'))
    = sum (map snd (Report.hourly_distribution st))
      + Z.of_nat (List.length (filter timed data)).
Proof.
  induction data as [|entry data IH]; intros st st' H.
  - simpl in H. inversion H; subst. simpl. split; [constructor | split; lia].
  - simpl in H. bind_inv H.
    destruct (timeline_step_inv _ _ Ha) as (O1 & D1 & H1).
    destruct (IH _ _ Hk) as (O2 & D2 & H2).
    assert (Hf : Z.of_nat (List.length (filter timed (entry :: data)))
                 = (if timed entry then 1 else 0)
                   + Z.of_nat (List.length (filter timed data))).
    { simpl. destruct (timed entry); simpl List.length; lia. }
    rewrite Hf. split; [constructor; assumption | split; lia].
Qed.

Lemma timeline_fold_total (data : list json) :
  Forall (fun entry => is_object entry = true) data ->
  forall st, exists st', foldM timeline_step data st = Ok st'.
Proof.
  induction 1 as [|entry data He _ IH]; intros st; simpl.
  - eexists; reflexivity.
  - destruct entry as [| | |s|l|e]; try discriminate He.
    unfold timeline_step at 1. simpl.
    destruct (Py.truthy _); [destruct (parse_timestamp _)|]; simpl; apply IH.
Qed.

(** X24.  The timeline is computed exactly when every entry is an
    object; the daily counts and the hourly counts then both sum to the
    number of entries that carry a timestamp which can be read. *)
Theorem timeline_counts (data : list json) :
  ((exists t, analyze_timeline data = Ok t) <->
   Forall (fun entry => is_object entry = true) data) /\
  (forall t, analyze_timeline data = Ok t ->
     sum (map snd (Report.daily_usage t))
     = Z.of_nat (List.length (filter timed data)) /\
     sum (map snd (Report.hourly_distribution t))
     = Z.of_nat (List.length (filter timed data))).
Proof.
  unfold analyze_timeline. split; [split|].
  - intros [t H]. apply (timeline_fold_inv _ _ H).
  - intros H. apply timeline_fold_total. exact H.
  - intros t H. destruct (timeline_fold_inv _ _ H) as (_ & D & Hh).
    simpl in D, Hh. split; assumption.
Qed.

Lemma models_step_inv (d d' : list (json * Z)) (entry : json) :
  models_step d entry = Ok d' ->
  match named "model" entry with
  | Some m => Py.hashable m = true /\ d' = upsert 0 (fun n => n + 1) m d
  | None => d' = d
  end.
Proof.
  unfold models_step. intros H. bind_inv H. apply message_field_named in Ha.
  subst a. destruct (named "model" entry) as [m|].
  - unfold update in Hk. destruct (Py.hashable m); [|discriminate].
    inversion Hk; auto.
  - inversion Hk; reflexivity.
Qed.

Lemma models_fold_inv (data : list json) :
  forall d d',
    foldM models_step data d = Ok d' ->
    sum (map snd d')
    = sum (map snd d) + Z.of_nat (List.length (filter (names "model") data)) /\
    (forall k, In k (map fst d') ->
       In k (map fst d) \/
       exists entry, In entry data /\ named "model" entry = Some k) /\
    (forall k, In k (map fst d) -> In k (map fst d')) /\
    (forall entry m, In entry data -> named "model" entry = Some m ->
       exists k, In k (map fst d') /\ Py.eqb k m = true).
Proof.
  induction data as [|entry data IH]; intros d d' H.
  - simpl in H. inversion H; subst. simpl. split; [lia|].
    split; [auto|]. split; [auto|]. intros entry m [].
  - simpl in H. bind_inv H. apply models_step_inv in Ha.
    destruct (IH _ _ Hk) as (S2 & K2 & P2 & N2).
    assert (Hf : Z.of_nat (List.length (filter (names "model") (entry :: data)))
                 = (if names "model" entry then 1 else 0)
                   + Z.of_nat (List.length (filter (names "model") data))).
    { simpl. destruct (names "model" entry); simpl List.length; lia. }
    rewrite Hf. clear Hf. unfold names at 1.
    destruct (named "model" entry) as [m|] eqn:E.
    + destruct Ha as [Hh ->].
      pose proof (@upsert_keys _ 0 (fun n => n + 1) m d) as Hkeys.
      rewrite upsert_count_sum in S2. split; [lia|].
      split; [|split].
      * intros k Hin. destruct (K2 k Hin) as [Hd | (e & He & Hn)].
        -- rewrite Hkeys in Hd. destruct (existsb _ (map fst d)); [left; exact Hd|].
           apply in_app_or in Hd. destruct Hd as [Hd | [<- | []]]; [left; exact Hd|].
           right. exists entry. split; [left; reflexivity | exact E].
        -- right. exists e. split; [right; exact He | exact Hn].
      * intros k Hin. apply P2. rewrite Hkeys.
        destruct (existsb _ (map fst d)); [exact Hin | apply in_or_app; left; exact Hin].
      * intros e m' [<- | He] Hn; [|apply (N2 e m' He Hn)].
        rewrite E in Hn. inversion Hn; subst m'.
        assert (Hex : exists k, In k (map fst (upsert 0 (fun n => n + 1) m d))
                                /\ Py.eqb k m = true).
        { rewrite Hkeys. destruct (existsb _ (map fst d)) eqn:Ex.
          - apply existsb_exists in Ex. exact Ex.
          - exists m. split; [apply in_or_app; right; left; reflexivity|].
            apply eqb_hashable_refl. exact Hh. }
        destruct Hex as (k & Hin & Hk'). exists k. split; [apply P2; exact Hin | exact Hk'].
    + subst a. split; [lia|]. split; [|split].
      * intros k Hin. destruct (K2 k Hin) as [Hd | (e & He & Hn)]; [left; exact Hd|].
        right. exists e. split; [right; exact He | exact Hn].
      * exact P2.
      * intros e m' [<- | He] Hn; [congruence | apply (N2 e m' He Hn)].
Qed.

(** X25.  The model counts sum to the number of entries whose [message]
    object has a [model] key; every key of the result is the model of
    some entry, and every model of an entry is counted under a key
    equal to it. *)
Theorem models_counted (data : list json) (d : list (json * Z)) :
  analyze_models data = Ok d ->
  sum (map snd d) = Z.of_nat (List.length (filter (names "model") data)) /\
  (forall k, In k (map fst d) ->
     exists entry, In entry data /\ named "model" entry = Some k) /\
  (forall entry m, In entry data -> named "model" entry = Some m ->
     exists k, In k (map fst d) /\ Py.eqb k m = true).
Proof.
  unfold analyze_models. intros H.
  destruct (models_fold_inv _ _ H) as (S & K & _ & N). simpl in S.
  split; [exact S|]. split; [|exact N].
  intros k Hin. destruct (K k Hin) as [[] | Hex]. exact Hex.
Qed.

(** ** The plain report: session durations *)

Lemma mapM_ok_all (A B : Type) (f : A -> result B) (l : list A) (r : list B) :
  mapM f l = Ok r -> forall x, In x l -> exists y, In y r /\ f x = Ok y.
Proof.
  revert r. induction l as [|a l IH]; simpl; intros r H x Hx; [contradiction|].
  bind_inv H. bind_inv Hk. inversion Hk0; subst r. destruct Hx as [<- | Hx].
  - exists a0. split; [left; reflexivity | exact Ha].
  - destruct (IH _ Ha0 x Hx) as (y & Hy & Hf). exists y. split; [right; exact Hy | exact Hf].
Qed.

Lemma session_timestamps_spec (messages : list json) (ts : list datetime) :
  session_timestamps messages = Ok ts -> ts = stamps_of messages.
Proof.
  unfold session_timestamps.
  match goal with |- foldM ?f _ _ = _ -> _ => set (step := f) end.
  assert (G : forall acc ts',
             foldM step messages acc = Ok ts' -> ts' = acc ++ stamps_of messages).
  { induction messages as [|msg messages IH]; intros acc ts' H; simpl in H.
    - inversion H. unfold stamps_of. simpl. rewrite app_nil_r. reflexivity.
    - bind_inv H. apply IH in Hk. subst ts'. unfold step in Ha. bind_inv Ha.
      destruct msg as [| | |s|l|e]; simpl in Ha0; try discriminate.
      inversion Ha0; subst a0. unfold stamps_of. simpl. fold (stamps_of messages).
      unfold timestamp_of.
      destruct (Py.truthy _); [destruct (parse_timestamp _)|];
        inversion Hk; subst a; simpl; rewrite <- ?app_assoc; reflexivity. }
  intros H. apply (G [] ts H).
Qed.

Lemma comparable_mixed (ts : list datetime) (ta tb : datetime) (off : Z)
  (points : list Z) :
  In ta ts -> In tb ts -> dt_offset ta = Some off -> dt_offset tb = None ->
  comparable ts = Ok points -> False.
Proof.
  unfold comparable. destruct ts as [|t ts']; [intros []|].
  intros Ia Ib Oa Ob H.
  destruct (mapM_ok_all _ _ H _ Ia) as (ya & _ & Ha).
  destruct (mapM_ok_all _ _ H _ Ib) as (yb & _ & Hb).
  rewrite Oa in Ha. rewrite Ob in Hb. destruct (dt_offset t); discriminate.
Qed.

Lemma session_duration_inv (ts : list datetime) (d : ratio) :
  session_duration ts = Ok (Some d) ->
  (2 <= List.length ts)%nat /\ 0 <= numerator d /\ denominator d = 60000000.
Proof.
  unfold session_duration. destruct (1 <? List.length ts)%nat eqn:E; [|discriminate].
  apply Nat.ltb_lt in E. intros H. bind_inv H.
  destruct a as [|x l]; [discriminate|]. inversion Hk; subst d; simpl.
  destruct (maximum_spec l x) as [_ Fmx]. destruct (minimum_spec l x) as [_ Fmn].
  apply Forall_cons_iff in Fmx, Fmn. destruct Fmx as [Hmx _]. destruct Fmn as [Hmn _].
  split; [lia|]. split; [lia | reflexivity].
Qed.

Lemma sum_nonneg (l : list Z) : Forall (fun n => 0 <= n) l -> 0 <= sum l.
Proof.
  induction 1 as [|n l Hn _ IH]; [unfold sum; simpl; lia|].
  rewrite sum_cons. lia.
Qed.

Lemma stamps_of_snoc (es : list json) (entry : json) :
  Z.of_nat (List.length (stamps_of (es ++ [entry])))
  = Z.of_nat (List.length (stamps_of es)) + (if timed entry then 1 else 0).
Proof.
  unfold stamps_of, timed. rewrite flat_map_app, length_app. simpl.
  destruct (timestamp_of entry); simpl; lia.
Qed.

Lemma upsert_stamps (entry k : json) (g : sessions) :
  sum (map (fun kv => Z.of_nat (List.length (stamps_of (snd kv))))
           (upsert [] (fun messages => messages ++ [entry]) k g))
  = sum (map (fun kv => Z.of_nat (List.length (stamps_of (snd kv)))) g)
    + (if timed entry then 1 else 0).
Proof.
  induction g as [|[k' es] g IH]; simpl.
  - rewrite sum_cons. unfold sum, stamps_of, timed. simpl.
    destruct (timestamp_of entry); simpl; lia.
  - destruct (Py.eqb k' k); simpl; rewrite !sum_cons.
    + rewrite stamps_of_snoc. lia.
    + rewrite IH. lia.
Qed.

Lemma session_stamps (data : list json) :
  forall g g',
    foldM session_step data g = Ok g' ->
    sum (map (fun kv => Z.of_nat (List.length (stamps_of (snd kv)))) g')
    = sum (map (fun kv => Z.of_nat (List.length (stamps_of (snd kv)))) g)
      + Z.of_nat (List.length (filter timed data)).
Proof.
  induction data as [|entry data IH]; intros g g' H.
  - simpl in H. inversion H; subst. simpl. lia.
  - simpl in H. bind_inv H. destruct (session_step_inv _ _ Ha) as (k & _ & _ & ->).
    rewrite (IH _ _ Hk), upsert_stamps. simpl filter.
    destruct (timed entry); simpl List.length; lia.
Qed.

Lemma summaries_durations (groups : sessions) (summaries : list (Z * option ratio)) :
  mapM session_summary groups = Ok summaries ->
  Forall (fun d => 0 <= numerator d /\ denominator d = 60000000)
         (durations summaries) /\
  (List.length (durations summaries) <= List.length groups)%nat /\
  2 * Z.of_nat (List.length (durations summaries))
  <= sum (map (fun kv => Z.of_nat (List.length (stamps_of (snd kv)))) groups).
Proof.
  revert summaries.
  induction groups as [|g groups IH]; intros summaries H; simpl in H;
    cbn [map List.length].
  - inversion H. unfold sum. simpl. split; [constructor | split; lia].
  - bind_inv H. bind_inv Hk. inversion Hk0; subst summaries.
    destruct (IH _ Ha0) as (F & L & T). rewrite sum_cons.
    unfold session_summary in Ha. bind_inv Ha. bind_inv Hk.
    inversion Hk1; subst a. apply session_timestamps_spec in Ha1. subst a1.
    assert (Hdur : durations ((Z.of_nat (List.length (snd g)), a2) :: a0)
                   = match a2 with
                     | Some d => d :: durations a0
                     | None => durations a0
                     end) by (destruct a2; reflexivity).
    rewrite Hdur. clear Hdur. destruct a2 as [d|]; cbn [List.length].
    + destruct (session_duration_inv _ Ha) as (H2 & Hn & Hd).
      split; [constructor; auto|]. split; lia.
    + split; [exact F|]. split; lia.
Qed.

(** X26.  Session durations are never negative and are measured in
    minutes; a session gives at most one, and only with two readable
    timestamps or more, so twice their number is at most the number of
    entries with a readable timestamp.  Their average is present
    exactly when there is one, and is not negative. *)
Theorem session_durations_bounds (data : list json) (s : Report.session_stats) :
  analyze_sessions data = Ok s ->
  Forall (fun d => 0 <= numerator d /\ denominator d = 60000000)
         (Report.session_durations s) /\
  Z.of_nat (List.length (Report.session_durations s)) <= Report.total_sessions s /\
  2 * Z.of_nat (List.length (Report.session_durations s))
  <= Z.of_nat (List.length (filter timed data)) /\
  match Report.session_durations s with
  | [] => Report.avg_session_duration_minutes s = None
  | d :: ds =>
      exists q, Report.avg_session_duration_minutes s = Some q /\
                0 <= numerator q /\
                denominator q = 60000000 * Z.of_nat (List.length (d :: ds))
  end.
Proof.
  intros Hs.
  destruct (analyze_sessions_inv _ Hs) as (g & sm & Hg & Hsm & Ht & _ & Hd & _ & Ha).
  destruct (summaries_durations _ Hsm) as (F & L & T).
  rewrite (session_stamps _ _ Hg) in T. cbn [map] in T. change (sum []) with 0 in T.
  rewrite Hd, Ht, Ha. split; [exact F|]. split; [lia|]. split; [lia|].
  destruct (durations sm) as [|d ds] eqn:E; [reflexivity|].
  eexists. split; [reflexivity|]. cbn [numerator denominator].
  split; [|reflexivity]. apply sum_nonneg.
  apply Forall_forall. intros n Hn. apply in_map_iff in Hn.
  destruct Hn as (q & <- & Hq). rewrite Forall_forall in F. apply (F q Hq).
Qed.

Lemma upsert_filed_same (entry k : json) (g : sessions) :
  Py.hashable k = true ->
  In entry (filed_under k (upsert [] (fun messages => messages ++ [entry]) k g)).
Proof.
  intros Hh. induction g as [|[k' es] g IH]; simpl.
  - rewrite (eqb_hashable_refl _ Hh). left. reflexivity.
  - destruct (Py.eqb k' k) eqn:E; simpl; rewrite E.
    + apply in_or_app. right. left. reflexivity.
    + exact IH.
Qed.

Lemma upsert_filed_keep (a entry k k2 : json) (g : sessions) :
  In a (filed_under k g) ->
  In a (filed_under k (upsert [] (fun messages => messages ++ [entry]) k2 g)).
Proof.
  induction g as [|[k' es] g IH]; simpl; [intros []|].
  destruct (Py.eqb k' k2); simpl; destruct (Py.eqb k' k); auto.
  intros H. apply in_or_app. left. exact H.
Qed.

Lemma filed_fold (data : list json) :
  forall g g',
    foldM session_step data g = Ok g' ->
    (forall k a, In a (filed_under k g) -> In a (filed_under k g')) /\
    (forall a k, In a data -> get_or_unknown "sessionId" a = Ok k ->
                 In a (filed_under k g')).
Proof.
  induction data as [|entry data IH]; intros g g' H.
  - simpl in H. inversion H; subst. split; [auto | intros a k []].
  - simpl in H. bind_inv H. destruct (session_step_inv _ _ Ha) as (k0 & Hg & Hh & ->).
    destruct (IH _ _ Hk) as [Keep New]. split.
    + intros k a0 Hin. apply Keep. apply upsert_filed_keep. exact Hin.
    + intros a0 k [<- | Hin] Hka; [|apply (New a0 k Hin Hka)].
      rewrite Hg in Hka. inversion Hka; subst k0.
      apply Keep. apply upsert_filed_same. exact Hh.
Qed.

Lemma filed_under_In (k a : json) (g : sessions) :
  In a (filed_under k g) -> exists k', In (k', filed_under k g) g.
Proof.
  induction g as [|[k' es] g IH]; simpl; [intros []|].
  destruct (Py.eqb k' k).
  - intros _. exists k'. left. reflexivity.
  - intros H. destruct (IH H) as [k'' Hin]. exists k''. right. exact Hin.
Qed.

Lemma two_members (A : Type) (x y : A) (l : list A) :
  In x l -> In y l -> x <> y -> (2 <= List.length l)%nat.
Proof.
  destruct l as [|p [|q l]]; simpl; intros Hx Hy Hne; [contradiction | | lia].
  destruct Hx as [<- | []], Hy as [<- | []]. congruence.
Qed.

Lemma stamps_of_In (entry : json) (entries : list json) (dt : datetime) :
  In entry entries -> timestamp_of entry = Some dt -> In dt (stamps_of entries).
Proof.
  intros Hin Ht. unfold stamps_of. apply in_flat_map. exists entry.
  split; [exact Hin|]. rewrite Ht. left. reflexivity.
Qed.

(** X27.  A session that holds a timestamp with an offset and a
    timestamp without one cannot be measured: [analyze_sessions] raises
    instead of returning. *)
Theorem mixed_timestamps_fail (data : list json) (a b k : json)
  (ta tb : datetime) (off : Z) :
  In a data -> In b data ->
  get_or_unknown "sessionId" a = Ok k -> get_or_unknown "sessionId" b = Ok k ->
  timestamp_of a = Some ta -> timestamp_of b = Some tb ->
  dt_offset ta = Some off -> dt_offset tb = None ->
  exists e, analyze_sessions data = Raise e.
Proof.
  intros Ia Ib Ka Kb Ta Tb Oa Ob.
  destruct (analyze_sessions data) as [s|e] eqn:Hs; [exfalso | exists e; reflexivity].
  destruct (analyze_sessions_inv _ Hs) as (g & sm & Hg & Hsm & _).
  destruct (filed_fold _ _ Hg) as [_ New].
  pose proof (New a k Ia Ka) as Fa. pose proof (New b k Ib Kb) as Fb.
  destruct (filed_under_In _ _ _ Fa) as [k' Hin].
  destruct (mapM_ok_all _ _ Hsm _ Hin) as (y & _ & Hy).
  unfold session_summary in Hy. simpl in Hy. bind_inv Hy. bind_inv Hk.
  apply session_timestamps_spec in Ha. subst a0.
  pose proof (stamps_of_In _ _ Fa Ta) as Sa. pose proof (stamps_of_In _ _ Fb Tb) as Sb.
  assert (Hne : ta <> tb) by congruence.
  pose proof (@two_members _ _ _ _ Sa Sb Hne) as H2.
  unfold session_duration in Ha0.
  destruct (1 <? List.length (stamps_of (filed_under k g)))%nat eqn:E;
    [|apply Nat.ltb_ge in E; lia].
  bind_inv Ha0. apply (@comparable_mixed _ _ _ _ _ Sa Sb Oa Ob Ha).
Qed.

(** ** The plain report: the script *)






(** ** The order of the displayed conversations *)

Section PureKeySort.

Variable A : Type.
Variable key : A -> json.





End PureKeySort.








(** ** What dashboard generation changes *)




End Dashboard.

(** * The properties on the sample logs *)

Open Scope list_scope.

(** C2.  The classifier reads [time_diff.seconds], the seconds field of
    the difference, where the comparison with five minutes and one hour
    needs the whole difference: a conversation last active one day and
    two minutes before the clock reading is classified as active. *)
Theorem C2_status_after_one_day :
  timestamp_instant Iso.fromisoformat (last_activity Samples.midnight_conversation)
  = Some Samples.midnight /\
  Time.td_total_seconds (Samples.next_day_0002 - Samples.midnight) = 86520 /\
  Time.td_seconds (Samples.next_day_0002 - Samples.midnight) = 120 /\
  determine_conversation_status Iso.fromisoformat Samples.next_day_0002
                                Samples.midnight_conversation = "active".
Proof. repeat split; vm_compute; reflexivity. Qed.






(** Two files that each hold an entry of session [a] give two
    conversations with that id, one message each: entries of one
    session that sit in different files are not merged. *)
Lemma C4_two_files_counterexample :
  exists c1 c2,
    conversations
      (load_conversation_data Samples.loads Iso.fromisoformat
         (fun _ => Samples.midnight) []
         [(Samples.log_file, [Samples.user_hi_text]);
          (Samples.other_file, [Samples.assistant_hello_text])] init)
    = [c1; c2] /\
    Py.lookup [("sessionId", JStr "a")] "sessionId" = Some (JStr "a") /\
    session_key (1%nat, Samples.user_hi) = JStr "a" /\
    session_key (1%nat, Samples.assistant_hello) = JStr "a" /\
    id c1 = JStr "a" /\ id c2 = JStr "a" /\
    map role (messages c1) = [JStr "user"] /\
    map role (messages c2) = [JStr "assistant"].
Proof.
  eexists. eexists. split; [vm_compute; reflexivity|].
  repeat split; reflexivity.
Qed.

Lemma C4_grouping_within_a_file_witness :
  exists self' warnings,
    process_jsonl_file Samples.loads Iso.fromisoformat (fun _ => Samples.midnight)
      init Samples.log_file Samples.example_lines = (self', warnings, Ok tt) /\
    exists groups convs,
      conversations self' = conversations init ++ convs /\
      Forall2 (built_from Iso.fromisoformat (path Samples.log_file)) groups convs /\
      (forall g, In g groups ->
         snd g = map snd (members (parsed_from Samples.loads 1 Samples.example_lines) (fst g))) /\
      forall ne1 ne2,
        In ne1 (parsed_from Samples.loads 1 Samples.example_lines) ->
        In ne2 (parsed_from Samples.loads 1 Samples.example_lines) ->
        (Py.eqb (session_key ne1) (session_key ne2) = true ->
         exists g, In g groups /\
           In ne1 (members (parsed_from Samples.loads 1 Samples.example_lines) (fst g)) /\
           In ne2 (members (parsed_from Samples.loads 1 Samples.example_lines) (fst g))) /\
        (Py.eqb (session_key ne1) (session_key ne2) = false ->
         forall g, In g groups ->
           ~ (In ne1 (members (parsed_from Samples.loads 1 Samples.example_lines) (fst g)) /\
              In ne2 (members (parsed_from Samples.loads 1 Samples.example_lines) (fst g)))).
Proof.
  eexists. eexists. split; [vm_compute; reflexivity|].
  eapply (C4_grouping_within_a_file Samples.loads Iso.fromisoformat
            (fun _ => Samples.midnight) init Samples.log_file Samples.example_lines).
  vm_compute. reflexivity.
Defined.

Lemma C5_assistant_content_witness :
  exists conv,
    process_session_entries Iso.fromisoformat Samples.midnight
      [Samples.assistant_bash; Samples.assistant_three_parts] (JStr "a") "logs/a.jsonl"
    = Ok conv /\
    map content (messages conv)
    = [JStr "[Tool: Bash]";
       JStr ("hello" ++ String "010"%char
                          ("[Tool: Bash]" ++ String "010"%char "[Tool: unknown_tool]"))] /\
    ((exists sorted,
        Permutation [Samples.assistant_bash; Samples.assistant_three_parts] sorted /\
        Forall2 (fun entry msg =>
                   forall e, entry = JObj e ->
                     Py.eq_str (Py.dict_get e "type" JNull) "assistant" = true ->
                     role msg = JStr "assistant" /\
                     exists md, Py.dict_get e "message" (JObj []) = JObj md /\
                       rendered_content (Py.dict_get md "content" (JArr []))
                       = Ok (content msg))
                sorted (messages conv)) /\
     (forall s, rendered_content (JStr s) = Ok (JStr s)) /\
     (forall p, Py.dict_get p "type" JNull = JStr "tool_use" ->
                Py.dict_get p "name" (JStr "unknown_tool") = JStr "Bash" ->
                rendered_content (JArr [JObj p]) = Ok (JStr "[Tool: Bash]")) /\
     (forall p, Py.dict_get p "type" JNull = JStr "tool_use" ->
                Py.lookup p "name" = None ->
                rendered_content (JArr [JObj p]) = Ok (JStr "[Tool: unknown_tool]")) /\
     (forall t p s n,
         Py.dict_get t "type" JNull = JStr "text" ->
         Py.dict_get t "text" (JStr "") = JStr s ->
         Py.dict_get p "type" JNull = JStr "tool_use" ->
         Py.dict_get p "name" (JStr "unknown_tool") = JStr n ->
         rendered_content (JArr [JObj t; JObj p])
         = Ok (JStr (s ++ String "010"%char ("[Tool: " ++ n ++ "]")))) /\
     (forall t1 t2 s1 s2,
         Py.dict_get t1 "type" JNull = JStr "text" ->
         Py.dict_get t1 "text" (JStr "") = JStr s1 ->
         Py.dict_get t2 "type" JNull = JStr "text" ->
         Py.dict_get t2 "text" (JStr "") = JStr s2 ->
         rendered_content (JArr [JObj t1; JObj t2])
         = Ok (JStr (s1 ++ String "010"%char s2)))).
Proof.
  eexists. split; [vm_compute; reflexivity|]. split; [reflexivity|].
  apply (C5_assistant_content Iso.fromisoformat Samples.midnight
           [Samples.assistant_bash; Samples.assistant_three_parts]
           (JStr "a") "logs/a.jsonl").
  vm_compute. reflexivity.
Defined.

(** Two timestamps with different UTC offsets: the text order of the
    sort puts the later instant first, so [created_at] holds the later
    and [last_activity] the earlier of the two parsed instants. *)
Lemma C6_offsets_counterexample :
  exists conv,
    process_session_entries Iso.fromisoformat Samples.midnight
      [Samples.user_offset; Samples.user_utc] (JStr "a") "logs/a.jsonl" = Ok conv /\
    map timestamp (messages conv)
    = [JStr "2024-01-01T08:00:00Z"; JStr "2024-01-01T12:00:00+05:00"] /\
    created_at conv = JStr "2024-01-01T08:00:00Z" /\
    last_activity conv = JStr "2024-01-01T12:00:00+05:00" /\
    timestamp_instant Iso.fromisoformat (created_at conv)
    = Some (1704096000 * 1000000) /\
    timestamp_instant Iso.fromisoformat (last_activity conv)
    = Some (1704092400 * 1000000) /\
    1704092400 * 1000000 < 1704096000 * 1000000.
Proof.
  eexists. split; [vm_compute; reflexivity|].
  repeat split; vm_compute; reflexivity.
Qed.

Lemma sample_string_stamped :
  Forall string_stamped [Samples.assistant_hello; Samples.user_hi].
Proof.
  repeat constructor; eexists; (split; [reflexivity|]); right; eexists; reflexivity.
Qed.

Lemma C6_least_and_greatest_timestamp_witness :
  exists conv,
    Forall string_stamped [Samples.assistant_hello; Samples.user_hi] /\
    process_session_entries Iso.fromisoformat Samples.midnight
      [Samples.assistant_hello; Samples.user_hi] (JStr "a") "logs/a.jsonl" = Ok conv /\
    created_at conv = JStr "2024-01-01T00:00:00Z" /\
    last_activity conv = JStr "2024-01-01T00:01:00Z" /\
    ((stamps (map timestamp (messages conv)) = [] ->
      created_at conv = JNull /\ last_activity conv = JNull) /\
     (stamps (map timestamp (messages conv)) <> [] ->
      exists lo hi,
        created_at conv = JStr lo /\ last_activity conv = JStr hi /\
        In (JStr lo) (stamps (map timestamp (messages conv))) /\
        In (JStr hi) (stamps (map timestamp (messages conv))) /\
        forall t, In (JStr t) (stamps (map timestamp (messages conv))) ->
                  String.leb lo t = true /\ String.leb t hi = true)).
Proof.
  eexists. split; [exact sample_string_stamped|].
  split; [vm_compute; reflexivity|]. split; [reflexivity|]. split; [reflexivity|].
  apply (C6_least_and_greatest_timestamp Iso.fromisoformat Samples.midnight
           (JStr "a") "logs/a.jsonl" sample_string_stamped).
  vm_compute. reflexivity.
Defined.

(** A [.json] file whose only message is a user message with an empty
    model: the conversation's model is that empty string, set by a
    message that is not an assistant message. *)
Lemma C7_flat_file_counterexample :
  exists conv,
    process_conversation_file Iso.fromisoformat Samples.midnight
      Samples.flat_messages Samples.json_file = Ok conv /\
    map role (messages conv) = [JStr "user"] /\
    model conv = JStr "".
Proof.
  eexists. split; [vm_compute; reflexivity|]. split; reflexivity.
Qed.

Lemma C7_session_model_witness :
  exists conv,
    process_session_entries Iso.fromisoformat Samples.midnight
      [Samples.assistant_hello; Samples.user_hi] (JStr "a") "logs/a.jsonl" = Ok conv /\
    model conv = JStr "m1" /\
    exists sorted,
      sort_by timestamp_key [Samples.assistant_hello; Samples.user_hi] = Ok sorted /\
      model conv = last (flat_map announced_model sorted) (JStr "unknown").
Proof.
  eexists. split; [vm_compute; reflexivity|]. split; [reflexivity|].
  apply (C7_session_model Iso.fromisoformat Samples.midnight
           [Samples.assistant_hello; Samples.user_hi] (JStr "a") "logs/a.jsonl").
  vm_compute. reflexivity.
Defined.



Lemma C9_aggregation_deterministic_witness :
  exists r1,
    analyze_usage_patterns Iso.fromisoformat Samples.two_line_analyzer = Ok r1 /\
    (analyze_usage_patterns Iso.fromisoformat r1 = Ok r1 /\
     (conversations Samples.two_line_analyzer = conversations Samples.two_line_analyzer ->
      conversations Samples.two_line_analyzer <> [] \/
      usage_stats Samples.two_line_analyzer = usage_stats Samples.two_line_analyzer ->
      exists r2, analyze_usage_patterns Iso.fromisoformat Samples.two_line_analyzer = Ok r2 /\
                 usage_stats r2 = usage_stats r1) /\
     (conversations Samples.two_line_analyzer <> [] ->
      Forall2 same_but_status (conversations Samples.two_line_analyzer)
              (conversations Samples.two_line_analyzer) ->
      exists r2 s1 s2,
        analyze_usage_patterns Iso.fromisoformat Samples.two_line_analyzer = Ok r2 /\
        usage_stats r1 = Some s1 /\ usage_stats r2 = Some s2 /\
        same_but_statuses s1 s2) /\
     (forall now1 now2 entries session_id fp c1,
         process_session_entries Iso.fromisoformat now1 entries session_id fp = Ok c1 ->
         exists c2,
           process_session_entries Iso.fromisoformat now2 entries session_id fp = Ok c2 /\
           same_but_status c1 c2)).
Proof.
  eexists. split; [vm_compute; reflexivity|].
  apply (C9_aggregation_deterministic Iso.fromisoformat
           Samples.two_line_analyzer Samples.two_line_analyzer).
  vm_compute. reflexivity.
Defined.

Lemma C10_synthetic_session_keys_witness :
  exists self' warnings,
    process_jsonl_file Samples.loads Iso.fromisoformat (fun _ => Samples.midnight)
      init Samples.log_file Samples.anonymous_lines = (self', warnings, Ok tt) /\
    map id (conversations self') = [JStr "session_1"; JStr "session_3"] /\
    map (fun conv => List.length (messages conv)) (conversations self') = [2%nat; 1%nat] /\
    exists groups convs,
      conversations self' = conversations init ++ convs /\
      Forall2 (built_from Iso.fromisoformat (path Samples.log_file)) groups convs /\
      distinct (map fst groups) /\
      (forall g, In g groups ->
         snd g = map snd (members (parsed_from Samples.loads 1 Samples.anonymous_lines)
                                  (fst g))) /\
      (forall n e,
          In (n, JObj e) (parsed_from Samples.loads 1 Samples.anonymous_lines) ->
          Py.lookup e "sessionId" = None ->
          exists g, In g groups /\
            fst g = JStr ("session_" ++ Py.str_of_nat n) /\
            snd g = map snd (members (parsed_from Samples.loads 1 Samples.anonymous_lines) (fst g)) /\
            In (n, JObj e) (members (parsed_from Samples.loads 1 Samples.anonymous_lines) (fst g))) /\
      (forall i j ei ej,
          In (i, JObj ei) (parsed_from Samples.loads 1 Samples.anonymous_lines) ->
          In (j, JObj ej) (parsed_from Samples.loads 1 Samples.anonymous_lines) ->
          Py.lookup ei "sessionId" = None -> Py.lookup ej "sessionId" = None ->
          i <> j ->
          forall g, In g groups ->
            ~ (In (i, JObj ei) (members (parsed_from Samples.loads 1 Samples.anonymous_lines) (fst g)) /\
               In (j, JObj ej) (members (parsed_from Samples.loads 1 Samples.anonymous_lines) (fst g)))) /\
      (forall n m e e',
          In (n, JObj e) (parsed_from Samples.loads 1 Samples.anonymous_lines) ->
          In (m, JObj e') (parsed_from Samples.loads 1 Samples.anonymous_lines) ->
          Py.lookup e "sessionId" = None ->
          Py.lookup e' "sessionId" = Some (JStr ("session_" ++ Py.str_of_nat n)) ->
          exists g, In g groups /\
            In (n, JObj e) (members (parsed_from Samples.loads 1 Samples.anonymous_lines) (fst g)) /\
            In (m, JObj e') (members (parsed_from Samples.loads 1 Samples.anonymous_lines) (fst g))).
Proof.
  eexists. eexists. split; [vm_compute; reflexivity|].
  split; [reflexivity|]. split; [reflexivity|].
  eapply (C10_synthetic_session_keys Samples.loads Iso.fromisoformat
            (fun _ => Samples.midnight) init Samples.log_file Samples.anonymous_lines).
  vm_compute. reflexivity.
Defined.

(** * The further properties on the sample logs *)

Lemma session_totals_witness :
  exists conv,
    process_session_entries Iso.fromisoformat Samples.midnight
      [Samples.assistant_hello; Samples.user_hi] (JStr "a") "logs/a.jsonl" = Ok conv /\
    (total_tokens conv = sum (map tokens (messages conv)) /\
     List.length (messages conv)
     = List.length [Samples.assistant_hello; Samples.user_hi]).
Proof.
  eexists. split; [vm_compute; reflexivity|].
  apply (session_totals Iso.fromisoformat Samples.midnight
           [Samples.assistant_hello; Samples.user_hi] (JStr "a") "logs/a.jsonl").
  vm_compute. reflexivity.
Defined.

Lemma session_roles_and_contents_witness :
  exists conv,
    process_session_entries Iso.fromisoformat Samples.midnight
      [Samples.summary_entry; Samples.user_hi] (JStr "a") "logs/a.jsonl" = Ok conv /\
    map role (messages conv) = [JStr "summary"; JStr "user"] /\
    map content (messages conv) = [JStr ""; JStr "hi"] /\
    exists sorted,
      sort_by timestamp_key [Samples.summary_entry; Samples.user_hi] = Ok sorted /\
      Forall2 role_and_content_of sorted (messages conv).
Proof.
  eexists. split; [vm_compute; reflexivity|].
  split; [reflexivity|]. split; [reflexivity|].
  apply (session_roles_and_contents Iso.fromisoformat Samples.midnight
           [Samples.summary_entry; Samples.user_hi] (JStr "a") "logs/a.jsonl").
  vm_compute. reflexivity.
Defined.

Lemma flat_file_messages_witness :
  exists conv,
    process_conversation_file Iso.fromisoformat Samples.midnight
      Samples.unordered_messages Samples.json_file = Ok conv /\
    map content (messages conv) = [JStr "import os"; JStr "done"] /\
    exists msgs,
      file_messages Samples.unordered_messages = Ok msgs /\
      id conv = JStr (stem Samples.json_file) /\
      file_path conv = path Samples.json_file /\
      messages conv = flat_map flat_message msgs /\
      Forall (fun m => tokens m = estimate_tokens (content m)) (messages conv) /\
      total_tokens conv = sum (map tokens (messages conv)).
Proof.
  eexists. split; [vm_compute; reflexivity|]. split; [reflexivity|].
  apply (flat_file_messages Iso.fromisoformat Samples.midnight
           Samples.unordered_messages Samples.json_file).
  vm_compute. reflexivity.
Defined.

Lemma flat_file_timestamps_and_model_witness :
  exists conv,
    process_conversation_file Iso.fromisoformat Samples.midnight
      Samples.unordered_messages Samples.json_file = Ok conv /\
    created_at conv = JStr "2024-01-02T00:00:00Z" /\
    last_activity conv = JStr "2024-01-01T00:00:00Z" /\
    exists msgs,
      file_messages Samples.unordered_messages = Ok msgs /\
      created_at conv = hd JNull (stamps (map timestamp (messages conv))) /\
      last_activity conv = last (stamps (map timestamp (messages conv))) JNull /\
      model conv = last (flat_map keyed_model msgs) (JStr "unknown").
Proof.
  eexists. split; [vm_compute; reflexivity|].
  split; [reflexivity|]. split; [reflexivity|].
  apply (flat_file_timestamps_and_model Iso.fromisoformat Samples.midnight
           Samples.unordered_messages Samples.json_file).
  vm_compute. reflexivity.
Defined.

Lemma flat_file_failure_witness :
  process_conversation_file Iso.fromisoformat Samples.midnight
    Samples.null_messages Samples.json_file = Raise TypeError /\
  ((exists e, process_conversation_file Iso.fromisoformat Samples.midnight
                Samples.null_messages Samples.json_file = Raise e) <->
   exists d v, Samples.null_messages = JObj d /\
               Py.lookup d "messages" = Some v /\
               (v = JNull \/ (exists b, v = JBool b) \/ exists n, v = JNum n)).
Proof.
  split; [reflexivity|].
  exact (flat_file_failure Iso.fromisoformat Samples.midnight
           Samples.null_messages Samples.json_file).
Defined.

Lemma tied_string_stamped : Forall string_stamped Samples.tied_entries.
Proof.
  repeat constructor; eexists; (split; [reflexivity|]); right; eexists; reflexivity.
Qed.

Lemma session_message_order_witness :
  exists conv,
    Forall string_stamped Samples.tied_entries /\
    process_session_entries Iso.fromisoformat Samples.midnight
      Samples.tied_entries (JStr "a") "logs/a.jsonl" = Ok conv /\
    map content (messages conv) = [JStr "one"; JStr "two"; JStr "hello"] /\
    exists sorted,
      Permutation Samples.tied_entries sorted /\
      Forall2 (fun entry msg =>
                 message_of entry msg /\ role_and_content_of entry msg)
              sorted (messages conv) /\
      map timestamp (messages conv) = map entry_timestamp sorted /\
      StronglySorted
        (fun a b => String.leb (entry_key_text a) (entry_key_text b) = true) sorted /\
      forall k,
        filter (fun e => String.eqb (entry_key_text e) k) sorted
        = filter (fun e => String.eqb (entry_key_text e) k) Samples.tied_entries.
Proof.
  eexists. split; [exact tied_string_stamped|].
  split; [vm_compute; reflexivity|]. split; [reflexivity|].
  apply (session_message_order Iso.fromisoformat Samples.midnight
           (JStr "a") "logs/a.jsonl" tied_string_stamped).
  vm_compute. reflexivity.
Defined.

Lemma reconstructed_labels_witness :
  exists conv,
    process_session_entries Iso.fromisoformat Samples.two_hours_later
      [Samples.two_line_entry] (JStr "a") "logs/a.jsonl" = Ok conv /\
    status conv = "inactive" /\ project_context conv = "general" /\
    (In (status conv) status_labels /\ In (project_context conv) project_labels).
Proof.
  eexists. split; [vm_compute; reflexivity|].
  split; [reflexivity|]. split; [reflexivity|].
  apply (reconstructed_labels Iso.fromisoformat Samples.two_hours_later).
  left. exists [Samples.two_line_entry], (JStr "a"), "logs/a.jsonl".
  vm_compute. reflexivity.
Defined.

Lemma status_unknown_iff_witness :
  determine_conversation_status Iso.fromisoformat Samples.two_hours_later
    Samples.naive_conversation = "unknown" /\
  timestamp_instant Iso.fromisoformat (last_activity Samples.naive_conversation) = None /\
  (determine_conversation_status Iso.fromisoformat Samples.two_hours_later
     Samples.naive_conversation = "unknown" <->
   Py.truthy (last_activity Samples.naive_conversation) = false \/
   timestamp_instant Iso.fromisoformat (last_activity Samples.naive_conversation) = None).
Proof.
  split; [vm_compute; reflexivity|]. split; [vm_compute; reflexivity|].
  exact (status_unknown_iff Iso.fromisoformat Samples.two_hours_later
           Samples.naive_conversation).
Defined.

Lemma status_within_a_day_witness :
  Py.truthy (last_activity Samples.midnight_conversation) = true /\
  seconds_since Iso.fromisoformat Samples.two_hours_later
    (last_activity Samples.midnight_conversation) = Some 7200 /\
  0 <= 7200 < 86400 /\
  determine_conversation_status Iso.fromisoformat Samples.two_hours_later
    Samples.midnight_conversation = status_of_age 7200.
Proof.
  split; [reflexivity|]. split; [vm_compute; reflexivity|]. split; [lia|].
  apply (status_within_a_day Iso.fromisoformat Samples.two_hours_later
           Samples.midnight_conversation);
    [reflexivity | vm_compute; reflexivity | lia].
Defined.

Lemma python_keyword_wins_witness :
  In {| role := JStr "user"; content := JStr "How do I IMPORT os?";
        timestamp := JStr "2024-01-01T00:00:00Z"; tokens := 4 |}
     (firstn 3 (messages Samples.plain_conversation)) /\
  In "import " python_terms /\
  Py.contains "import "
    (sampled {| role := JStr "user"; content := JStr "How do I IMPORT os?";
                timestamp := JStr "2024-01-01T00:00:00Z"; tokens := 4 |}) = true /\
  extract_project_context Samples.plain_conversation = "python".
Proof.
  assert (Hm : In {| role := JStr "user"; content := JStr "How do I IMPORT os?";
                     timestamp := JStr "2024-01-01T00:00:00Z"; tokens := 4 |}
                  (firstn 3 (messages Samples.plain_conversation)))
    by (left; reflexivity).
  assert (Ht : In "import " python_terms) by (right; right; left; reflexivity).
  split; [exact Hm|]. split; [exact Ht|]. split; [vm_compute; reflexivity|].
  apply (python_keyword_wins Samples.plain_conversation _ Hm Ht).
  vm_compute. reflexivity.
Defined.

Lemma jsonl_file_conservation_witness :
  exists self' warnings,
    process_jsonl_file Samples.loads Iso.fromisoformat (fun _ => Samples.midnight)
      init Samples.log_file Samples.example_lines = (self', warnings, Ok tt) /\
    warnings = [2%nat; 3%nat] /\
    exists convs,
      conversations self' = conversations init ++ convs /\
      message_count convs
      = List.length (parsed_from Samples.loads 1 Samples.example_lines) /\
      (message_count convs + List.length warnings)%nat
      = List.length Samples.example_lines.
Proof.
  eexists. eexists. split; [vm_compute; reflexivity|]. split; [reflexivity|].
  apply (jsonl_file_conservation Samples.loads Iso.fromisoformat
           (fun _ => Samples.midnight) init Samples.log_file Samples.example_lines).
  vm_compute. reflexivity.
Defined.


Lemma statistics_add_up_witness :
  exists self',
    conversations Samples.two_line_analyzer <> [] /\
    analyze_usage_patterns Iso.fromisoformat Samples.two_line_analyzer = Ok self' /\
    exists s,
      usage_stats self' = Some s /\
      Stats.total_conversations s
      = Z.of_nat (List.length (conversations Samples.two_line_analyzer)) /\
      sum (map snd (Stats.models s)) = Stats.total_conversations s /\
      sum (map snd (Stats.projects s)) = Stats.total_conversations s /\
      sum (map snd (Stats.statuses s)) = Stats.total_conversations s /\
      sum (map (fun b => day_conversations (snd b)) (Stats.daily_usage s))
      = Z.of_nat (List.length (filter (dated Iso.fromisoformat)
                                      (conversations Samples.two_line_analyzer))) /\
      sum (map (fun b => day_tokens (snd b)) (Stats.daily_usage s))
      = sum (map total_tokens (filter (dated Iso.fromisoformat)
                                      (conversations Samples.two_line_analyzer))) /\
      denominator (Stats.avg_tokens_per_conversation s) = Stats.total_conversations s /\
      denominator (Stats.avg_messages_per_conversation s) = Stats.total_conversations s /\
      1 <= Stats.total_conversations s.
Proof.
  assert (Hne : conversations Samples.two_line_analyzer <> []) by discriminate.
  eexists. split; [exact Hne|]. split; [vm_compute; reflexivity|].
  apply (statistics_add_up Iso.fromisoformat Samples.two_line_analyzer Hne).
  vm_compute. reflexivity.
Defined.

Lemma huge_conversation_reconstructed :
  process_session_entries Iso.fromisoformat Samples.midnight
    [Samples.huge_entry] (JStr "a") "logs/a.jsonl"
  = Ok Samples.huge_conversation.
Proof. vm_compute. reflexivity. Qed.

Lemma aggregation_failure_witness :
  analyze_usage_patterns Iso.fromisoformat Samples.list_model_analyzer
  = Raise TypeError /\
  analyze_usage_patterns Iso.fromisoformat Samples.huge_analyzer
  = Raise OverflowError /\
  ((exists self', analyze_usage_patterns Iso.fromisoformat Samples.huge_analyzer
                  = Ok self') <->
   Forall (fun conv => Py.hashable (model conv) = true)
          (conversations Samples.huge_analyzer) /\
   averages_in_range (conversations Samples.huge_analyzer)) /\
  (analyze_usage_patterns Iso.fromisoformat Samples.huge_analyzer = Raise TypeError <->
   Exists (fun conv => Py.hashable (model conv) = false)
          (conversations Samples.huge_analyzer)) /\
  (analyze_usage_patterns Iso.fromisoformat Samples.huge_analyzer
   = Raise OverflowError <->
   Forall (fun conv => Py.hashable (model conv) = true)
          (conversations Samples.huge_analyzer) /\
   ~ averages_in_range (conversations Samples.huge_analyzer)).
Proof.
  split; [vm_compute; reflexivity|]. split; [vm_compute; reflexivity|].
  exact (aggregation_failure Iso.fromisoformat Samples.huge_analyzer).
Defined.

Lemma dashboard_display_witness :
  exists self' shown,
    generate_enhanced_html Samples.two_line_analyzer = Ok (self', shown) /\
    List.length shown
    = Nat.min 50 (List.length (conversations Samples.two_line_analyzer)) /\
    Forall (fun conv =>
              In conv (conversations self') /\
              (exists c0, In c0 (conversations Samples.two_line_analyzer) /\
                          conv = clean_conversation c0) /\
              Forall (fun m => exists s, content m = JStr s /\ one_line s)
                     (messages conv))
           shown.
Proof.
  eexists. eexists. split; [vm_compute; reflexivity|].
  apply (dashboard_display Samples.two_line_analyzer).
  vm_compute. reflexivity.
Defined.

Lemma plain_analyzer_plain :
  Forall (fun conv =>
            Forall (fun m => exists s, content m = JStr s /\ Py.len s <= 500 /\
                                       one_line s)
                   (messages conv))
         (conversations Samples.plain_analyzer).
Proof.
  repeat constructor. eexists. split; [reflexivity|].
  split; [vm_compute; discriminate|]. repeat split; reflexivity.
Qed.

Lemma dashboard_keeps_plain_text_witness :
  exists self' shown,
    Forall (fun conv =>
              Forall (fun m => exists s, content m = JStr s /\ Py.len s <= 500 /\
                                         one_line s)
                     (messages conv))
           (conversations Samples.plain_analyzer) /\
    generate_enhanced_html Samples.plain_analyzer = Ok (self', shown) /\
    (conversations self' = conversations Samples.plain_analyzer /\
     usage_stats self' = usage_stats Samples.plain_analyzer).
Proof.
  eexists. eexists. split; [exact plain_analyzer_plain|].
  split; [vm_compute; reflexivity|].
  eapply (dashboard_keeps_plain_text Samples.plain_analyzer plain_analyzer_plain).
  vm_compute. reflexivity.
Defined.

Lemma sample_well_formed :
  Forall (well_formed_entry) [Samples.assistant_hello; Samples.user_hi].
Proof.
  constructor; [|constructor; [|constructor]].
  - split.
    + eexists. split; [reflexivity|]. right. eexists. reflexivity.
    + intros e He. inversion He; subst e; clear He. split.
      * intros H. discriminate H.
      * intros _. eexists. split; [reflexivity|]. split.
        -- intros parts Hp. inversion Hp; subst parts.
           constructor; [|constructor]. intros _. eexists. reflexivity.
        -- right. eexists. eexists. eexists. repeat split; reflexivity.
  - split.
    + eexists. split; [reflexivity|]. right. eexists. reflexivity.
    + intros e He. inversion He; subst e; clear He. split.
      * intros _. eexists. reflexivity.
      * intros H. discriminate H.
Qed.

Lemma process_session_entries_total_witness :
  Forall well_formed_entry [Samples.assistant_hello; Samples.user_hi] /\
  exists conv,
    process_session_entries Iso.fromisoformat Samples.midnight
      [Samples.assistant_hello; Samples.user_hi] (JStr "a") "logs/a.jsonl" = Ok conv.
Proof.
  split; [exact sample_well_formed|].
  exact (process_session_entries_total Iso.fromisoformat Samples.midnight
           (JStr "a") "logs/a.jsonl" sample_well_formed).
Defined.

(** * The plain report on the sample entries *)

Lemma basic_stats_add_up_witness :
  exists s,
    analyze_basic_stats Samples.report_entries = Ok s /\
    Report.total_messages s = Z.of_nat (List.length Samples.report_entries) /\
    sum (map snd (Report.user_types s)) = Report.total_messages s /\
    sum (map snd (Report.message_types s)) = Report.total_messages s /\
    Report.unique_sessions s <= Report.total_messages s /\
    (Samples.report_entries <> [] -> 1 <= Report.unique_sessions s).
Proof.
  eexists. split; [vm_compute; reflexivity|].
  apply (@basic_stats_add_up Samples.report_entries). vm_compute. reflexivity.
Defined.

Lemma sessions_agree_with_basic_stats_witness :
  exists b s,
    analyze_basic_stats Samples.report_entries = Ok b /\
    analyze_sessions Iso.fromisoformat Samples.report_entries = Ok s /\
    Report.total_sessions s = 2 /\
    Report.total_sessions s = Report.unique_sessions b /\
    Z.of_nat (List.length (Report.messages_per_session s)) = Report.total_sessions s /\
    sum (Report.messages_per_session s) = Report.total_messages b /\
    Forall (fun n => 1 <= n) (Report.messages_per_session s) /\
    (Samples.report_entries <> [] ->
     Report.avg_messages_per_session s =
       Some {| numerator := Report.total_messages b;
               denominator := Report.unique_sessions b |}).
Proof.
  eexists. eexists. split; [vm_compute; reflexivity|].
  split; [vm_compute; reflexivity|]. split; [reflexivity|].
  apply (@sessions_agree_with_basic_stats Iso.fromisoformat Samples.report_entries);
    vm_compute; reflexivity.
Defined.

Lemma entries_without_session_share_one_witness :
  exists s,
    analyze_sessions Iso.fromisoformat Samples.anonymous_entries = Ok s /\
    Report.total_sessions s = 1 /\
    Report.messages_per_session s
    = [Z.of_nat (List.length Samples.anonymous_entries)].
Proof.
  eexists. split; [vm_compute; reflexivity|].
  apply (@entries_without_session_share_one Iso.fromisoformat Samples.anonymous_entries).
  - discriminate.
  - repeat constructor.
  - vm_compute. reflexivity.
Defined.

Lemma token_stats_bounds_witness :
  exists t,
    analyze_tokens Samples.report_entries = Ok t /\
    Report.token_distribution t = [5] /\
    Report.messages_with_usage t
    = Z.of_nat (List.length (filter (names "usage") Samples.report_entries)) /\
    Forall (fun n => 0 < n) (Report.token_distribution t) /\
    Z.of_nat (List.length (Report.token_distribution t))
    <= Report.messages_with_usage t /\
    Report.total_input_tokens t + Report.total_output_tokens t
    <= sum (Report.token_distribution t) /\
    match Report.token_distribution t with
    | [] => Report.avg_tokens_per_message t = None /\
            Report.max_tokens_per_message t = None /\
            Report.min_tokens_per_message t = None
    | x :: l =>
        Report.avg_tokens_per_message t
        = Some {| numerator := sum (x :: l);
                  denominator := Z.of_nat (List.length (x :: l)) |} /\
        exists mx mn,
          Report.max_tokens_per_message t = Some mx /\
          Report.min_tokens_per_message t = Some mn /\
          In mx (x :: l) /\ In mn (x :: l) /\
          Forall (fun n => mn <= n <= mx) (x :: l)
    end.
Proof.
  eexists. split; [vm_compute; reflexivity|]. split; [reflexivity|].
  apply (@token_stats_bounds Samples.report_entries). vm_compute. reflexivity.
Defined.

Lemma models_counted_witness :
  exists d,
    analyze_models Samples.report_entries = Ok d /\
    d = [(JStr "m1", 1)] /\
    sum (map snd d)
    = Z.of_nat (List.length (filter (names "model") Samples.report_entries)) /\
    (forall k, In k (map fst d) ->
       exists entry, In entry Samples.report_entries /\
                     named "model" entry = Some k) /\
    (forall entry m, In entry Samples.report_entries ->
       named "model" entry = Some m ->
       exists k, In k (map fst d) /\ Py.eqb k m = true).
Proof.
  eexists. split; [vm_compute; reflexivity|]. split; [reflexivity|].
  apply (@models_counted Samples.report_entries). vm_compute. reflexivity.
Defined.

Lemma session_durations_bounds_witness :
  exists s,
    analyze_sessions Iso.fromisoformat Samples.report_entries = Ok s /\
    Report.session_durations s
    = [{| numerator := 7 * 3600 * 1000000; denominator := 60000000 |}] /\
    Forall (fun d => 0 <= numerator d /\ denominator d = 60000000)
           (Report.session_durations s) /\
    Z.of_nat (List.length (Report.session_durations s)) <= Report.total_sessions s /\
    2 * Z.of_nat (List.length (Report.session_durations s))
    <= Z.of_nat (List.length (filter (timed Iso.fromisoformat)
                                     Samples.report_entries)) /\
    match Report.session_durations s with
    | [] => Report.avg_session_duration_minutes s = None
    | d :: ds =>
        exists q, Report.avg_session_duration_minutes s = Some q /\
                  0 <= numerator q /\
                  denominator q = 60000000 * Z.of_nat (List.length (d :: ds))
    end.
Proof.
  eexists. split; [vm_compute; reflexivity|]. split; [reflexivity|].
  apply (@session_durations_bounds Iso.fromisoformat Samples.report_entries).
  vm_compute. reflexivity.
Defined.

Lemma mixed_timestamps_fail_witness :
  analyze_sessions Iso.fromisoformat Samples.mixed_entries = Raise TypeError /\
  exists e, analyze_sessions Iso.fromisoformat Samples.mixed_entries = Raise e.
Proof.
  split; [vm_compute; reflexivity|].
  eapply (@mixed_timestamps_fail Iso.fromisoformat Samples.mixed_entries
            Samples.user_hi Samples.user_naive (JStr "a")).
  - left. reflexivity.
  - right. left. reflexivity.
  - vm_compute. reflexivity.
  - vm_compute. reflexivity.
  - vm_compute. reflexivity.
  - vm_compute. reflexivity.
  - vm_compute. reflexivity.
  - vm_compute. reflexivity.
Defined.

Lemma newer_conversation_first :
  exists self' shown,
    generate_enhanced_html Samples.three_day_analyzer = Ok (self', shown) /\
    map id shown = [JStr "b"; JStr "a"; JStr "c"].
Proof. eexists. eexists. split; vm_compute; reflexivity. Qed.

